(** * The job-lifecycle orchestrator of the Isekai background service worker

    A shallow embedding of the background service worker
    (activeJobs / jobTimeouts / tabClosureRetries, the history and stats
    recorders, processJob, the finalize handlers, the tab-removal listener
    and pollForJob), followed by the properties of its natural-language
    specification.

    The worker is asynchronous JavaScript.  Its functions are embedded as
    programs of a small free monad [Prog]: module-level Maps are read and
    written synchronously, [chrome.storage.local] is read and written at
    awaited suspension points, and every call into the browser, the clock,
    the logger or the backend is a node answered by the environment.

    Conventions of the embedding:
    - [chrome.storage.local.get/set] never reject;
    - the logger is an environment call: the log lines it keeps under its
      own storage key are part of the trace, not of [Storage];
    - the queue client (shared/api-client.ts) is taken at its boundary: one
      awaited call per operation, fulfilled or rejected by the environment;
    - a rejection may carry any value: an [Error], [null], [undefined] or
      another value; a value that is neither [null] nor [undefined] is plain
      data, on which [JSON.stringify] returns and whose [message] property,
      when it has one, is a string;
    - [sendResponse] of the outcome-message listener is not modelled.

    The last part of the definitions and of the properties covers the rest
    of the worker (installation, polling control and its listeners) and
    the rotation of the logger. *)

From Stdlib Require Import ZArith Lia.
From stdpp Require Import base option gmap strings list fin_maps pretty relations.

Local Open Scope Z_scope.

(** ** Data model (shared/types.ts) *)

Record Deviation := {
  title : string;
  deviationUrl : string;
  thumbnailUrl : option string;
}.

Record PricePreset := { currency : string }.

Record Job := {
  job_id : string;
  deviationId : string;
  pricePresetId : string;
  price : Z;
  attempts : Z;
  deviation : Deviation;
  pricePreset : PricePreset;
}.

Inductive JobStatus := Processing | Completed | Failed.

Record JobHistoryItem := {
  hi_id : string;
  hi_title : string;
  hi_url : string;
  hi_thumbnailUrl : option string;
  hi_status : JobStatus;
  hi_timestamp : Z;
  hi_price : option Z;
}.

Record CurrentJob := { cj_id : string; cj_title : string }.

(** The counters are JavaScript numbers holding small non-negative integers;
    [++] is exact below 2^53, which no run of the worker approaches. *)
Record Stats := {
  processed : Z;
  succeeded : Z;
  failed : Z;
  lastProcessedAt : option Z;
  currentJob : option CurrentJob;
}.

Inductive LogLevel := DEBUG | INFO | SUCCESS | WARNING | ERROR.

(** ** Constants (shared/constants.ts and the head of the worker) *)

Definition DEFAULT_API_URL : string := "http://localhost:3000".
Definition DEFAULT_POLLING_INTERVAL : Z := 1.
Definition DEFAULT_RETRY_ATTEMPTS : Z := 10.
Definition DEFAULT_MAX_RETRY_DELAY : Z := 30000.
Definition JOB_TIMEOUT : Z := 120000.
Definition MAX_TAB_CLOSURE_RETRIES : Z := 3.

(** ** State *)

(** The three module-level Maps of the worker. *)
Record Mem := {
  activeJobs : gmap Z Job;
  jobTimeouts : gmap Z Z;
  tabClosureRetries : gmap string Z;
}.

(** The keys of [chrome.storage.local] the orchestrator reads or writes;
    an absent key is [None]. *)
Record Storage := {
  isRunning : option bool;
  apiKey : option string;
  apiUrl : option string;
  clientId : option string;
  pollingInterval : option Z;
  retryAttempts : option Z;
  maxRetryDelay : option Z;
  stats : option Stats;
  jobHistory : option (list JobHistoryItem);
}.

Definition set_activeJobs (f : gmap Z Job → gmap Z Job) (m : Mem) : Mem :=
  {| activeJobs := f (activeJobs m);
     jobTimeouts := jobTimeouts m;
     tabClosureRetries := tabClosureRetries m |}.

Definition set_jobTimeouts (f : gmap Z Z → gmap Z Z) (m : Mem) : Mem :=
  {| activeJobs := activeJobs m;
     jobTimeouts := f (jobTimeouts m);
     tabClosureRetries := tabClosureRetries m |}.

Definition set_tabClosureRetries (f : gmap string Z → gmap string Z) (m : Mem) : Mem :=
  {| activeJobs := activeJobs m;
     jobTimeouts := jobTimeouts m;
     tabClosureRetries := f (tabClosureRetries m) |}.

Definition set_clientId (v : string) (s : Storage) : Storage :=
  {| isRunning := isRunning s;
     apiKey := apiKey s;
     apiUrl := apiUrl s;
     clientId := Some v;
     pollingInterval := pollingInterval s;
     retryAttempts := retryAttempts s;
     maxRetryDelay := maxRetryDelay s;
     stats := stats s;
     jobHistory := jobHistory s |}.

Definition set_pollingInterval (v : Z) (s : Storage) : Storage :=
  {| isRunning := isRunning s;
     apiKey := apiKey s;
     apiUrl := apiUrl s;
     clientId := clientId s;
     pollingInterval := Some v;
     retryAttempts := retryAttempts s;
     maxRetryDelay := maxRetryDelay s;
     stats := stats s;
     jobHistory := jobHistory s |}.

Definition set_retryAttempts (v : Z) (s : Storage) : Storage :=
  {| isRunning := isRunning s;
     apiKey := apiKey s;
     apiUrl := apiUrl s;
     clientId := clientId s;
     pollingInterval := pollingInterval s;
     retryAttempts := Some v;
     maxRetryDelay := maxRetryDelay s;
     stats := stats s;
     jobHistory := jobHistory s |}.

Definition set_maxRetryDelay (v : Z) (s : Storage) : Storage :=
  {| isRunning := isRunning s;
     apiKey := apiKey s;
     apiUrl := apiUrl s;
     clientId := clientId s;
     pollingInterval := pollingInterval s;
     retryAttempts := retryAttempts s;
     maxRetryDelay := Some v;
     stats := stats s;
     jobHistory := jobHistory s |}.

Definition set_stats (v : Stats) (s : Storage) : Storage :=
  {| isRunning := isRunning s;
     apiKey := apiKey s;
     apiUrl := apiUrl s;
     clientId := clientId s;
     pollingInterval := pollingInterval s;
     retryAttempts := retryAttempts s;
     maxRetryDelay := maxRetryDelay s;
     stats := Some v;
     jobHistory := jobHistory s |}.

Definition set_jobHistory (v : list JobHistoryItem) (s : Storage) : Storage :=
  {| isRunning := isRunning s;
     apiKey := apiKey s;
     apiUrl := apiUrl s;
     clientId := clientId s;
     pollingInterval := pollingInterval s;
     retryAttempts := retryAttempts s;
     maxRetryDelay := maxRetryDelay s;
     stats := stats s;
     jobHistory := Some v |}.

(** ** The environment: browser, clock, logger and backend *)

(** A thrown value: an [Error] with its message; [null]; [undefined]; or
    any other value, with its [message] property when it has one. *)
Inductive Thrown :=
| Error (message : string)
| NonError (message : option string)
| Null
| Undefined.

(** [error instanceof Error ? error.message : 'Unknown error'] *)
Definition error_message (error : Thrown) : string :=
  match error with
  | Error m => m
  | NonError _ | Null | Undefined => "Unknown error"
  end.

(** [null] and [undefined] are the values that have no properties:
    reading one, or listing the own property names, throws a
    [TypeError]. *)
Definition nullish (error : Thrown) : bool :=
  match error with
  | Null | Undefined => true
  | Error _ | NonError _ => false
  end.

(** The [TypeError] of [Object.getOwnPropertyNames(error)] for [null] and
    [undefined], with the message of Chrome's engine. *)
Definition NOT_AN_OBJECT : Thrown :=
  Error "Cannot convert undefined or null to object".

(** How a promise settles. *)
Inductive Settled (X : Type) :=
| Fulfilled (x : X)
| Rejected (e : Thrown).
Arguments Fulfilled {X} x.
Arguments Rejected {X} e.

Record ApiClient := { client_apiUrl : string; client_apiKey : option string }.

Record Tab := { tab_id : option Z }.

Inductive TabMessage := PING | START_JOB (job : Job).

(** Synchronous calls: they return at once and do not throw. *)
Inductive Sync : Type → Type :=
| DateNow : Sync Z
    (* Date.now() *)
| SetTimeout (tabId ms : Z) : Sync Z
    (* setTimeout(() => handleJobTimeout(tabId), ms), the timer id *)
| ClearTimeout (timeoutId : Z) : Sync unit
| Log (level : LogLevel) (message : string) : Sync unit
    (* Logger.info/success/warning/error/debug, never awaited *)
| RandomUUID : Sync string.
    (* crypto.randomUUID() *)

(** Awaited calls: the caller is suspended until the promise settles. *)
Inductive Async : Type → Type :=
| GetNextJob (client : ApiClient) (clientId : string) : Async (option Job)
| CompleteJob (client : ApiClient) (jobId : string) : Async unit
| FailJob (client : ApiClient) (jobId errorMessage : string) : Async bool
    (* the willRetry field of the reply *)
| TabsCreate (url : string) : Async Tab
| TabsGet (tabId : Z) : Async bool
    (* currentTab.status === 'complete' *)
| TabsRemove (tabId : Z) : Async unit
| TabsSendMessage (tabId : Z) (message : TabMessage) : Async (option bool)
    (* None: a falsy reply; Some b: the truthiness of .ready / .received *)
| Delay (ms : Z) : Async unit.
    (* new Promise(resolve => setTimeout(resolve, ms)) *)

(** What the worker did to its environment.  Traces are kept newest first,
    like the history list. *)
Inductive Event :=
| EvSync {X} (c : Sync X) (x : X)
| EvAsync {X} (c : Async X) (r : Settled X).

(** The environment answers every call.  An answer may depend on the call
    and on its position in the run (the number of calls made before it);
    every sequence of answers one run can receive is given by such an
    oracle. *)
Record Oracle := {
  sync : ∀ X, nat → Sync X → X;
  async : ∀ X, nat → Async X → Settled X;
}.
Arguments sync o {X} n c.
Arguments async o {X} n c.

(** ** Programs *)

Inductive Prog (A : Type) : Type :=
| Ret (a : A)
| Throw (e : Thrown)
| Act {X} (c : Sync X) (k : X → Prog A)
| Await {X} (c : Async X) (k : Settled X → Prog A)
| MemRead (k : Mem → Prog A)
| MemWrite (f : Mem → Mem) (k : Prog A)
| StoreGet (k : Storage → Prog A)
    (* await chrome.storage.local.get(...) *)
| StoreSet (f : Storage → Storage) (k : Prog A).
    (* await chrome.storage.local.set(...) *)
Arguments Ret {A} a.
Arguments Throw {A} e.
Arguments Act {A X} c k.
Arguments Await {A X} c k.
Arguments MemRead {A} k.
Arguments MemWrite {A} f k.
Arguments StoreGet {A} k.
Arguments StoreSet {A} f k.

Fixpoint bind {A B} (p : Prog A) (f : A → Prog B) : Prog B :=
  match p with
  | Ret a => f a
  | Throw e => Throw e
  | Act c k => Act c (λ x, bind (k x) f)
  | Await c k => Await c (λ r, bind (k r) f)
  | MemRead k => MemRead (λ m, bind (k m) f)
  | MemWrite g k => MemWrite g (bind k f)
  | StoreGet k => StoreGet (λ s, bind (k s) f)
  | StoreSet g k => StoreSet g (bind k f)
  end.

(** [try { p } catch (error) { h error }] *)
Fixpoint catch {A} (p : Prog A) (h : Thrown → Prog A) : Prog A :=
  match p with
  | Ret a => Ret a
  | Throw e => h e
  | Act c k => Act c (λ x, catch (k x) h)
  | Await c k => Await c (λ r, catch (k r) h)
  | MemRead k => MemRead (λ m, catch (k m) h)
  | MemWrite g k => MemWrite g (catch k h)
  | StoreGet k => StoreGet (λ s, catch (k s) h)
  | StoreSet g k => StoreSet g (catch k h)
  end.

#[global] Instance Prog_ret : MRet Prog := @Ret.
#[global] Instance Prog_bind : MBind Prog := λ A B f p, bind p f.

Definition act {X} (c : Sync X) : Prog X := Act c Ret.

(** [await c]: a rejection is thrown at the caller. *)
Definition await {X} (c : Async X) : Prog X :=
  Await c (λ r, match r with Fulfilled x => Ret x | Rejected e => Throw e end).

(** A plain timer promise cannot reject. *)
Definition delay (ms : Z) : Prog unit := Await (Delay ms) (λ _, Ret tt).

Definition mem_read : Prog Mem := MemRead Ret.
Definition mem_write (f : Mem → Mem) : Prog unit := MemWrite f (Ret tt).
Definition storage_get : Prog Storage := StoreGet Ret.
Definition storage_set (f : Storage → Storage) : Prog unit := StoreSet f (Ret tt).

(** ** Running a program to completion *)

Record World := {
  mem : Mem;
  store : Storage;
  trace : list Event;
}.

Definition emit (e : Event) (w : World) : World :=
  {| mem := mem w; store := store w; trace := e :: trace w |}.
Definition on_mem (f : Mem → Mem) (w : World) : World :=
  {| mem := f (mem w); store := store w; trace := trace w |}.
Definition on_store (f : Storage → Storage) (w : World) : World :=
  {| mem := mem w; store := f (store w); trace := trace w |}.

Inductive Result (A : Type) :=
| Returned (a : A)
| Threw (e : Thrown).
Arguments Returned {A} a.
Arguments Threw {A} e.

(** [error.message] of a caught value, read without a test: the message of
    an [Error], the property of another value ([undefined] when it has
    none), and a [TypeError] for [null] and [undefined] (with the message
    of Chrome's engine). *)
Definition message_property (error : Thrown) : Result (option string) :=
  match error with
  | Error m => Returned (Some m)
  | NonError m => Returned m
  | Null => Threw (Error "Cannot read properties of null (reading 'message')")
  | Undefined =>
      Threw (Error "Cannot read properties of undefined (reading 'message')")
  end.

(** One handler run from start to end with nothing interleaved. *)
Fixpoint exec {A} (o : Oracle) (p : Prog A) (w : World) : Result A * World :=
  match p with
  | Ret a => (Returned a, w)
  | Throw e => (Threw e, w)
  | Act c k =>
      let x := sync o (length (trace w)) c in exec o (k x) (emit (EvSync c x) w)
  | Await c k =>
      let r := async o (length (trace w)) c in exec o (k r) (emit (EvAsync c r) w)
  | MemRead k => exec o (k (mem w)) w
  | MemWrite f k => exec o k (on_mem f w)
  | StoreGet k => exec o (k (store w)) w
  | StoreSet f k => exec o k (on_store f w)
  end.

(** ** JavaScript idioms *)

(** Truthiness of a number: every number but 0. *)
Definition truthy (n : Z) : bool := negb (n =? 0).

(** Truthiness of a possibly absent number, string or boolean. *)
Definition truthy_num (o : option Z) : bool :=
  match o with Some n => truthy n | None => false end.
Definition truthy_str (o : option string) : bool :=
  match o with Some s => negb (String.eqb s EmptyString) | None => false end.
Definition truthy_bool (o : option bool) : bool :=
  match o with Some b => b | None => false end.

(** [s || d] on strings. *)
Definition str_or (o : option string) (d : string) : string :=
  match o with
  | Some s => if String.eqb s EmptyString then d else s
  | None => d
  end.

(** [Array.prototype.findIndex]; [None] stands for -1. *)
Fixpoint findIndex {A} (f : A → bool) (l : list A) : option nat :=
  match l with
  | [] => None
  | x :: l' => if f x then Some O else S <$> findIndex f l'
  end.

Definition dquote : string := String (Ascii.ascii_of_nat 34) EmptyString.

(** [Math.round(price / 100)] on an integer price. *)
Definition round_div100 (n : Z) : Z := (n + 50) `div` 100.

(** ** The history recorder *)

Definition with_status (status : JobStatus) (timestamp : Z) (item : JobHistoryItem)
  : JobHistoryItem :=
  {| hi_id := hi_id item;
     hi_title := hi_title item;
     hi_url := hi_url item;
     hi_thumbnailUrl := hi_thumbnailUrl item;
     hi_status := status;
     hi_timestamp := timestamp;
     hi_price := hi_price item |}.

Definition addJobToHistory (job : Job) (status : JobStatus) : Prog unit :=
  result ← storage_get;
  let history := default [] (jobHistory result) in
  now ← act DateNow;
  let historyItem :=
    {| hi_id := job_id job;
       hi_title := title (deviation job);
       hi_url := deviationUrl (deviation job);
       hi_thumbnailUrl := thumbnailUrl (deviation job);
       hi_status := status;
       hi_timestamp := now;
       hi_price := Some (price job) |} in
  (* Add to beginning of array (newest first) *)
  let history := historyItem :: history in
  (* Keep only last 50 jobs *)
  let trimmedHistory := take 50 history in
  storage_set (set_jobHistory trimmedHistory).

Definition updateJobInHistory (jobId : string) (status : JobStatus) : Prog unit :=
  result ← storage_get;
  let history := default [] (jobHistory result) in
  match findIndex (λ item, String.eqb (hi_id item) jobId) history with
  | Some jobIndex =>
      now ← act DateNow;
      let history := alter (with_status status now) jobIndex history in
      storage_set (set_jobHistory history)
  | None => mret tt
  end.

(** ** The queue client at its boundary (shared/api-client.ts) *)

(** [new ApiClient(apiUrl, apiKey)] *)
Definition new_ApiClient (apiUrl apiKey : option string) : ApiClient :=
  {| client_apiUrl := str_or apiUrl DEFAULT_API_URL;
     client_apiKey := if truthy_str apiKey then apiKey else None |}.

Definition fromStorage : Prog ApiClient :=
  result ← storage_get;
  let apiUrl := Some (str_or (apiUrl result) DEFAULT_API_URL) in
  let apiKey := if truthy_str (apiKey result) then apiKey result else None in
  mret (new_ApiClient apiUrl apiKey).

(** ** The finalize handlers *)

Definition initialStats : Stats :=
  {| processed := 0; succeeded := 0; failed := 0;
     lastProcessedAt := None; currentJob := None |}.

(** [job?.deviation?.title || 'Unknown'] *)
Definition jobTitle_of (job : option Job) : string :=
  str_or (title ∘ deviation <$> job) "Unknown".

(** The timer bookkeeping shared by the handlers:
    [const timeoutId = jobTimeouts.get(tabId);
     if (timeoutId) { clearTimeout(timeoutId); jobTimeouts.delete(tabId); }] *)
Definition clearJobTimeout (tabId : Z) : Prog unit :=
  m ← mem_read;
  match jobTimeouts m !! tabId with
  | Some timeoutId =>
      if truthy timeoutId then
        act (ClearTimeout timeoutId);;
        mem_write (set_jobTimeouts (delete tabId))
      else mret tt
  | None => mret tt
  end.

Definition handleJobSuccess (tabId : Z) (jobId : string) : Prog unit :=
  m ← mem_read;
  let job := activeJobs m !! tabId in
  let jobTitle := jobTitle_of job in
  catch
    ((* Clear timeout *)
     clearJobTimeout tabId;;
     act (Log SUCCESS ("Job completed successfully! Exclusive sale for " +:+ dquote
                       +:+ jobTitle +:+ dquote +:+ " has been listed on DeviantArt"));;
     act (Log INFO "Marking job as complete in backend database...");;
     (* Mark job as complete in backend *)
     client ← fromStorage;
     await (CompleteJob client jobId);;
     (* Update stats *)
     statsResult ← storage_get;
     let stats0 := default initialStats (stats statsResult) in
     now ← act DateNow;
     let stats1 :=
       {| processed := processed stats0 + 1;
          succeeded := succeeded stats0 + 1;
          failed := failed stats0;
          lastProcessedAt := Some now;
          currentJob := None |} in
     storage_set (set_stats stats1);;
     act (Log INFO ("Total jobs completed: " +:+ pretty (succeeded stats1)));;
     (* Update job in history *)
     updateJobInHistory jobId Completed;;
     (* Clean up *)
     mem_write (set_activeJobs (delete tabId));;
     mem_write (set_tabClosureRetries (delete jobId));;
     (* Close tab *)
     act (Log INFO "Closing DeviantArt tab and cleaning up...");;
     await (TabsRemove tabId))
    (λ error,
       act (Log ERROR ("Error while finalizing job completion: " +:+ error_message error))).

Definition handleJobFailure (tabId : option Z) (jobId errorMessage : string) : Prog unit :=
  m ← mem_read;
  let job := if truthy_num tabId then tabId ≫= (activeJobs m !!.) else None in
  let jobTitle := jobTitle_of job in
  act (Log ERROR ("Job failed for " +:+ dquote +:+ jobTitle +:+ dquote +:+ ": "
                  +:+ errorMessage));;
  catch
    ((* Clear timeout if tabId provided *)
     match tabId with
     | Some tabId =>
         clearJobTimeout tabId;;
         mem_write (set_activeJobs (delete tabId))
     | None => mret tt
     end;;
     (* Clean up retry counter *)
     mem_write (set_tabClosureRetries (delete jobId));;
     act (Log INFO "Reporting failure to backend...");;
     (* Mark job as failed in backend *)
     client ← fromStorage;
     willRetry ← await (FailJob client jobId errorMessage);
     (if willRetry : bool then
        act (Log INFO ("Job will be retried automatically (Attempt "
                       +:+ pretty (default 0 (attempts <$> job) + 1) +:+ "/3)"))
      else
        act (Log WARNING "Job permanently failed - Maximum attempts (3) reached"));;
     (* Update stats *)
     statsResult ← storage_get;
     let stats0 := default initialStats (stats statsResult) in
     now ← act DateNow;
     let stats1 :=
       {| processed := processed stats0 + 1;
          succeeded := succeeded stats0;
          failed := failed stats0 + 1;
          lastProcessedAt := Some now;
          currentJob := None |} in
     storage_set (set_stats stats1);;
     (* Update job in history *)
     updateJobInHistory jobId Failed;;
     (* Clean up *)
     match tabId with
     | Some tabId =>
         mem_write (set_activeJobs (delete tabId));;
         (* Close tab; it may already be closed *)
         catch (await (TabsRemove tabId)) (λ _, mret tt)
     | None => mret tt
     end)
    (λ error,
       act (Log ERROR ("Failed to handle job failure: " +:+ error_message error))).

Definition handleJobTimeout (tabId : Z) : Prog unit :=
  m ← mem_read;
  match activeJobs m !! tabId with
  | None => mret tt
  | Some job =>
      act (Log WARNING ("Job " +:+ job_id job +:+ " timed out"));;
      handleJobFailure (Some tabId) (job_id job) "Job processing timed out after 2 minutes"
  end.

(** ** Dispatch *)

(** [waitForTabLoad]: the [for] loop from [attempt] with [remaining]
    iterations left. *)
Fixpoint waitForTabLoad_from (tabId : Z) (attempt : Z) (remaining : nat) : Prog unit :=
  match remaining with
  | O => Throw (Error "Tab loading timed out after 15 seconds")
  | S n =>
      delay 500;;
      complete ← await (TabsGet tabId);
      if complete : bool then
        act (Log INFO ("Tab " +:+ pretty tabId +:+ " finished loading after "
                       +:+ pretty (attempt * 500) +:+ "ms"))
      else waitForTabLoad_from tabId (attempt + 1) n
  end.

Definition waitForTabLoad (tabId : Z) : Prog unit :=
  waitForTabLoad_from tabId 1 30.

(** [waitForContentScript]: a ping that throws or is answered falsily is
    retried. *)
Fixpoint waitForContentScript_from (tabId : Z) (attempt : Z) (remaining : nat) : Prog unit :=
  match remaining with
  | O => Throw (Error "Content script did not become ready after 10 seconds")
  | S n =>
      delay 500;;
      ready ← catch
        (response ← await (TabsSendMessage tabId PING);
         if truthy_bool response then
           act (Log INFO ("Content script ready on tab " +:+ pretty tabId +:+ " after "
                          +:+ pretty (attempt * 500) +:+ "ms"));;
           mret true
         else mret false)
        (λ _,
           act (Log DEBUG ("Ping attempt " +:+ pretty attempt +:+ "/20 failed, retrying..."));;
           mret false);
      if ready : bool then mret tt
      else waitForContentScript_from tabId (attempt + 1) n
  end.

Definition waitForContentScript (tabId : Z) : Prog unit :=
  waitForContentScript_from tabId 1 20.

(** The [try] block of [processJob]. *)
Definition processJob_try (job : Job) : Prog unit :=
  (* Update stats - mark as processing *)
  statsResult ← storage_get;
  let stats0 := default initialStats (stats statsResult) in
  let stats1 :=
    {| processed := processed stats0;
       succeeded := succeeded stats0;
       failed := failed stats0;
       lastProcessedAt := lastProcessedAt stats0;
       currentJob := Some {| cj_id := job_id job; cj_title := title (deviation job) |} |} in
  storage_set (set_stats stats1);;
  (* Add job to history *)
  addJobToHistory job Processing;;
  act (Log INFO ("Opening DeviantArt page in background tab for: " +:+ dquote
                 +:+ title (deviation job) +:+ dquote));;
  (* Create background tab for the deviation *)
  tab ← await (TabsCreate (deviationUrl (deviation job)));
  if negb (truthy_num (tab_id tab)) then Throw (Error "Failed to create tab")
  else
    let tabId := default 0 (tab_id tab) in
    act (Log SUCCESS ("DeviantArt page opened (Tab ID: " +:+ pretty tabId +:+ ")"));;
    (* Track active job *)
    mem_write (set_activeJobs <[tabId := job]>);;
    (* Set timeout for job *)
    timeoutId ← act (SetTimeout tabId JOB_TIMEOUT);
    mem_write (set_jobTimeouts <[tabId := timeoutId]>);;
    (* Wait for tab to load *)
    waitForTabLoad tabId;;
    (* Wait for content script to be ready *)
    waitForContentScript tabId;;
    (* Content script is ready, send the job *)
    act (Log INFO "Sending automation instructions to content script");;
    response ← await (TabsSendMessage tabId (START_JOB job));
    if negb (truthy_bool response) then
      Throw (Error "Content script did not acknowledge job message")
    else
      act (Log SUCCESS "Content script acknowledged job, automation started").

(** The [catch] block of [processJob]. *)
Definition processJob_catch (job : Job) (error : Thrown) : Prog unit :=
  let message := error_message error in
  act (Log ERROR ("Failed to process job: " +:+ message));;
  handleJobFailure None (job_id job) message.

Definition processJob (job : Job) : Prog unit :=
  catch (processJob_try job) (processJob_catch job).

(** ** The poll tick *)

Definition pollForJob : Prog unit :=
  catch
    ((* Check if polling is enabled *)
     runningResult ← storage_get;
     if negb (truthy_bool (isRunning runningResult)) then mret tt
     else
       (* Get API key, URL and client ID *)
       result ← storage_get;
       if negb (truthy_str (apiKey result)) || negb (truthy_str (apiUrl result)) then
         act (Log WARNING "API configuration not set. Please configure in settings.")
       else if negb (truthy_str (clientId result)) then
         act (Log ERROR "Client ID not found")
       else
         act (Log INFO "Checking for new jobs in the queue...");;
         (* Fetch next job from API *)
         client ← fromStorage;
         job ← await (GetNextJob client (default EmptyString (clientId result)));
         match job with
         | None => act (Log INFO "Queue is empty - no jobs available")
         | Some job =>
             act (Log SUCCESS ("Received new job: " +:+ dquote +:+ title (deviation job)
                               +:+ dquote +:+ " (Price: $" +:+ pretty (round_div100 (price job))
                               +:+ ", Attempt " +:+ pretty (attempts job) +:+ "/3)"));;
             (* Process the job *)
             processJob job
         end)
    (λ error,
       (* the details logged with the line hold
          [JSON.stringify(error, Object.getOwnPropertyNames(error))], which
          throws before anything is logged when [error] has no properties *)
       if nullish error then Throw NOT_AN_OBJECT
       else act (Log ERROR ("Polling failed: " +:+ error_message error))).

(** ** Listeners *)

Inductive WorkerMessage :=
| JOB_SUCCESS (jobId : string)
| JOB_FAILED (jobId error : string).

(** [chrome.runtime.onMessage] for the content script's outcome signals;
    [senderTabId] is [sender.tab?.id]. *)
Definition onMessage (message : WorkerMessage) (senderTabId : option Z) : Prog unit :=
  match message with
  | JOB_SUCCESS jobId =>
      if truthy_num senderTabId then handleJobSuccess (default 0 senderTabId) jobId
      else mret tt
  | JOB_FAILED jobId error =>
      let tabId := if truthy_num senderTabId then senderTabId else None in
      handleJobFailure tabId jobId error
  end.

(** [chrome.tabs.onRemoved]: the executor tab was closed.  The two calls
    that end the listener are not awaited in the source; nothing follows
    them, so running them in place is the same program. *)
Definition onTabRemoved (tabId : Z) : Prog unit :=
  m ← mem_read;
  match activeJobs m !! tabId with
  | None => mret tt
  | Some job =>
      (* Clean up tracking *)
      mem_write (set_activeJobs (delete tabId));;
      clearJobTimeout tabId;;
      (* Get current retry count for this job *)
      m ← mem_read;
      let retryCount := default 0 (tabClosureRetries m !! job_id job) in
      if retryCount <? MAX_TAB_CLOSURE_RETRIES then
        (* Retry locally - don't waste backend retry *)
        let newRetryCount := retryCount + 1 in
        mem_write (set_tabClosureRetries <[job_id job := newRetryCount]>);;
        act (Log WARNING ("Tab " +:+ pretty tabId +:+ " closed unexpectedly. Retrying locally ("
                          +:+ pretty newRetryCount +:+ "/" +:+ pretty MAX_TAB_CLOSURE_RETRIES
                          +:+ ")..."));;
        (* Wait 2 seconds before retrying *)
        delay 2000;;
        (* Retry the job *)
        catch (processJob job)
          (λ error,
             match message_property error with
             | Threw e => Throw e
             | Returned message =>
                 (* [undefined] in a template literal reads "undefined" *)
                 let message := default "undefined" message in
                 act (Log ERROR ("Failed to retry job: " +:+ message));;
                 handleJobFailure None (job_id job) ("Retry failed: " +:+ message)
             end)
      else
        (* Max retries exceeded *)
        act (Log ERROR ("Tab closed " +:+ pretty MAX_TAB_CLOSURE_RETRIES
                        +:+ " times. Reporting to backend."));;
        mem_write (set_tabClosureRetries (delete (job_id job)));;
        handleJobFailure None (job_id job)
          ("Tab closed " +:+ pretty MAX_TAB_CLOSURE_RETRIES +:+ " times")
  end.

(** [chrome.runtime.onInstalled] *)
Definition onInstalled : Prog unit :=
  act (Log INFO "Extension installed/updated");;
  (* Generate client ID if not exists *)
  result ← storage_get;
  (if negb (truthy_str (clientId result)) then
     uuid ← act RandomUUID;
     storage_set (set_clientId uuid);;
     act (Log INFO ("Generated client ID: " +:+ uuid))
   else mret tt);;
  (* Initialize stats if not exists *)
  statsResult ← storage_get;
  (if negb (bool_decide (is_Some (stats statsResult))) then
     storage_set (set_stats initialStats)
   else mret tt);;
  (* Set default polling interval *)
  intervalResult ← storage_get;
  (if negb (truthy_num (pollingInterval intervalResult)) then
     storage_set (set_pollingInterval DEFAULT_POLLING_INTERVAL)
   else mret tt);;
  (* Set default retry settings *)
  retryResult ← storage_get;
  (if negb (truthy_num (retryAttempts retryResult)) then
     storage_set (set_retryAttempts DEFAULT_RETRY_ATTEMPTS)
   else mret tt);;
  (if negb (truthy_num (maxRetryDelay retryResult)) then
     storage_set (set_maxRetryDelay DEFAULT_MAX_RETRY_DELAY)
   else mret tt);;
  act (Log INFO "Extension initialization complete").

(** ** Observations on traces *)

Definition is_completeJob (e : Event) : bool :=
  match e with
  | EvAsync c _ => match c with CompleteJob _ _ => true | _ => false end
  | EvSync _ _ => false
  end.

Definition is_failJob (e : Event) : bool :=
  match e with
  | EvAsync c _ => match c with FailJob _ _ _ => true | _ => false end
  | EvSync _ _ => false
  end.

Definition is_getNextJob (e : Event) : bool :=
  match e with
  | EvAsync c _ => match c with GetNextJob _ _ => true | _ => false end
  | EvSync _ _ => false
  end.

(** A backend report: [completeJob] or [failJob]. *)
Definition is_report (e : Event) : bool := is_completeJob e || is_failJob e.

(** Any call of the queue client. *)
Definition is_backend (e : Event) : bool := is_getNextJob e || is_report e.

(** A dispatch opens exactly one executor tab. *)
Definition is_tabsCreate (e : Event) : bool :=
  match e with
  | EvAsync c _ => match c with TabsCreate _ => true | _ => false end
  | EvSync _ _ => false
  end.

Fixpoint count (f : Event → bool) (tr : list Event) : nat :=
  match tr with
  | [] => O
  | e :: tr' => ((if f e then 1 else 0) + count f tr')%nat
  end.

(** The calls that matter to the specification: queue-client calls and
    tab creations.  Logging, timers, pings and tab closing are not
    observed. *)
Definition observable (e : Event) : bool := is_backend e || is_tabsCreate e.

Definition observed (tr : list Event) : list Event := List.filter observable tr.

Definition history (w : World) : list JobHistoryItem :=
  default [] (jobHistory (store w)).

(** The three counters of the stored stats record ([||] default included). *)
Definition counters (s : Storage) : Z * Z * Z :=
  let st := default initialStats (stats s) in
  (processed st, succeeded st, failed st).

(** The local retry count the tab-removal listener reads:
    [tabClosureRetries.get(job.id) || 0]. *)
Definition retryCount_of (m : Mem) (jobId : string) : Z :=
  default 0 (tabClosureRetries m !! jobId).

(** ** The moment of the backend report *)

(** The world in which a handler issues its first [completeJob] or
    [failJob] request, if it issues one. *)
Fixpoint at_report {A} (o : Oracle) (p : Prog A) (w : World) : option World :=
  match p with
  | Ret _ | Throw _ => None
  | Act c k =>
      let x := sync o (length (trace w)) c in at_report o (k x) (emit (EvSync c x) w)
  | Await c k =>
      let r := async o (length (trace w)) c in
      if is_report (EvAsync c r) then Some w
      else at_report o (k r) (emit (EvAsync c r) w)
  | MemRead k => at_report o (k (mem w)) w
  | MemWrite f k => at_report o k (on_mem f w)
  | StoreGet k => at_report o (k (store w)) w
  | StoreSet f k => at_report o k (on_store f w)
  end.

(** The world at the first suspension point of a handler: the first awaited
    promise, storage access included. *)
Fixpoint at_suspension {A} (o : Oracle) (p : Prog A) (w : World) : option World :=
  match p with
  | Ret _ | Throw _ => None
  | Act c k =>
      let x := sync o (length (trace w)) c in at_suspension o (k x) (emit (EvSync c x) w)
  | Await _ _ | StoreGet _ | StoreSet _ _ => Some w
  | MemRead k => at_suspension o (k (mem w)) w
  | MemWrite f k => at_suspension o k (on_mem f w)
  end.

(** ** The event loop *)

(** What the browser can start at any time. *)
Inductive entry : Prog unit → Prop :=
| entry_installed : entry onInstalled
| entry_alarm : entry pollForJob
| entry_message message senderTabId : entry (onMessage message senderTabId)
| entry_timeout tabId : entry (handleJobTimeout tabId)
| entry_removed tabId : entry (onTabRemoved tabId).

(** One node of one task.  A finished task, or one that rejects with
    nobody awaiting it, leaves the pool. *)
Inductive task_step (m : Mem) (s : Storage) :
  Prog unit → Mem → Storage → option (Prog unit) → Prop :=
| ts_ret a : task_step m s (Ret a) m s None
| ts_throw e : task_step m s (Throw e) m s None
| ts_act X (c : Sync X) k x : task_step m s (Act c k) m s (Some (k x))
| ts_await X (c : Async X) k r : task_step m s (Await c k) m s (Some (k r))
| ts_mem_read k : task_step m s (MemRead k) m s (Some (k m))
| ts_mem_write f k : task_step m s (MemWrite f k) (f m) s (Some k)
| ts_store_get k : task_step m s (StoreGet k) m s (Some (k s))
| ts_store_set f k : task_step m s (StoreSet f k) m (f s) (Some k).

Record Config := {
  c_mem : Mem;
  c_store : Storage;
  pool : list (Prog unit);
}.

(** The console page's "clear" button removes the stored history
    ([chrome.storage.local.remove(STORAGE_KEYS.JOB_HISTORY)]). *)
Definition remove_jobHistory (s : Storage) : Storage :=
  {| isRunning := isRunning s;
     apiKey := apiKey s;
     apiUrl := apiUrl s;
     clientId := clientId s;
     pollingInterval := pollingInterval s;
     retryAttempts := retryAttempts s;
     maxRetryDelay := maxRetryDelay s;
     stats := stats s;
     jobHistory := None |}.

(** Tasks are interleaved at every node.  The event loop only switches
    tasks at suspension points, so every schedule it can produce is one of
    these. *)
Inductive step : Config → Config → Prop :=
| step_start m s ts p :
    entry p →
    step {| c_mem := m; c_store := s; pool := ts |}
         {| c_mem := m; c_store := s; pool := p :: ts |}
| step_task m s ts1 p ts2 m' s' p' :
    task_step m s p m' s' p' →
    step {| c_mem := m; c_store := s; pool := ts1 ++ p :: ts2 |}
         {| c_mem := m'; c_store := s'; pool := ts1 ++ option_list p' ++ ts2 |}
| step_clear_history m s ts :
    step {| c_mem := m; c_store := s; pool := ts |}
         {| c_mem := m; c_store := remove_jobHistory s; pool := ts |}.

Definition stats_balanced (st : Stats) : Prop :=
  processed st = succeeded st + failed st.

Definition stats_inv (s : Storage) : Prop :=
  ∀ st, stats s = Some st → stats_balanced st.

(** A program keeps a storage invariant whatever it reads and whenever it
    runs, provided every record it reads satisfies the invariant. *)
Fixpoint Preserves (Inv : Storage → Prop) {A} (p : Prog A) : Prop :=
  match p with
  | Ret _ | Throw _ => True
  | Act c k => ∀ x, Preserves Inv (k x)
  | Await c k => ∀ r, Preserves Inv (k r)
  | MemRead k => ∀ m, Preserves Inv (k m)
  | MemWrite f k => Preserves Inv k
  | StoreGet k => ∀ s, Inv s → Preserves Inv (k s)
  | StoreSet f k => (∀ s, Inv s → Inv (f s)) ∧ Preserves Inv k
  end.

(** What holds of every configuration the event loop can reach: the stored
    stats are balanced and so is whatever a pending task will store. *)
Definition config_ok (c : Config) : Prop :=
  stats_inv (c_store c) ∧ Forall (Preserves stats_inv) (pool c).

(** ** Sequences of history operations *)

Inductive HistoryOp :=
| AddJob (job : Job) (status : JobStatus)
| UpdateJob (jobId : string) (status : JobStatus).

Definition history_op (op : HistoryOp) : Prog unit :=
  match op with
  | AddJob job status => addJobToHistory job status
  | UpdateJob jobId status => updateJobInHistory jobId status
  end.

Fixpoint run_ops (o : Oracle) (ops : list HistoryOp) (w : World) : World :=
  match ops with
  | [] => w
  | op :: ops' => run_ops o ops' (exec o (history_op op) w).2
  end.

(** ** A cooperative environment and sample data *)

(** An executor that comes up and acknowledges: tabs are created with an
    id, load at once, answer the ping and acknowledge the job. *)
Definition cooperative (o : Oracle) : Prop :=
  (∀ n url, ∃ t, t ≠ 0 ∧ async o n (TabsCreate url) = Fulfilled {| tab_id := Some t |})
  ∧ (∀ n t, async o n (TabsGet t) = Fulfilled true)
  ∧ (∀ n t m, async o n (TabsSendMessage t m) = Fulfilled (Some true)).

(** The executor tab opened last. *)
Fixpoint last_created (tr : list Event) : option Z :=
  match tr with
  | [] => None
  | EvAsync (TabsCreate _) (Fulfilled t) :: _ => tab_id t
  | _ :: tr' => last_created tr'
  end.

(** The browser closes the executor tab opened last. *)
Definition crash (o : Oracle) (w : World) : World :=
  match last_created (observed (trace w)) with
  | Some t => (exec o (onTabRemoved t) w).2
  | None => w
  end.

(** A job is dispatched and its executor tab is destroyed [n] times, with
    no other signal in between. *)
Definition crash_scenario (o : Oracle) (job : Job) (n : nat) (w : World) : World :=
  Nat.iter n (crash o) (exec o (processJob job) w).2.

(** An environment in which everything succeeds; fresh tab and timer ids
    are drawn from the position of the call. *)
Definition friendly : Oracle :=
  {| sync := λ X n c,
       match c in Sync X return X with
       | DateNow => 1000 + Z.of_nat n
       | SetTimeout _ _ => 1 + Z.of_nat n
       | ClearTimeout _ => tt
       | Log _ _ => tt
       | RandomUUID => "00000000-0000-4000-8000-000000000000"
       end;
     async := λ X n c,
       match c in Async X return Settled X with
       | GetNextJob _ _ => Fulfilled None
       | CompleteJob _ _ => Fulfilled tt
       | FailJob _ _ _ => Fulfilled true
       | TabsCreate _ => Fulfilled {| tab_id := Some (100 + Z.of_nat n) |}
       | TabsGet _ => Fulfilled true
       | TabsRemove _ => Fulfilled tt
       | TabsSendMessage _ _ => Fulfilled (Some true)
       | Delay _ => Fulfilled tt
       end |}.

(** The same environment with an unreachable backend. *)
Definition backend_down : Oracle :=
  {| sync := @sync friendly;
     async := λ X n c,
       match c in Async X return Settled X with
       | GetNextJob _ _ => Rejected (Error "Network error")
       | CompleteJob _ _ => Rejected (Error "Network error")
       | FailJob _ _ _ => Rejected (Error "Network error")
       | c' => async friendly n c'
       end |}.

(** The same environment in which no tab can be opened. *)
Definition no_tabs : Oracle :=
  {| sync := @sync friendly;
     async := λ X n c,
       match c in Async X return Settled X with
       | TabsCreate _ => Rejected (Error "No current window")
       | c' => async friendly n c'
       end |}.

Definition emptyMem : Mem :=
  {| activeJobs := ∅; jobTimeouts := ∅; tabClosureRetries := ∅ |}.

Definition emptyStorage : Storage :=
  {| isRunning := None; apiKey := None; apiUrl := None; clientId := None;
     pollingInterval := None; retryAttempts := None; maxRetryDelay := None;
     stats := None; jobHistory := None |}.

(** A fresh profile: nothing stored, nothing running. *)
Definition fresh : World := {| mem := emptyMem; store := emptyStorage; trace := [] |}.

Definition fresh_config : Config :=
  {| c_mem := emptyMem; c_store := emptyStorage; pool := [] |}.

Definition sampleJob (jobId : string) : Job :=
  {| job_id := jobId;
     deviationId := "dev-1";
     pricePresetId := "preset-1";
     price := 500;
     attempts := 0;
     deviation := {| title := "Sunset";
                     deviationUrl := "https://www.deviantart.com/a/art/Sunset-1";
                     thumbnailUrl := None |};
     pricePreset := {| currency := "USD" |} |}.

(** A world in which [job] runs in tab 7. *)
Definition running (job : Job) : World :=
  {| mem := {| activeJobs := {[ 7 := job ]};
               jobTimeouts := {[ 7 := 41 ]};
               tabClosureRetries := ∅ |};
     store := set_stats initialStats emptyStorage;
     trace := [] |}.

(** [pollForJob] has something to do only when polling is enabled and the
    key, the URL and the client id are all stored and non-empty. *)
Definition poll_ready (s : Storage) : bool :=
  truthy_bool (isRunning s) && truthy_str (apiKey s) && truthy_str (apiUrl s)
  && truthy_str (clientId s).

(** The record [addJobToHistory] builds. *)
Definition historyItem_of (job : Job) (status : JobStatus) (now : Z) : JobHistoryItem :=
  {| hi_id := job_id job;
     hi_title := title (deviation job);
     hi_url := deviationUrl (deviation job);
     hi_thumbnailUrl := thumbnailUrl (deviation job);
     hi_status := status;
     hi_timestamp := now;
     hi_price := Some (price job) |}.

(** The index [updateJobInHistory] looks for. *)
Definition index_of (jobId : string) (h : list JobHistoryItem) : option nat :=
  findIndex (λ item, String.eqb (hi_id item) jobId) h.



(** The stats record a success or a failure stores. *)
Definition bump_succeeded (now : Z) (st : Stats) : Stats :=
  {| processed := processed st + 1;
     succeeded := succeeded st + 1;
     failed := failed st;
     lastProcessedAt := Some now;
     currentJob := None |}.

Definition bump_failed (now : Z) (st : Stats) : Stats :=
  {| processed := processed st + 1;
     succeeded := succeeded st;
     failed := failed st + 1;
     lastProcessedAt := Some now;
     currentJob := None |}.

(** The storage [updateJobInHistory] leaves. *)
Definition update_history (jobId : string) (status : JobStatus) (now : Z) (s : Storage)
  : Storage :=
  match index_of jobId (default [] (jobHistory s)) with
  | Some i =>
      set_jobHistory (alter (with_status status now) i (default [] (jobHistory s))) s
  | None => s
  end.

(** What a fulfilled report is followed by in storage. *)
Definition record_outcome (bump : Z → Stats → Stats) (jobId : string)
    (status : JobStatus) (now now' : Z) (s : Storage) : Storage :=
  update_history jobId status now'
    (set_stats (bump now (default initialStats (stats s))) s).

(** The stats record [processJob] stores when it begins. *)
Definition mark_processing (job : Job) (s : Storage) : Storage :=
  let stats0 := default initialStats (stats s) in
  set_stats
    {| processed := processed stats0;
       succeeded := succeeded stats0;
       failed := failed stats0;
       lastProcessedAt := lastProcessedAt stats0;
       currentJob := Some {| cj_id := job_id job; cj_title := title (deviation job) |} |}
    s.

(** The storage a dispatch leaves before any outcome: the current job is
    marked and a [Processing] record is put first in the history. *)
Definition dispatched_store (job : Job) (now : Z) (s : Storage) : Storage :=
  set_jobHistory
    (take 50 (historyItem_of job Processing now :: default [] (jobHistory s)))
    (mark_processing job s).

(** A run that touches neither the maps nor the storage and makes no
    observed call. *)
Definition quiet (w w' : World) : Prop :=
  mem w' = mem w ∧ store w' = store w ∧ observed (trace w') = observed (trace w).

(** The state of the crash scenario after [k] destructions that were all
    retried locally: the job runs in the tab opened last, [k] local retries
    are on its counter, [k] re-dispatches followed the first dispatch and
    the backend has not been called. *)
Definition mid_scenario (job : Job) (k : nat) (w0 wk : World) : Prop :=
  ∃ t, last_created (observed (trace wk)) = Some t
       ∧ activeJobs (mem wk) !! t = Some job
       ∧ retryCount_of (mem wk) (job_id job) = Z.of_nat k
       ∧ count is_tabsCreate (trace wk) = (S k + count is_tabsCreate (trace w0))%nat
       ∧ count is_backend (trace wk) = count is_backend (trace w0)
       ∧ count is_failJob (trace wk) = count is_failJob (trace w0).

(** * Further definitions: the rest of the worker *)

(** The client [ApiClient.fromStorage] builds from a storage record. *)
Definition client_of (s : Storage) : ApiClient :=
  new_ApiClient (Some (str_or (apiUrl s) DEFAULT_API_URL))
                (if truthy_str (apiKey s) then apiKey s else None).

(** The storage [onInstalled] leaves; [uuid] is what [crypto.randomUUID]
    returned (used only when there is no client id yet). *)
Definition installed_store (uuid : string) (s : Storage) : Storage :=
  let s1 := if truthy_str (clientId s) then s else set_clientId uuid s in
  let s2 := if bool_decide (is_Some (stats s1)) then s1 else set_stats initialStats s1 in
  let s3 := if truthy_num (pollingInterval s2) then s2
            else set_pollingInterval DEFAULT_POLLING_INTERVAL s2 in
  let s4 := if truthy_num (retryAttempts s3) then s3
            else set_retryAttempts DEFAULT_RETRY_ATTEMPTS s3 in
  if truthy_num (maxRetryDelay s3) then s4
  else set_maxRetryDelay DEFAULT_MAX_RETRY_DELAY s4.

(** A configured profile with polling enabled and nothing in flight. *)
Definition configured : World :=
  {| mem := emptyMem;
     store := {| isRunning := Some true; apiKey := Some "key";
                 apiUrl := Some "http://localhost:3000";
                 clientId := Some "client-1";
                 pollingInterval := None; retryAttempts := None;
                 maxRetryDelay := None; stats := None; jobHistory := None |};
     trace := [] |}.

(** ** Further observations on traces *)

Definition is_tabsGet (e : Event) : bool :=
  match e with
  | EvAsync c _ => match c with TabsGet _ => true | _ => false end
  | EvSync _ _ => false
  end.

Definition is_ping (e : Event) : bool :=
  match e with
  | EvAsync c _ => match c with TabsSendMessage _ PING => true | _ => false end
  | EvSync _ _ => false
  end.

Definition is_tabsRemove (e : Event) : bool :=
  match e with
  | EvAsync c _ => match c with TabsRemove _ => true | _ => false end
  | EvSync _ _ => false
  end.

Definition is_clearTimeout (e : Event) : bool :=
  match e with
  | EvSync c _ => match c with ClearTimeout _ => true | _ => false end
  | EvAsync _ _ => false
  end.

(** The time spent in [setTimeout] promises, in milliseconds. *)
Fixpoint waited (tr : list Event) : Z :=
  match tr with
  | [] => 0
  | EvAsync (Delay ms) _ :: tr' => ms + waited tr'
  | _ :: tr' => waited tr'
  end.

(** A tab that never reaches the [complete] status. *)
Definition never_loads : Oracle :=
  {| sync := @sync friendly;
     async := λ X n c,
       match c in Async X return Settled X with
       | TabsGet _ => Fulfilled false
       | c' => async friendly n c'
       end |}.

(** A tab whose content script never answers: every ping is rejected
    ("Receiving end does not exist"). *)
Definition never_ready : Oracle :=
  {| sync := @sync friendly;
     async := λ X n c,
       match c in Async X return Settled X with
       | TabsSendMessage _ PING => Rejected (Error "Could not establish connection")
       | c' => async friendly n c'
       end |}.

(** The timer of the tab after a finalize handler, and the number of
    [clearTimeout] calls it made. *)
Definition timers_after (m : Mem) (tabId : Z) : gmap Z Z :=
  if truthy_num (jobTimeouts m !! tabId) then delete tabId (jobTimeouts m)
  else jobTimeouts m.

Definition timer_cleared (m : Mem) (tabId : Z) : nat :=
  if truthy_num (jobTimeouts m !! tabId) then 1%nat else 0%nat.

(** The [currentJob] field of the stored stats, which the popup shows as
    the job being processed. *)
Definition current_of (s : Storage) : option CurrentJob := stats s ≫= currentJob.

Definition lastProcessedAt_of (s : Storage) : option Z := stats s ≫= lastProcessedAt.

(** ** The history bound under interleaving *)

Definition history_cap (s : Storage) : Prop :=
  (length (default [] (jobHistory s)) ≤ 50)%nat.

Definition config_cap (c : Config) : Prop :=
  history_cap (c_store c) ∧ Forall (Preserves history_cap) (pool c).

(** ** One outcome per handler run *)

(** Between [w] and [w'] at most one backend report was made, and the
    stats counters are unchanged or advanced by exactly one outcome. *)
Definition at_most_one_outcome (w w' : World) : Prop :=
  (count is_report (trace w') ≤ count is_report (trace w) + 1)%nat
  ∧ (counters (store w') = counters (store w)
     ∨ counters (store w')
       = ((counters (store w)).1.1 + 1, (counters (store w)).1.2 + 1,
          (counters (store w)).2)
     ∨ counters (store w')
       = ((counters (store w)).1.1 + 1, (counters (store w)).1.2,
          (counters (store w)).2 + 1)).

(** * Polling control

    [startPolling], [stopPolling], the start-up and alarm listeners and
    the control-message listener of the worker.  Besides the calls of the
    job handlers above, this code calls the health-check endpoint,
    [chrome.alarms] and [chrome.action]; it is embedded by explicit state
    passing over the world of the handlers and a second trace for those
    calls.  What the control listener passes to [sendResponse] is the
    value its embedding returns; when the embedding throws, the promise
    chain of the listener has ended rejected and [sendResponse] was not
    called. *)

Definition ALARM_JOB_POLL : string := "job-poll".
Definition BADGE_GREEN : string := "#00e59b".
Definition BADGE_GREY : string := "#808080".

Definition set_isRunning (v : bool) (s : Storage) : Storage :=
  {| isRunning := Some v;
     apiKey := apiKey s;
     apiUrl := apiUrl s;
     clientId := clientId s;
     pollingInterval := pollingInterval s;
     retryAttempts := retryAttempts s;
     maxRetryDelay := maxRetryDelay s;
     stats := stats s;
     jobHistory := jobHistory s |}.

(** The calls made by the control code only; each returns a promise. *)
Inductive Shell : Type → Type :=
| HealthCheck (client : ApiClient) : Shell string
    (* client.healthCheck(), the status field of the reply *)
| AlarmsCreate (name : string) (periodInMinutes : Z) : Shell unit
| AlarmsClear (name : string) : Shell bool
| SetBadgeBackgroundColor (color : string) : Shell unit
| SetBadgeText (text : string) : Shell unit.

Inductive ShellEvent :=
| EvShell {X} (c : Shell X) (r : Settled X).

(** The environment's answers to these calls, by call and position. *)
Definition ShellOracle : Type := ∀ X, nat → Shell X → Settled X.

Record Browser := {
  world : World;
  shell : list ShellEvent;
}.

(** Control code: a state and error monad over [Browser]. *)
Definition Ctl (A : Type) : Type :=
  Oracle → ShellOracle → Browser → Result A * Browser.

Definition ctl_ret {A} (a : A) : Ctl A := λ _ _ b, (Returned a, b).

Definition ctl_throw {A} (e : Thrown) : Ctl A := λ _ _ b, (Threw e, b).

Definition ctl_bind {A B} (p : Ctl A) (f : A → Ctl B) : Ctl B :=
  λ o so b,
    match p o so b with
    | (Returned a, b') => f a o so b'
    | (Threw e, b') => (Threw e, b')
    end.

(** [try { p } catch (error) { h error }] *)
Definition ctl_catch {A} (p : Ctl A) (h : Thrown → Ctl A) : Ctl A :=
  λ o so b,
    match p o so b with
    | (Returned a, b') => (Returned a, b')
    | (Threw e, b') => h e o so b'
    end.

#[global] Instance Ctl_ret : MRet Ctl := @ctl_ret.
#[global] Instance Ctl_bind : MBind Ctl := λ A B f p, ctl_bind p f.

(** [await c]: a rejection is thrown at the caller. *)
Definition call {X} (c : Shell X) : Ctl X :=
  λ _ so b,
    let r := so X (length (shell b)) c in
    (match r with Fulfilled x => Returned x | Rejected e => Threw e end,
     {| world := world b; shell := EvShell c r :: shell b |}).

(** Code of the job handlers run from control code. *)
Definition worker {A} (p : Prog A) : Ctl A :=
  λ o _ b,
    let '(r, w') := exec o p (world b) in
    (r, {| world := w'; shell := shell b |}).

Definition startPolling : Ctl unit :=
  ctl_catch
    ((* Test API connection first *)
     worker (act (Log INFO "Testing API connection before starting polling..."));;
     client ← worker fromStorage;
     health ← call (HealthCheck client);
     worker (act (Log INFO "API health check successful"));;
     intervalResult ← worker storage_get;
     let interval :=
       if truthy_num (pollingInterval intervalResult)
       then default 0 (pollingInterval intervalResult)
       else DEFAULT_POLLING_INTERVAL in
     (* Create alarm for periodic polling *)
     call (AlarmsCreate ALARM_JOB_POLL interval);;
     worker (act (Log INFO ("Polling started (interval: " +:+ pretty interval +:+ " minute"
                            +:+ (if 1 <? interval then "s" else EmptyString) +:+ ")")));;
     (* Update badge to green indicator *)
     call (SetBadgeBackgroundColor BADGE_GREEN);;
     call (SetBadgeText " ");;
     (* Trigger immediate poll *)
     worker pollForJob)
    (λ error,
       worker (act (Log ERROR "Failed to start polling: API health check failed"));;
       (* Stop polling and update state *)
       worker (storage_set (set_isRunning false));;
       call (SetBadgeBackgroundColor BADGE_GREY);;
       call (SetBadgeText " ");;
       ctl_throw error).

Definition stopPolling : Ctl unit :=
  call (AlarmsClear ALARM_JOB_POLL);;
  worker (act (Log INFO "Polling stopped"));;
  (* Update badge to grey indicator *)
  call (SetBadgeBackgroundColor BADGE_GREY);;
  call (SetBadgeText " ").

(** [chrome.runtime.onStartup] *)
Definition onStartup : Ctl unit :=
  worker (act (Log INFO "Extension started"));;
  (* Check if auto-start is enabled *)
  result ← worker storage_get;
  if truthy_bool (isRunning result) then startPolling else mret tt.

(** [chrome.alarms.onAlarm]; the poll is not awaited and nothing follows
    it: the result is how the promise of the poll settles. *)
Definition onAlarm (name : string) : Ctl unit :=
  if String.eqb name ALARM_JOB_POLL then worker pollForJob else mret tt.

(** The [action] of a message from the popup or the console page. *)
Inductive ControlMessage :=
| START_POLLING
| STOP_POLLING
| GET_STATUS
| OtherAction.

(** What [sendResponse] is called with. *)
Inductive Response :=
| Ack (success : bool) (error : option string)
| Status (isRunning : bool) (stats : Stats).

(** The control-message listener; [None]: the listener returns [false] and
    sends no response.  The rejection handlers of the two chains read
    [error.message] without a test: for [null] and [undefined] the read
    throws and [sendResponse] is not reached. *)
Definition onControlMessage (message : ControlMessage) : Ctl (option Response) :=
  match message with
  | START_POLLING =>
      ctl_catch
        (worker (storage_set (set_isRunning true));;
         startPolling;;
         mret (Some (Ack true None)))
        (λ error,
           match message_property error with
           | Returned message => mret (Some (Ack false message))
           | Threw e => ctl_throw e
           end)
  | STOP_POLLING =>
      ctl_catch
        (worker (storage_set (set_isRunning false));;
         stopPolling;;
         mret (Some (Ack true None)))
        (λ error,
           match message_property error with
           | Returned message => mret (Some (Ack false message))
           | Threw e => ctl_throw e
           end)
  | GET_STATUS =>
      result ← worker storage_get;
      mret (Some (Status (truthy_bool (isRunning result))
                         (default initialStats (stats result))))
  | OtherAction => mret None
  end.

(** Observations on the control trace. *)
Definition is_alarmsCreate (e : ShellEvent) : bool :=
  match e with
  | EvShell c _ => match c with AlarmsCreate _ _ => true | _ => false end
  end.

Definition is_healthCheck (e : ShellEvent) : bool :=
  match e with
  | EvShell c _ => match c with HealthCheck _ => true | _ => false end
  end.

(** The colour the badge was last asked to show. *)
Fixpoint last_badge (evs : list ShellEvent) : option string :=
  match evs with
  | [] => None
  | EvShell (SetBadgeBackgroundColor color) _ :: _ => Some color
  | _ :: evs' => last_badge evs'
  end.

(** A browser in which the control calls succeed and the backend is
    healthy, and one in which the health check fails. *)
Definition healthy : ShellOracle :=
  λ X n c,
    match c in Shell X return Settled X with
    | HealthCheck _ => Fulfilled "ok"
    | AlarmsCreate _ _ => Fulfilled tt
    | AlarmsClear _ => Fulfilled true
    | SetBadgeBackgroundColor _ => Fulfilled tt
    | SetBadgeText _ => Fulfilled tt
    end.

Definition unhealthy : ShellOracle :=
  λ X n c,
    match c in Shell X return Settled X with
    | HealthCheck _ => Rejected (Error "Network error")
    | c' => healthy _ n c'
    end.

Definition browser_of (w : World) : Browser := {| world := w; shell := [] |}.

(** [interval || DEFAULT_POLLING_INTERVAL] of [startPolling]. *)
Definition polling_period (s : Storage) : Z :=
  if truthy_num (pollingInterval s) then default 0 (pollingInterval s)
  else DEFAULT_POLLING_INTERVAL.

Definition alarms_created (evs : list ShellEvent) : nat :=
  length (List.filter is_alarmsCreate evs).

Definition health_checks (evs : list ShellEvent) : nat :=
  length (List.filter is_healthCheck evs).

(** The settings: every storage key but the stats and the history. *)
Definition Settings : Type :=
  option bool * option string * option string * option string
  * option Z * option Z * option Z.

Definition settings_of (s : Storage) : Settings :=
  (isRunning s, apiKey s, apiUrl s, clientId s,
   pollingInterval s, retryAttempts s, maxRetryDelay s).

Definition keeps_settings (x : Settings) (s : Storage) : Prop := settings_of s = x.

(** The backend was asked for a job once and the request was rejected
    with [null] or [undefined]; nothing else was observed. *)
Definition poll_rejected_nullish (w w' : World) : Prop :=
  ∃ client clientId error,
    nullish error = true
    ∧ observed (trace w')
      = EvAsync (GetNextJob client clientId) (Rejected error) :: observed (trace w).

(** What a rejected [startPolling] leaves: the job registry, the stats and
    the history as they were, the running flag off and the badge asked to
    turn grey.  No job was fetched: either the backend was not asked for
    one, or the immediate poll was the step that failed. *)
Definition start_failed (b b' : Browser) : Prop :=
  mem (world b') = mem (world b)
  ∧ store (world b') = set_isRunning false (store (world b))
  ∧ last_badge (shell b') = Some BADGE_GREY
  ∧ (observed (trace (world b')) = observed (trace (world b))
     ∨ poll_rejected_nullish (world b) (world b')).

(** The [TypeError] of reading a property of [null] or [undefined]. *)
Definition no_properties (e : Thrown) : Prop :=
  ∃ error, nullish error = true ∧ message_property error = Threw e.

(** * The logger (shared/logger.ts)

    The log lines are kept under a storage key of their own.  An entry
    carries a context object of any shape; the logger does not look into
    it. *)

Definition MAX_LOGS : nat := 1000.

Record LogEntry (C : Type) := {
  le_timestamp : Z;
  le_level : LogLevel;
  le_message : string;
  le_context : option C;
  le_jobId : option string;
}.
Arguments le_timestamp {C} _.
Arguments le_level {C} _.
Arguments le_message {C} _.
Arguments le_context {C} _.
Arguments le_jobId {C} _.

(** [arr.slice(-n)]: the last [n] elements, all of them when there are
    fewer. *)
Definition slice_last {A} (n : nat) (l : list A) : list A :=
  drop (length l - n) l.

(** [Logger.log]: what is stored under the key after the call; [logs] is
    the stored value and [now] the reading of the clock. *)
Definition Logger_log {C} (now : Z) (level : LogLevel) (message : string)
    (context : option C) (jobId : option string)
    (logs : option (list (LogEntry C))) : option (list (LogEntry C)) :=
  let entry :=
    {| le_timestamp := now; le_level := level; le_message := message;
       le_context := context; le_jobId := jobId |} in
  let logs := default [] logs in
  (* Add new entry and rotate if needed *)
  let updatedLogs := slice_last MAX_LOGS (logs ++ [entry]) in
  Some updatedLogs.

(** [Logger.clearLogs]: the key is removed and the removal is logged. *)
Definition Logger_clearLogs {C} (now : Z) (logs : option (list (LogEntry C)))
  : option (list (LogEntry C)) :=
  Logger_log now INFO "Logs cleared" None None None.

(** A sequence of [Logger.log] calls, oldest first, each run to its end
    before the next one starts. *)
Definition Logger_log_all {C} (entries : list (LogEntry C))
    (logs : option (list (LogEntry C))) : option (list (LogEntry C)) :=
  foldl (λ stored e,
           Logger_log (le_timestamp e) (le_level e) (le_message e) (le_context e)
             (le_jobId e) stored)
        logs entries.

(** Whether an event is a backend report that was fulfilled. *)
Definition report_fulfilled (e : Event) : bool :=
  match e with
  | EvAsync c r =>
      is_report (EvAsync c r) && match r with Fulfilled _ => true | Rejected _ => false end
  | EvSync _ _ => false
  end.

(** ** Laws of [exec] *)

Lemma exec_bind {A B} (o : Oracle) (p : Prog A) (f : A → Prog B) (w : World) :
  exec o (p ≫= f) w =
  match exec o p w with
  | (Returned a, w') => exec o (f a) w'
  | (Threw e, w') => (Threw e, w')
  end.
Proof.
  revert w. induction p as [a|e|X c k IH|X c k IH|k IH|g k IH|k IH|g k IH];
    intros w; cbn; auto; apply IH.
Qed.

Lemma exec_catch {A} (o : Oracle) (p : Prog A) (h : Thrown → Prog A) (w : World) :
  exec o (catch p h) w =
  match exec o p w with
  | (Returned a, w') => (Returned a, w')
  | (Threw e, w') => exec o (h e) w'
  end.
Proof.
  revert w. induction p as [a|e|X c k IH|X c k IH|k IH|g k IH|k IH|g k IH];
    intros w; cbn; auto; apply IH.
Qed.

(** ** Symbolic execution *)

Lemma exec_bind' {A B} (o : Oracle) (p : Prog A) (f : A → Prog B) (w : World) :
  exec o (bind p f) w =
  match exec o p w with
  | (Returned a, w') => exec o (f a) w'
  | (Threw e, w') => (Threw e, w')
  end.
Proof. apply exec_bind. Qed.

Lemma observed_cons (e : Event) (tr : list Event) :
  observed (e :: tr) = if observable e then e :: observed tr else observed tr.
Proof. reflexivity. Qed.

Ltac exec_cbn_in H :=
  unfold mbind, mret, Prog_bind, Prog_ret in H;
  cbn [exec at_report at_suspension bind catch mbind mret Prog_bind Prog_ret
       act await delay mem_read mem_write storage_get storage_set fromStorage
       emit on_mem on_store mem store trace fst snd length
       set_activeJobs set_jobTimeouts set_tabClosureRetries
       activeJobs jobTimeouts tabClosureRetries
       set_stats set_jobHistory set_clientId set_pollingInterval
       set_retryAttempts set_maxRetryDelay
       isRunning apiKey apiUrl clientId pollingInterval retryAttempts
       maxRetryDelay stats jobHistory history
       observable is_backend is_report is_completeJob is_failJob is_getNextJob
       is_tabsCreate orb negb andb] in H;
  rewrite ?observed_cons in H;
  cbn [observable is_backend is_report is_completeJob is_failJob is_getNextJob
       is_tabsCreate orb] in H.

Ltac exec_simpl :=
  unfold mbind, mret, Prog_bind, Prog_ret;
  cbn [exec at_report at_suspension bind catch mbind mret Prog_bind Prog_ret
       act await delay mem_read mem_write storage_get storage_set fromStorage
       emit on_mem on_store mem store trace fst snd length
       set_activeJobs set_jobTimeouts set_tabClosureRetries
       activeJobs jobTimeouts tabClosureRetries
       set_stats set_jobHistory set_clientId set_pollingInterval
       set_retryAttempts set_maxRetryDelay
       isRunning apiKey apiUrl clientId pollingInterval retryAttempts
       maxRetryDelay stats jobHistory history
       observable is_backend is_report is_completeJob is_failJob is_getNextJob
       is_tabsCreate orb negb andb];
  rewrite ?observed_cons;
  cbn [observable is_backend is_report is_completeJob is_failJob is_getNextJob
       is_tabsCreate orb].

(** Answers of type [unit] carry no information. *)
Ltac unit_answers :=
  repeat match goal with
  | |- context [sync ?o ?n ?c] =>
      match type of (sync o n c) with
      | unit => destruct (sync o n c)
      end
  | x : unit |- _ => destruct x
  end.

Ltac head_of p :=
  lazymatch p with
  | bind ?q _ => head_of q
  | catch ?q _ => head_of q
  | _ => p
  end.

(** Case analysis on what the program under execution is waiting for. *)
Ltac exec_split :=
  lazymatch goal with
  | |- context [exec _ ?p _] =>
      let h := head_of p in
      lazymatch h with
      | match ?x with _ => _ end => destruct x eqn:?
      end
  end.

Ltac exec_run := exec_simpl; repeat (exec_split; exec_simpl); unit_answers.

(** Bring the sub-program at the head of the program under execution to
    the front. *)
Ltac exec_focus := repeat first [rewrite exec_catch | rewrite exec_bind'].

(** Use the specification [lem] of the sub-program at the head: its
    existential is opened with the pattern, whose first component after the
    witnesses is the equation of the run. *)
Tactic Notation "exec_block" constr(lem) "as" simple_intropattern(pat) :=
  exec_focus; edestruct lem as pat.

Ltac exec_facts :=
  repeat match goal with
  | H : context [emit _ _] |- _ => progress exec_cbn_in H
  | H : context [on_mem _ _] |- _ => progress exec_cbn_in H
  | H : context [on_store _ _] |- _ => progress exec_cbn_in H
  end.

(** ** Counting observed calls *)

Lemma count_observed (f : Event → bool) (tr : list Event) :
  (∀ e, f e = true → observable e = true) →
  count f (observed tr) = count f tr.
Proof.
  intros Hsub. induction tr as [|e tr IH]; [done|].
  cbn [observed List.filter count]. fold (observed tr).
  destruct (observable e) eqn:Hobs; cbn [count]; rewrite IH; [done|].
  destruct (f e) eqn:Hf; [|done]. apply Hsub in Hf. congruence.
Qed.

Lemma getNextJob_observable e : is_getNextJob e = true → observable e = true.
Proof. unfold observable, is_backend. by intros ->. Qed.

Lemma completeJob_observable e : is_completeJob e = true → observable e = true.
Proof.
  unfold observable, is_backend, is_report. intros ->.
  by rewrite !orb_true_r.
Qed.

Lemma failJob_observable e : is_failJob e = true → observable e = true.
Proof.
  unfold observable, is_backend, is_report. intros ->.
  by rewrite !orb_true_r.
Qed.

Lemma report_observable e : is_report e = true → observable e = true.
Proof. unfold observable, is_backend. intros ->. by rewrite !orb_true_r. Qed.

Lemma backend_observable e : is_backend e = true → observable e = true.
Proof. unfold observable. by intros ->. Qed.

Lemma tabsCreate_observable e : is_tabsCreate e = true → observable e = true.
Proof. unfold observable. intros ->. by rewrite orb_true_r. Qed.

(** The observed part of a trace determines the count of every observed
    kind of call. *)
Lemma count_by_observed (f : Event → bool) (tr : list Event) (obs : list Event) :
  (∀ e, f e = true → observable e = true) →
  observed tr = obs → count f tr = count f obs.
Proof. intros Hsub <-. by rewrite count_observed. Qed.

Create HintDb observed.

#[local] Hint Resolve getNextJob_observable completeJob_observable failJob_observable
  report_observable backend_observable tabsCreate_observable : observed.

(** Rewrite every count over the trace of [w'] from its observed part. *)
Ltac count_observed Ht :=
  repeat match goal with
  | |- context [count ?f (trace ?w')] =>
      lazymatch type of Ht with
      | observed (trace w') = _ =>
          rewrite (count_by_observed f (trace w') _ ltac:(auto with observed) Ht)
      end
  end;
  cbn [count is_backend is_report is_completeJob is_failJob is_getNextJob
       is_tabsCreate orb Nat.add];
  repeat match goal with
  | |- context [count ?f (observed ?tr)] =>
      rewrite (count_observed f tr ltac:(auto with observed))
  end.

(** ** The timeout handler *)

Lemma handleJobTimeout_absent (o : Oracle) (w : World) (tabId : Z) :
  activeJobs (mem w) !! tabId = None →
  exec o (handleJobTimeout tabId) w = (Returned tt, w).
Proof.
  intros Habsent. unfold handleJobTimeout. exec_simpl.
  by rewrite Habsent.
Qed.

(** C6.  Timeout after finalization is a no-op: when the ActiveJobEntry of
    a tab id is gone, a firing of [handleJobTimeout] for that tab id
    returns at once and leaves the whole world as it was: no backend
    report (the trace does not grow), no change of the stats, no change of
    the history, whatever the environment would have answered. *)
Theorem timeout_after_finalize_is_noop (o : Oracle) (w : World) (tabId : Z) :
  activeJobs (mem w) !! tabId = None →
  exec o (handleJobTimeout tabId) w = (Returned tt, w)
  ∧ count is_report (trace (exec o (handleJobTimeout tabId) w).2)
    = count is_report (trace w)
  ∧ stats (store (exec o (handleJobTimeout tabId) w).2) = stats (store w)
  ∧ history (exec o (handleJobTimeout tabId) w).2 = history w.
Proof.
  intros Habsent. by rewrite (handleJobTimeout_absent o w tabId Habsent).
Qed.

Lemma timeout_after_finalize_is_noop_witness :
  activeJobs (mem fresh) !! 7 = None
  ∧ exec friendly (handleJobTimeout 7) fresh = (Returned tt, fresh).
Proof.
  split; [reflexivity|].
  apply (timeout_after_finalize_is_noop friendly fresh 7). reflexivity.
Defined.

(** ** The poll tick *)

Lemma pollForJob_not_ready (o : Oracle) (w : World) :
  poll_ready (store w) = false →
  ∃ w', exec o pollForJob w = (Returned tt, w')
        ∧ mem w' = mem w ∧ store w' = store w
        ∧ observed (trace w') = observed (trace w).
Proof.
  unfold poll_ready, pollForJob. intros Hnot. exec_simpl.
  destruct (truthy_bool (isRunning (store w))); exec_simpl; [|by eexists].
  destruct (truthy_str (apiKey (store w))); exec_simpl;
    [|unit_answers; by eexists].
  destruct (truthy_str (apiUrl (store w))); exec_simpl;
    [|unit_answers; by eexists].
  destruct (truthy_str (clientId (store w))); exec_simpl;
    [done|unit_answers; by eexists].
Qed.

(** C10.  A poll tick is a pure no-op when disabled or unconfigured: if
    [isRunning] is falsy, or the stored [apiKey] or [apiUrl] is absent or
    empty, or the [clientId] is absent or empty, then [pollForJob] returns
    normally (it does not throw), calls neither [getNextJob] nor any other
    backend operation, opens no tab, and leaves the stats, the history,
    the active-job registry, the timers and the retry counters unchanged. *)
Theorem poll_disabled_is_noop (o : Oracle) (w : World) :
  truthy_bool (isRunning (store w)) = false
  ∨ truthy_str (apiKey (store w)) = false
  ∨ truthy_str (apiUrl (store w)) = false
  ∨ truthy_str (clientId (store w)) = false →
  let w' := (exec o pollForJob w).2 in
  (exec o pollForJob w).1 = Returned tt
  ∧ count is_getNextJob (trace w') = count is_getNextJob (trace w)
  ∧ count is_backend (trace w') = count is_backend (trace w)
  ∧ count is_tabsCreate (trace w') = count is_tabsCreate (trace w)
  ∧ stats (store w') = stats (store w)
  ∧ jobHistory (store w') = jobHistory (store w)
  ∧ store w' = store w
  ∧ activeJobs (mem w') = activeJobs (mem w)
  ∧ jobTimeouts (mem w') = jobTimeouts (mem w)
  ∧ tabClosureRetries (mem w') = tabClosureRetries (mem w).
Proof.
  intros Hoff.
  assert (poll_ready (store w) = false) as Hnot.
  { unfold poll_ready.
    destruct Hoff as [-> | [-> | [-> | ->]]]; by rewrite ?andb_false_r. }
  destruct (pollForJob_not_ready o w Hnot) as (w' & -> & Hm & Hs & Ht).
  cbn [fst snd]. rewrite Hm, Hs. count_observed Ht. done.
Qed.

Lemma poll_disabled_is_noop_witness :
  truthy_bool (isRunning (store fresh)) = false
  ∧ (exec friendly pollForJob fresh).1 = Returned tt
  ∧ store (exec friendly pollForJob fresh).2 = store fresh.
Proof.
  split; [reflexivity|].
  pose proof (poll_disabled_is_noop friendly fresh (or_introl eq_refl)) as H.
  cbv zeta in H. split; [apply H|]. apply H.
Defined.

(** ** The history recorder *)

Lemma addJobToHistory_spec (o : Oracle) (w : World) (job : Job) (status : JobStatus) :
  ∃ w' now,
    exec o (addJobToHistory job status) w = (Returned tt, w')
    ∧ mem w' = mem w
    ∧ store w' = set_jobHistory (take 50 (historyItem_of job status now :: history w)) (store w)
    ∧ observed (trace w') = observed (trace w).
Proof.
  unfold addJobToHistory. exec_simpl. by eexists _, _.
Qed.

Lemma updateJobInHistory_spec (o : Oracle) (w : World) (jobId : string) (status : JobStatus) :
  ∃ w' now,
    exec o (updateJobInHistory jobId status) w = (Returned tt, w')
    ∧ mem w' = mem w
    ∧ store w' = match index_of jobId (history w) with
                 | Some i => set_jobHistory (alter (with_status status now) i (history w)) (store w)
                 | None => store w
                 end
    ∧ observed (trace w') = observed (trace w).
Proof.
  unfold updateJobInHistory, index_of. exec_simpl.
  destruct (findIndex _ _) as [i|]; exec_simpl.
  - by eexists _, _.
  - by eexists _, 0.
Qed.






(** ** The finalize handlers *)

Lemma clearJobTimeout_spec (o : Oracle) (w : World) (tabId : Z) :
  ∃ w',
    exec o (clearJobTimeout tabId) w = (Returned tt, w')
    ∧ activeJobs (mem w') = activeJobs (mem w)
    ∧ tabClosureRetries (mem w') = tabClosureRetries (mem w)
    ∧ store w' = store w
    ∧ observed (trace w') = observed (trace w).
Proof.
  unfold clearJobTimeout. exec_run; by eexists.
Qed.

Lemma updateJobInHistory_outcome (o : Oracle) (w : World) (jobId : string)
    (status : JobStatus) :
  ∃ w' now,
    exec o (updateJobInHistory jobId status) w = (Returned tt, w')
    ∧ mem w' = mem w
    ∧ store w' = update_history jobId status now (store w)
    ∧ observed (trace w') = observed (trace w).
Proof.
  destruct (updateJobInHistory_spec o w jobId status) as (w' & now & E & Hm & Hs & Ht).
  by exists w', now.
Qed.

Lemma handleJobFailure_spec (o : Oracle) (w : World) (tabId : option Z)
    (jobId errorMessage : string) :
  ∃ w' client r,
    exec o (handleJobFailure tabId jobId errorMessage) w = (Returned tt, w')
    ∧ observed (trace w') = EvAsync (FailJob client jobId errorMessage) r :: observed (trace w)
    ∧ activeJobs (mem w') = match tabId with
                            | Some t => delete t (activeJobs (mem w))
                            | None => activeJobs (mem w)
                            end
    ∧ tabClosureRetries (mem w') = delete jobId (tabClosureRetries (mem w))
    ∧ match r with
      | Fulfilled _ =>
          ∃ now now', store w' = record_outcome bump_failed jobId Failed now now' (store w)
      | Rejected _ => store w' = store w
      end.
Proof.
  unfold handleJobFailure. exec_simpl. unit_answers.
  destruct tabId as [t|]; exec_simpl.
  - exec_block clearJobTimeout_spec as (w1 & E1 & Ha1 & Hr1 & Hs1 & Ht1).
    rewrite E1. exec_facts. exec_simpl. unit_answers.
    exec_split; exec_simpl.
    + exec_split; exec_simpl; unit_answers;
        (exec_block updateJobInHistory_outcome as (w2 & now' & E2 & Hm2 & Hs2 & Ht2));
        rewrite E2; exec_facts; exec_simpl;
        exec_split; exec_simpl; unit_answers;
        (eexists _, _, _; split; [reflexivity|]); exec_simpl;
        rewrite ?Ht2, ?Hm2, ?Hs2; exec_simpl;
        rewrite ?Ht1, ?Ha1, ?Hr1, ?Hs1, ?delete_delete_eq;
        repeat split; try done; by eexists _, _.
    + unit_answers. eexists _, _, _. split; [reflexivity|]. exec_simpl.
      by rewrite Ht1, Ha1, Hr1, Hs1.
  - unit_answers. exec_split; exec_simpl.
    + exec_split; exec_simpl; unit_answers;
        (exec_block updateJobInHistory_outcome as (w2 & now' & E2 & Hm2 & Hs2 & Ht2));
        rewrite E2; exec_facts; exec_simpl;
        (eexists _, _, _; split; [reflexivity|]); exec_simpl;
        rewrite ?Ht2, ?Hm2, ?Hs2; exec_simpl;
        repeat split; try done; by eexists _, _.
    + unit_answers. eexists _, _, _. split; [reflexivity|]. by exec_simpl.
Qed.

Lemma handleJobSuccess_spec (o : Oracle) (w : World) (tabId : Z) (jobId : string) :
  ∃ w' client r,
    exec o (handleJobSuccess tabId jobId) w = (Returned tt, w')
    ∧ observed (trace w') = EvAsync (CompleteJob client jobId) r :: observed (trace w)
    ∧ match r with
      | Fulfilled _ =>
          activeJobs (mem w') = delete tabId (activeJobs (mem w))
          ∧ tabClosureRetries (mem w') = delete jobId (tabClosureRetries (mem w))
          ∧ ∃ now now',
              store w' = record_outcome bump_succeeded jobId Completed now now' (store w)
      | Rejected _ =>
          activeJobs (mem w') = activeJobs (mem w)
          ∧ tabClosureRetries (mem w') = tabClosureRetries (mem w)
          ∧ store w' = store w
      end.
Proof.
  unfold handleJobSuccess. exec_simpl.
  exec_block clearJobTimeout_spec as (w1 & E1 & Ha1 & Hr1 & Hs1 & Ht1).
  rewrite E1. exec_facts. exec_simpl. unit_answers.
  exec_split; exec_simpl; unit_answers.
  - exec_block updateJobInHistory_outcome as (w2 & now' & E2 & Hm2 & Hs2 & Ht2).
    rewrite E2. exec_facts. exec_simpl.
    exec_split; exec_simpl; unit_answers;
      (eexists _, _, _; split; [reflexivity|]); exec_simpl;
      rewrite ?Ht2, ?Hm2, ?Hs2; exec_simpl;
      rewrite ?Ht1, ?Ha1, ?Hr1, ?Hs1;
      repeat split; try done; by eexists _, _.
  - eexists _, _, _. split; [reflexivity|]. exec_simpl.
    by rewrite Ht1, Ha1, Hr1, Hs1.
Qed.

Lemma stats_update_history (jobId : string) (status : JobStatus) (now : Z) (s : Storage) :
  stats (update_history jobId status now s) = stats s.
Proof. unfold update_history. by destruct (index_of _ _). Qed.

Lemma counters_record_succeeded jobId status now now' s :
  counters (record_outcome bump_succeeded jobId status now now' s)
  = ((counters s).1.1 + 1, (counters s).1.2 + 1, (counters s).2).
Proof. unfold counters, record_outcome. by rewrite stats_update_history. Qed.

Lemma counters_record_failed jobId status now now' s :
  counters (record_outcome bump_failed jobId status now now' s)
  = ((counters s).1.1 + 1, (counters s).1.2, (counters s).2 + 1).
Proof. unfold counters, record_outcome. by rewrite stats_update_history. Qed.

(** C1 does not hold of the code: the guard against duplicate signals is
    missing in the finalize handlers.  [handleJobTimeout] and the
    tab-removal listener return at once when the tab id has no
    ActiveJobEntry; [handleJobSuccess] and [handleJobFailure] begin with
    the same look-up, use its result for the title of a log line only, and
    go on.  Called for a tab id whose entry is already gone, each of them
    leaves the active-job registry as it is, but makes exactly one more
    backend report ([completeJob], resp. [failJob]) and, when that report
    is fulfilled, increments [processed] and [succeeded], resp. [failed],
    once more; when the report is rejected the stored state is left
    alone. *)
Theorem second_finalize_reports_again (o : Oracle) (w : World) (tabId : Z)
    (jobId errorMessage : string) :
  activeJobs (mem w) !! tabId = None →
  let ws := (exec o (handleJobSuccess tabId jobId) w).2 in
  let wf := (exec o (handleJobFailure (Some tabId) jobId errorMessage) w).2 in
  (count is_report (trace ws) = S (count is_report (trace w))
   ∧ activeJobs (mem ws) = activeJobs (mem w)
   ∧ ∃ client r,
       observed (trace ws) = EvAsync (CompleteJob client jobId) r :: observed (trace w)
       ∧ match r with
         | Fulfilled _ =>
             counters (store ws)
             = ((counters (store w)).1.1 + 1, (counters (store w)).1.2 + 1,
                (counters (store w)).2)
         | Rejected _ => store ws = store w
         end)
  ∧ (count is_report (trace wf) = S (count is_report (trace w))
     ∧ activeJobs (mem wf) = activeJobs (mem w)
     ∧ ∃ client r,
         observed (trace wf) = EvAsync (FailJob client jobId errorMessage) r
                               :: observed (trace w)
         ∧ match r with
           | Fulfilled _ =>
               counters (store wf)
               = ((counters (store w)).1.1 + 1, (counters (store w)).1.2,
                  (counters (store w)).2 + 1)
           | Rejected _ => store wf = store w
           end).
Proof.
  intros Habsent. cbv zeta. split.
  - destruct (handleJobSuccess_spec o w tabId jobId) as (w' & client & r & -> & Ht & Hr).
    cbn [snd]. split; [by count_observed Ht|].
    split.
    + destruct r as [?|?]; destruct Hr as (-> & _); [by apply delete_id|done].
    + exists client, r. split; [done|]. destruct r as [?|?].
      * destruct Hr as (_ & _ & now & now' & ->). apply counters_record_succeeded.
      * apply Hr.
  - destruct (handleJobFailure_spec o w (Some tabId) jobId errorMessage)
      as (w' & client & r & -> & Ht & Ha & _ & Hr).
    cbn [snd]. split; [by count_observed Ht|].
    split; [rewrite Ha; by apply delete_id|].
    exists client, r. split; [done|]. destruct r as [?|?]; [|done].
    destruct Hr as (now & now' & ->). apply counters_record_failed.
Qed.

Lemma second_finalize_reports_again_witness :
  activeJobs (mem fresh) !! 7 = None
  ∧ count is_report (trace (exec friendly (handleJobSuccess 7 "j1") fresh).2)
    = S (count is_report (trace fresh)).
Proof.
  split; [reflexivity|].
  apply (second_finalize_reports_again friendly fresh 7 "j1" "boom"). reflexivity.
Defined.

(** The duplicate signal: a job runs in tab 7 and succeeds; the first
    [handleJobSuccess] removes the entry; a second call for the same tab id
    is not a no-op, and the two calls together make two backend reports
    and count two processed, two succeeded jobs. *)
Lemma second_finalize_is_not_a_noop :
  let w1 := (exec friendly (handleJobSuccess 7 "j1") (running (sampleJob "j1"))).2 in
  let w2 := (exec friendly (handleJobSuccess 7 "j1") w1).2 in
  activeJobs (mem w1) !! 7 = None
  ∧ w2 ≠ w1
  ∧ count is_report (trace w2) = 2%nat
  ∧ counters (store w2) = (2, 2, 0).
Proof.
  cbv zeta. split; [by vm_compute|]. split; [|split; by vm_compute].
  intros Heq. apply (f_equal (λ w, length (trace w))) in Heq.
  vm_compute in Heq. discriminate.
Qed.

(** C1, the race the guard is named for: the job in tab 7 times out, and
    the success signal of its content script arrives afterwards.  The
    timeout has removed the entry and reported the job failed; the late
    signal is not dropped: the job is reported completed as well, and
    counted twice, once as failed and once as succeeded.  A second timeout
    for the same tab, which has the guard, changes nothing. *)
Lemma late_success_after_timeout_reports_again :
  let w1 := (exec friendly (handleJobTimeout 7) (running (sampleJob "j1"))).2 in
  let w2 := (exec friendly (onMessage (JOB_SUCCESS "j1") (Some 7)) w1).2 in
  activeJobs (mem w1) !! 7 = None
  ∧ count is_failJob (trace w1) = 1%nat
  ∧ counters (store w1) = (1, 0, 1)
  ∧ exec friendly (handleJobTimeout 7) w1 = (Returned tt, w1)
  ∧ count is_failJob (trace w2) = 1%nat
  ∧ count is_completeJob (trace w2) = 1%nat
  ∧ count is_report (trace w2) = 2%nat
  ∧ counters (store w2) = (2, 1, 1).
Proof. cbv zeta. repeat split; by vm_compute. Qed.

(** ** The moment of the report *)

Ltac moment_split :=
  lazymatch goal with
  | |- context [at_report _ ?p _] =>
      let h := head_of p in
      lazymatch h with
      | match ?x with _ => _ end => destruct x eqn:?
      end
  | |- context [at_suspension _ ?p _] =>
      let h := head_of p in
      lazymatch h with
      | match ?x with _ => _ end => destruct x eqn:?
      end
  end.

Ltac moment_run := exec_simpl; repeat (moment_split; exec_simpl); unit_answers.

Lemma at_report_handleJobSuccess (o : Oracle) (w : World) (tabId : Z) (jobId : string) :
  (activeJobs ∘ mem) <$> at_report o (handleJobSuccess tabId jobId) w
  = Some (activeJobs (mem w)).
Proof. unfold handleJobSuccess, clearJobTimeout. by moment_run. Qed.

Lemma at_report_handleJobFailure (o : Oracle) (w : World) (tabId : Z)
    (jobId errorMessage : string) :
  (activeJobs ∘ mem) <$> at_report o (handleJobFailure (Some tabId) jobId errorMessage) w
  = Some (delete tabId (activeJobs (mem w))).
Proof. unfold handleJobFailure, clearJobTimeout. by moment_run. Qed.

Lemma at_suspension_handleJobSuccess (o : Oracle) (w : World) (tabId : Z) (jobId : string) :
  (activeJobs ∘ mem) <$> at_suspension o (handleJobSuccess tabId jobId) w
  = Some (activeJobs (mem w)).
Proof. unfold handleJobSuccess, clearJobTimeout. by moment_run. Qed.

Lemma at_suspension_handleJobFailure (o : Oracle) (w : World) (tabId : Z)
    (jobId errorMessage : string) :
  (activeJobs ∘ mem) <$> at_suspension o (handleJobFailure (Some tabId) jobId errorMessage) w
  = Some (delete tabId (activeJobs (mem w))).
Proof. unfold handleJobFailure, clearJobTimeout. by moment_run. Qed.

(** C2, where the code departs from it.  [handleJobFailure] with a tab id
    has removed the ActiveJobEntry when it first suspends and when it
    issues [failJob].  [handleJobSuccess] has not: at its first suspension
    point and at the moment it issues [completeJob] the active-job
    registry is exactly what it was when the handler was called, so an
    entry for the tab is still there during the report. *)
Theorem success_reports_before_removing_entry (o : Oracle) (w : World) (tabId : Z)
    (jobId errorMessage : string) :
  (activeJobs ∘ mem) <$> at_suspension o (handleJobSuccess tabId jobId) w
    = Some (activeJobs (mem w))
  ∧ (activeJobs ∘ mem) <$> at_report o (handleJobSuccess tabId jobId) w
    = Some (activeJobs (mem w))
  ∧ (activeJobs ∘ mem) <$>
      at_suspension o (handleJobFailure (Some tabId) jobId errorMessage) w
    = Some (delete tabId (activeJobs (mem w)))
  ∧ (activeJobs ∘ mem) <$>
      at_report o (handleJobFailure (Some tabId) jobId errorMessage) w
    = Some (delete tabId (activeJobs (mem w))).
Proof.
  split; [apply at_suspension_handleJobSuccess|].
  split; [apply at_report_handleJobSuccess|].
  split; [apply at_suspension_handleJobFailure|apply at_report_handleJobFailure].
Qed.

(** The race this opens: job j1 runs in tab 7 and its content script
    signals success.  While [completeJob] is in flight the entry of tab 7 is
    still registered; if the tab is closed at that moment, the tab-removal
    listener takes it for a crash and dispatches the finished job again. *)
Example tab_closed_during_success_report :
  ∃ w, at_report friendly (handleJobSuccess 7 "j1") (running (sampleJob "j1")) = Some w
       ∧ activeJobs (mem w) !! 7 = Some (sampleJob "j1")
       ∧ count is_tabsCreate (trace (exec friendly (onTabRemoved 7) w).2) = 1%nat
       ∧ count is_tabsCreate (trace w) = 0%nat.
Proof. eexists. split; [reflexivity|]. by vm_compute. Qed.

(** C3, where the code departs from it.  Job j1 runs in tab 7 and the
    backend is unreachable.  [handleJobSuccess] calls [completeJob] once,
    the call throws, and the handler returns with the entry of tab 7 still
    in the active-job registry and the stats untouched.  The sibling
    [handleJobFailure] calls [failJob] once, the call throws, and the entry
    is gone. *)
Theorem failed_success_report_keeps_entry :
  let w := running (sampleJob "j1") in
  let ws := (exec backend_down (handleJobSuccess 7 "j1") w).2 in
  let wf := (exec backend_down (handleJobFailure (Some 7) "j1" "boom") w).2 in
  (count is_completeJob (trace ws) = 1%nat
   ∧ activeJobs (mem ws) !! 7 = Some (sampleJob "j1")
   ∧ store ws = store w)
  ∧ (count is_failJob (trace wf) = 1%nat
     ∧ activeJobs (mem wf) !! 7 = None
     ∧ store wf = store w).
Proof. by vm_compute. Qed.

(** The same for every environment: a rejected [completeJob] leaves the
    registry and the storage as they were. *)
Lemma rejected_success_report_changes_nothing (o : Oracle) (w : World) (tabId : Z)
    (jobId : string) :
  let w' := (exec o (handleJobSuccess tabId jobId) w).2 in
  ∃ client r,
    observed (trace w') = EvAsync (CompleteJob client jobId) r :: observed (trace w)
    ∧ (∀ e, r = Rejected e →
         activeJobs (mem w') = activeJobs (mem w) ∧ store w' = store w).
Proof.
  destruct (handleJobSuccess_spec o w tabId jobId) as (w' & client & r & -> & Ht & Hr).
  exists client, r. split; [done|]. intros e ->. cbn [snd]. by destruct Hr as (? & ? & ?).
Qed.

(** ** Dispatch *)

Lemma waitForTabLoad_from_quiet (o : Oracle) (tabId : Z) (remaining : nat) :
  ∀ (attempt : Z) (w : World),
    ∃ r w', exec o (waitForTabLoad_from tabId attempt remaining) w = (r, w')
            ∧ quiet w w'.
Proof.
  induction remaining as [|n IH]; intros attempt w; cbn [waitForTabLoad_from].
  - exec_simpl. by eexists _, _.
  - exec_simpl. exec_split; exec_simpl.
    + exec_split; exec_simpl.
      * unit_answers. by eexists _, _.
      * edestruct IH as (r & w' & -> & Hm & Hs & Ht).
        exec_facts. by eexists _, _.
    + by eexists _, _.
Qed.

Lemma waitForContentScript_from_quiet (o : Oracle) (tabId : Z) (remaining : nat) :
  ∀ (attempt : Z) (w : World),
    ∃ r w', exec o (waitForContentScript_from tabId attempt remaining) w = (r, w')
            ∧ quiet w w'.
Proof.
  induction remaining as [|n IH]; intros attempt w; cbn [waitForContentScript_from].
  - exec_simpl. by eexists _, _.
  - exec_simpl. exec_split; exec_simpl.
    + exec_split; exec_simpl.
      * unit_answers. by eexists _, _.
      * edestruct IH as (r & w' & -> & Hm & Hs & Ht).
        exec_facts. by eexists _, _.
    + unit_answers.
      edestruct IH as (r & w' & -> & Hm & Hs & Ht).
      exec_facts. by eexists _, _.
Qed.

Lemma waitForTabLoad_quiet (o : Oracle) (w : World) (tabId : Z) :
  ∃ r w', exec o (waitForTabLoad tabId) w = (r, w') ∧ quiet w w'.
Proof. apply waitForTabLoad_from_quiet. Qed.

Lemma waitForContentScript_quiet (o : Oracle) (w : World) (tabId : Z) :
  ∃ r w', exec o (waitForContentScript tabId) w = (r, w') ∧ quiet w w'.
Proof. apply waitForContentScript_from_quiet. Qed.

Lemma addJobToHistory_dispatched (o : Oracle) (w : World) (job : Job) :
  ∃ w' now,
    exec o (addJobToHistory job Processing) w = (Returned tt, w')
    ∧ mem w' = mem w
    ∧ store w' = set_jobHistory
                   (take 50 (historyItem_of job Processing now :: history w)) (store w)
    ∧ observed (trace w') = observed (trace w).
Proof. apply addJobToHistory_spec. Qed.

Lemma truthy_num_Some (o : option Z) :
  truthy_num o = true → ∃ t, t ≠ 0 ∧ o = Some t.
Proof.
  destruct o as [t|]; [|done]. cbn [truthy_num]. unfold truthy.
  intros Ht. exists t. split; [|done]. intros ->. done.
Qed.

(** The [try] block of [processJob]: exactly one tab creation is observed;
    storage is what a dispatch leaves; the retry counters are not touched;
    the job is registered under the new tab id as soon as there is one. *)
Lemma processJob_try_spec (o : Oracle) (w : World) (job : Job) :
  ∃ r w' now rc,
    exec o (processJob_try job) w = (r, w')
    ∧ observed (trace w')
      = EvAsync (TabsCreate (deviationUrl (deviation job))) rc :: observed (trace w)
    ∧ store w' = dispatched_store job now (store w)
    ∧ tabClosureRetries (mem w') = tabClosureRetries (mem w)
    ∧ (r = Returned tt →
       ∃ t, t ≠ 0 ∧ rc = Fulfilled {| tab_id := Some t |}
            ∧ activeJobs (mem w') = <[t := job]> (activeJobs (mem w))).
Proof.
  unfold processJob_try. exec_simpl.
  exec_block addJobToHistory_dispatched as (w1 & now & E1 & Hm1 & Hs1 & Ht1).
  rewrite E1. exec_facts. exec_simpl. unit_answers.
  assert (store w1 = dispatched_store job now (store w)) as Hs1' by done.
  clear Hs1.
  exec_split; exec_simpl.
  - destruct (truthy_num (tab_id x)) eqn:Hid; exec_simpl.
    + unit_answers.
      destruct (truthy_num_Some _ Hid) as (t & Hnz & Htab).
      destruct x as [tid]. cbn [tab_id] in *. subst tid. cbn [default].
      exec_block waitForTabLoad_quiet as (r2 & w2 & E2 & Hm2 & Hs2 & Ht2).
      rewrite E2. exec_facts.
      destruct r2 as [[]|e2]; exec_simpl.
      * exec_block waitForContentScript_quiet as (r3 & w3 & E3 & Hm3 & Hs3 & Ht3).
        rewrite E3. exec_facts.
        destruct r3 as [[]|e3]; exec_simpl.
        -- unit_answers. exec_split; exec_simpl.
           ++ exec_split; exec_simpl; unit_answers;
                (eexists _, _, now, _; split; [reflexivity|]); exec_simpl;
                rewrite ?Hm3, ?Hs3, ?Ht3, ?Hm2, ?Hs2, ?Ht2; exec_simpl;
                rewrite ?Ht1, ?Hm1; repeat split; try done.
              intros _. by exists t.
           ++ eexists _, _, now, _; split; [reflexivity|]; exec_simpl.
              rewrite ?Hm3, ?Hs3, ?Ht3, ?Hm2, ?Hs2, ?Ht2; exec_simpl.
              by rewrite ?Ht1, ?Hm1.
        -- eexists _, _, now, _; split; [reflexivity|]; exec_simpl.
           rewrite ?Hm3, ?Hs3, ?Ht3, ?Hm2, ?Hs2, ?Ht2; exec_simpl.
           by rewrite ?Ht1, ?Hm1.
      * eexists _, _, now, _; split; [reflexivity|]; exec_simpl.
        rewrite ?Hm2, ?Hs2, ?Ht2; exec_simpl.
        by rewrite ?Ht1, ?Hm1.
    + eexists _, _, now, _; split; [reflexivity|]; exec_simpl.
      by rewrite ?Ht1, ?Hm1.
  - eexists _, _, now, _; split; [reflexivity|]; exec_simpl.
    by rewrite ?Ht1, ?Hm1.
Qed.

(** [processJob] never throws.  When its [try] block completes, nothing
    but the tab creation is observed; when the block throws, the [catch]
    block reports the failure to the backend. *)
Lemma processJob_spec (o : Oracle) (w : World) (job : Job) :
  ∃ w' now rc,
    exec o (processJob job) w = (Returned tt, w')
    ∧ match (exec o (processJob_try job) w).1 with
      | Returned _ =>
          observed (trace w')
          = EvAsync (TabsCreate (deviationUrl (deviation job))) rc :: observed (trace w)
          ∧ store w' = dispatched_store job now (store w)
          ∧ tabClosureRetries (mem w') = tabClosureRetries (mem w)
          ∧ ∃ t, t ≠ 0 ∧ rc = Fulfilled {| tab_id := Some t |}
                 ∧ activeJobs (mem w') = <[t := job]> (activeJobs (mem w))
      | Threw e =>
          ∃ client r,
            observed (trace w')
            = EvAsync (FailJob client (job_id job) (error_message e)) r
              :: EvAsync (TabsCreate (deviationUrl (deviation job))) rc
              :: observed (trace w)
            ∧ tabClosureRetries (mem w') = delete (job_id job) (tabClosureRetries (mem w))
            ∧ match r with
              | Fulfilled _ =>
                  ∃ now1 now2,
                    store w' = record_outcome bump_failed (job_id job) Failed now1 now2
                                 (dispatched_store job now (store w))
              | Rejected _ => store w' = dispatched_store job now (store w)
              end
      end.
Proof.
  unfold processJob. rewrite exec_catch.
  destruct (processJob_try_spec o w job) as (r & w1 & now & rc & E & Ht & Hs & Hr & Hok).
  rewrite E. cbn [fst]. destruct r as [[]|e].
  - exists w1, now, rc. split; [done|]. repeat split; try done. by apply Hok.
  - unfold processJob_catch. exec_simpl. unit_answers.
    exec_block handleJobFailure_spec as (w2 & client & r & E2 & Ht2 & Ha2 & Hr2 & Hs2).
    rewrite E2. exec_facts.
    exists w2, now, rc. split; [done|]. exists client, r.
    rewrite Ht2, Hr2, Ht, Hr. repeat split; try done.
    destruct r as [?|?]; by rewrite <-Hs.
Qed.

(** ** The tab-removal listener *)

Lemma onTabRemoved_absent (o : Oracle) (w : World) (tabId : Z) :
  activeJobs (mem w) !! tabId = None →
  exec o (onTabRemoved tabId) w = (Returned tt, w).
Proof.
  intros Habsent. unfold onTabRemoved. exec_simpl. by rewrite Habsent.
Qed.

(** Below the ceiling the listener is a prelude followed by one call of
    [processJob]; [w1] is the world in which the call is made. *)
Lemma onTabRemoved_retry (o : Oracle) (w : World) (tabId : Z) (job : Job) :
  activeJobs (mem w) !! tabId = Some job →
  retryCount_of (mem w) (job_id job) < MAX_TAB_CLOSURE_RETRIES →
  ∃ w1 x tr,
    exec o (onTabRemoved tabId) w = exec o (processJob job) w1
    ∧ trace w1 = EvAsync (Delay 2000) x :: tr
    ∧ activeJobs (mem w1) = delete tabId (activeJobs (mem w))
    ∧ tabClosureRetries (mem w1)
      = <[job_id job := retryCount_of (mem w) (job_id job) + 1]> (tabClosureRetries (mem w))
    ∧ store w1 = store w
    ∧ observed (trace w1) = observed (trace w).
Proof.
  intros Hjob Hlt. unfold onTabRemoved. exec_simpl. rewrite Hjob. exec_simpl.
  exec_block clearJobTimeout_spec as (w1 & E1 & Ha1 & Hr1 & Hs1 & Ht1).
  rewrite E1. exec_facts. exec_simpl.
  unfold retryCount_of in *. rewrite Hr1.
  apply Z.ltb_lt in Hlt. rewrite Hlt. exec_simpl. unit_answers.
  rewrite exec_catch.
  match goal with
  | |- context [exec o (processJob job) ?w0] =>
      destruct (processJob_spec o w0 job) as (w2 & now & rc & E2 & _);
      exists w0
  end.
  rewrite E2. eexists _, _. split; [done|]. exec_simpl.
  by rewrite Ha1, Hr1, Hs1, Ht1.
Qed.

(** At the ceiling the listener deletes the counter and hands the job to
    [handleJobFailure]. *)
Lemma onTabRemoved_ceiling (o : Oracle) (w : World) (tabId : Z) (job : Job) :
  activeJobs (mem w) !! tabId = Some job →
  MAX_TAB_CLOSURE_RETRIES ≤ retryCount_of (mem w) (job_id job) →
  ∃ w' client r,
    exec o (onTabRemoved tabId) w = (Returned tt, w')
    ∧ observed (trace w')
      = EvAsync (FailJob client (job_id job)
                   ("Tab closed " +:+ pretty MAX_TAB_CLOSURE_RETRIES +:+ " times")) r
        :: observed (trace w)
    ∧ activeJobs (mem w') = delete tabId (activeJobs (mem w))
    ∧ tabClosureRetries (mem w') = delete (job_id job) (tabClosureRetries (mem w))
    ∧ match r with
      | Fulfilled _ =>
          ∃ now now',
            store w' = record_outcome bump_failed (job_id job) Failed now now' (store w)
      | Rejected _ => store w' = store w
      end.
Proof.
  intros Hjob Hge. unfold onTabRemoved. exec_simpl. rewrite Hjob. exec_simpl.
  exec_block clearJobTimeout_spec as (w1 & E1 & Ha1 & Hr1 & Hs1 & Ht1).
  rewrite E1. exec_facts. exec_simpl.
  unfold retryCount_of in *. rewrite Hr1.
  apply Z.ltb_ge in Hge. rewrite Hge. exec_simpl. unit_answers.
  exec_block handleJobFailure_spec as (w2 & client & r & E2 & Ht2 & Ha2 & Hr2 & Hs2).
  rewrite E2. exec_facts.
  exists w2, client, r. split; [done|].
  rewrite Ht2, Ha2, Hr2, Ha1, Hr1, Ht1, delete_delete_eq.
  repeat split; try done. destruct r as [?|?]; by rewrite <-Hs1.
Qed.

Lemma counters_dispatched_store (job : Job) (now : Z) (s : Storage) :
  counters (dispatched_store job now s) = counters s.
Proof. reflexivity. Qed.

(** C4, as the code has it.  For a tab-removal event of an active job:
    below the ceiling ([retryCount < MAX_TAB_CLOSURE_RETRIES = 3]) the
    listener removes the entry of the closed tab from the registry, sets
    the counter to [retryCount + 1], waits 2000 ms and then calls
    [processJob] for the same job exactly once (one tab creation), with no
    observed call of its own and the storage untouched; a re-dispatch that
    is delivered (the [try] block of [processJob] completes) makes no
    backend call, leaves the three counters and the incremented retry
    counter as they are and registers the job under the new tab id, while
    a re-dispatch whose [try] block throws is reported once with [failJob]
    by the [catch] block of [processJob], which also deletes the retry
    counter.  At or above the ceiling the entry is removed, the counter is
    deleted, exactly one backend call is made, it is a [failJob] report,
    and no tab is created. *)
Theorem tab_closure_retry_policy (o : Oracle) (w : World) (tabId : Z) (job : Job) :
  activeJobs (mem w) !! tabId = Some job →
  let n := retryCount_of (mem w) (job_id job) in
  let w' := (exec o (onTabRemoved tabId) w).2 in
  (n < MAX_TAB_CLOSURE_RETRIES →
   ∃ w1 x tr,
     exec o (onTabRemoved tabId) w = exec o (processJob job) w1
     ∧ trace w1 = EvAsync (Delay 2000) x :: tr
     ∧ activeJobs (mem w1) = delete tabId (activeJobs (mem w))
     ∧ tabClosureRetries (mem w1) !! job_id job = Some (n + 1)
     ∧ store w1 = store w
     ∧ observed (trace w1) = observed (trace w)
     ∧ count is_tabsCreate (trace w') = S (count is_tabsCreate (trace w))
     ∧ count is_getNextJob (trace w') = count is_getNextJob (trace w)
     ∧ count is_completeJob (trace w') = count is_completeJob (trace w)
     ∧ ((exec o (processJob_try job) w1).1 = Returned tt →
        count is_backend (trace w') = count is_backend (trace w)
        ∧ counters (store w') = counters (store w)
        ∧ tabClosureRetries (mem w') !! job_id job = Some (n + 1)
        ∧ ∃ t, t ≠ 0
               ∧ activeJobs (mem w') = <[t := job]> (delete tabId (activeJobs (mem w))))
     ∧ (∀ e, (exec o (processJob_try job) w1).1 = Threw e →
        count is_failJob (trace w') = S (count is_failJob (trace w))
        ∧ count is_backend (trace w') = S (count is_backend (trace w))
        ∧ tabClosureRetries (mem w') !! job_id job = None))
  ∧ (MAX_TAB_CLOSURE_RETRIES ≤ n →
     activeJobs (mem w') = delete tabId (activeJobs (mem w))
     ∧ tabClosureRetries (mem w') !! job_id job = None
     ∧ count is_failJob (trace w') = S (count is_failJob (trace w))
     ∧ count is_backend (trace w') = S (count is_backend (trace w))
     ∧ count is_tabsCreate (trace w') = count is_tabsCreate (trace w)).
Proof.
  intros Hjob n w'. split.
  - intros Hlt.
    destruct (onTabRemoved_retry o w tabId job Hjob Hlt)
      as (w1 & x & tr & E & Htr & Ha1 & Hr1 & Hs1 & Ht1).
    exists w1, x, tr. subst w'. rewrite E.
    destruct (processJob_spec o w1 job) as (w2 & now & rc & E2 & Hcases).
    rewrite E2. cbn [snd].
    split; [done|]. split; [done|]. split; [done|].
    split; [rewrite Hr1; apply lookup_insert_eq|].
    split; [done|]. split; [done|].
    destruct (exec o (processJob_try job) w1).1 as [[]|e] eqn:Htry.
    + destruct Hcases as (Ht2 & Hs2 & Hr2 & t & Hnz & _ & Ha2). rewrite Ht1 in Ht2.
      split; [by count_observed Ht2|]. split; [by count_observed Ht2|].
      split; [by count_observed Ht2|]. split; [|done].
      intros _. split; [by count_observed Ht2|].
      split; [by rewrite Hs2, counters_dispatched_store, Hs1|].
      split; [rewrite Hr2, Hr1; apply lookup_insert_eq|].
      exists t. split; [done|]. by rewrite Ha2, Ha1.
    + destruct Hcases as (client & r & Ht2 & Hr2 & _). rewrite Ht1 in Ht2.
      split; [by count_observed Ht2|]. split; [by count_observed Ht2|].
      split; [by count_observed Ht2|]. split; [done|].
      intros e' [= <-]. split; [by count_observed Ht2|].
      split; [by count_observed Ht2|].
      rewrite Hr2. apply lookup_delete_eq.
  - intros Hge.
    destruct (onTabRemoved_ceiling o w tabId job Hjob Hge)
      as (w2 & client & r & E & Ht & Ha & Hr & _).
    subst w'. rewrite E. cbn [snd]. split; [done|].
    split; [rewrite Hr; apply lookup_delete_eq|].
    split; [by count_observed Ht|]. split; by count_observed Ht.
Qed.

Lemma tab_closure_retry_policy_witness :
  activeJobs (mem (running (sampleJob "j1"))) !! 7 = Some (sampleJob "j1")
  ∧ retryCount_of (mem (running (sampleJob "j1"))) "j1" < MAX_TAB_CLOSURE_RETRIES
  ∧ count is_tabsCreate (trace (exec friendly (onTabRemoved 7) (running (sampleJob "j1"))).2)
    = S (count is_tabsCreate (trace (running (sampleJob "j1")))).
Proof.
  assert (activeJobs (mem (running (sampleJob "j1"))) !! 7 = Some (sampleJob "j1"))
    as Hjob by reflexivity.
  assert (retryCount_of (mem (running (sampleJob "j1"))) "j1" < MAX_TAB_CLOSURE_RETRIES)
    as Hlt by reflexivity.
  split; [exact Hjob|]. split; [exact Hlt|].
  destruct (proj1 (tab_closure_retry_policy friendly _ 7 _ Hjob) Hlt)
    as (w1 & x & tr & _ & _ & _ & _ & _ & _ & Hcreate & _).
  exact Hcreate.
Defined.

(** C4 fails as stated: job j1 runs in tab 7 with no retry counter yet
    (0 < 3), the tab is closed, and the re-dispatch cannot open a new tab.
    The event then makes one backend call ([failJob], from the [catch]
    block of [processJob]), [processed] and [failed] go from 0 to 1, and
    the retry counter is deleted instead of incremented. *)
Lemma failed_redispatch_reports_to_backend :
  let w := running (sampleJob "j1") in
  let w' := (exec no_tabs (onTabRemoved 7) w).2 in
  activeJobs (mem w) !! 7 = Some (sampleJob "j1")
  ∧ retryCount_of (mem w) "j1" = 0
  ∧ count is_backend (trace w) = 0%nat
  ∧ count is_backend (trace w') = 1%nat
  ∧ counters (store w) = (0, 0, 0)
  ∧ counters (store w') = (1, 0, 1)
  ∧ tabClosureRetries (mem w') !! "j1" = None.
Proof. by vm_compute. Qed.

(** ** The crash scenario in a cooperative environment *)

Lemma waitForTabLoad_cooperative (o : Oracle) (w : World) (tabId : Z) :
  cooperative o →
  ∃ w', exec o (waitForTabLoad tabId) w = (Returned tt, w') ∧ quiet w w'.
Proof.
  intros (_ & Hget & _). unfold waitForTabLoad.
  change 30%nat with (S 29). generalize 29%nat as n. intros n.
  cbn [waitForTabLoad_from]. exec_simpl. rewrite Hget. exec_simpl.
  unit_answers. by eexists.
Qed.

Lemma waitForContentScript_cooperative (o : Oracle) (w : World) (tabId : Z) :
  cooperative o →
  ∃ w', exec o (waitForContentScript tabId) w = (Returned tt, w') ∧ quiet w w'.
Proof.
  intros (_ & _ & Hmsg). unfold waitForContentScript.
  change 20%nat with (S 19). generalize 19%nat as n. intros n.
  cbn [waitForContentScript_from]. exec_simpl. rewrite Hmsg. exec_simpl.
  cbn [truthy_bool]. exec_simpl. unit_answers. by eexists.
Qed.

Lemma processJob_try_cooperative (o : Oracle) (w : World) (job : Job) :
  cooperative o → (exec o (processJob_try job) w).1 = Returned tt.
Proof.
  intros Hco. pose proof Hco as (Hcreate & _ & Hmsg).
  unfold processJob_try. exec_simpl.
  exec_block addJobToHistory_dispatched as (w1 & now & E1 & _).
  rewrite E1. exec_simpl. unit_answers.
  match goal with
  | |- context [async o ?n (TabsCreate ?url)] =>
      destruct (Hcreate n url) as (t & Hnz & ->)
  end.
  exec_simpl. cbn [tab_id truthy_num default]. unfold truthy at 1.
  destruct (Z.eqb_spec t 0) as [->|_]; [done|]. exec_simpl. unit_answers.
  exec_block (waitForTabLoad_cooperative o) as (w2 & E2 & _); [done|].
  rewrite E2. exec_simpl.
  exec_block (waitForContentScript_cooperative o) as (w3 & E3 & _); [done|].
  rewrite E3. exec_simpl. unit_answers. rewrite Hmsg. exec_simpl.
  cbn [truthy_bool]. exec_simpl. by unit_answers.
Qed.

(** A dispatch in a cooperative environment registers the job under the
    tab it opened and touches nothing else that is observed. *)
Lemma processJob_cooperative (o : Oracle) (w : World) (job : Job) :
  cooperative o →
  ∃ w' t,
    exec o (processJob job) w = (Returned tt, w')
    ∧ last_created (observed (trace w')) = Some t
    ∧ activeJobs (mem w') !! t = Some job
    ∧ tabClosureRetries (mem w') = tabClosureRetries (mem w)
    ∧ count is_tabsCreate (trace w') = S (count is_tabsCreate (trace w))
    ∧ count is_backend (trace w') = count is_backend (trace w)
    ∧ count is_failJob (trace w') = count is_failJob (trace w).
Proof.
  intros Hco.
  destruct (processJob_spec o w job) as (w' & now & rc & E & Hcases).
  rewrite (processJob_try_cooperative o w job Hco) in Hcases.
  destruct Hcases as (Ht & _ & Hr & t & _ & -> & Ha).
  exists w', t. split; [done|].
  split; [by rewrite Ht|].
  split; [rewrite Ha; apply lookup_insert_eq|].
  split; [done|].
  split; [by count_observed Ht|]. split; by count_observed Ht.
Qed.

Lemma scenario_start (o : Oracle) (job : Job) (w : World) :
  cooperative o →
  tabClosureRetries (mem w) !! job_id job = None →
  mid_scenario job 0 w (exec o (processJob job) w).2.
Proof.
  intros Hco Hfresh.
  destruct (processJob_cooperative o w job Hco)
    as (w' & t & -> & Hlast & Ha & Hr & Hc & Hb & Hf).
  exists t. cbn [snd]. unfold retryCount_of. rewrite Hr, Hfresh.
  by repeat split.
Qed.

Lemma scenario_retry (o : Oracle) (job : Job) (k : nat) (w0 wk : World) :
  cooperative o →
  (k < 3)%nat →
  mid_scenario job k w0 wk →
  mid_scenario job (S k) w0 (crash o wk).
Proof.
  intros Hco Hk (t & Hlast & Ha & Hn & Hc & Hb & Hf).
  unfold crash. rewrite Hlast.
  assert (retryCount_of (mem wk) (job_id job) < MAX_TAB_CLOSURE_RETRIES) as Hlt.
  { rewrite Hn. unfold MAX_TAB_CLOSURE_RETRIES. lia. }
  destruct (onTabRemoved_retry o wk t job Ha Hlt)
    as (w1 & x & tr & -> & _ & _ & Hr1 & _ & Ht1).
  destruct (processJob_cooperative o w1 job Hco)
    as (w' & t' & -> & Hlast' & Ha' & Hr' & Hc' & Hb' & Hf').
  exists t'. cbn [snd]. split; [done|]. split; [done|].
  split.
  { unfold retryCount_of at 1. rewrite Hr', Hr1, lookup_insert_eq. cbn [default].
    rewrite Hn. unfold id. lia. }
  rewrite Hc', Hb', Hf'.
  rewrite (count_by_observed is_tabsCreate _ _ tabsCreate_observable Ht1),
    (count_by_observed is_backend _ _ backend_observable Ht1),
    (count_by_observed is_failJob _ _ failJob_observable Ht1).
  rewrite !count_observed by auto with observed.
  rewrite Hc, Hb, Hf. by repeat split.
Qed.

Lemma scenario_below_ceiling (o : Oracle) (job : Job) (w : World) (k : nat) :
  cooperative o →
  tabClosureRetries (mem w) !! job_id job = None →
  (k ≤ 3)%nat →
  mid_scenario job k w (crash_scenario o job k w).
Proof.
  intros Hco Hfresh. induction k as [|k IH]; intros Hk.
  - by apply scenario_start.
  - unfold crash_scenario in *. cbn [Nat.iter].
    apply scenario_retry; [done|lia|]. apply IH. lia.
Qed.

Lemma last_created_skip_failJob client jobId errorMessage (r : Settled bool) tr :
  last_created (EvAsync (FailJob client jobId errorMessage) r :: tr) = last_created tr.
Proof. reflexivity. Qed.

(** C5, as the code has it.  A job is dispatched in a cooperative
    environment and its executor tab is destroyed again and again with no
    other signal.  With [MAX_TAB_CLOSURE_RETRIES = 3] each of the first
    three destructions produces exactly one local re-dispatch and no
    backend call; the fourth destruction is the one at the ceiling: it
    produces exactly one backend call, a [failJob] report, and no
    re-dispatch, whatever the reply (and its [willRetry]) is; the retry
    counter is gone and a further removal of the tab does nothing. *)
Theorem crash_at_ceiling_scenario (o : Oracle) (job : Job) (w : World) :
  cooperative o →
  tabClosureRetries (mem w) !! job_id job = None →
  (∀ k, (k ≤ 3)%nat →
        count is_tabsCreate (trace (crash_scenario o job k w))
        = (S k + count is_tabsCreate (trace w))%nat
        ∧ count is_failJob (trace (crash_scenario o job k w))
          = count is_failJob (trace w)
        ∧ count is_backend (trace (crash_scenario o job k w))
          = count is_backend (trace w))
  ∧ (let w4 := crash_scenario o job 4 w in
     count is_failJob (trace w4) = S (count is_failJob (trace w))
     ∧ count is_backend (trace w4) = S (count is_backend (trace w))
     ∧ count is_tabsCreate (trace w4) = (4 + count is_tabsCreate (trace w))%nat
     ∧ tabClosureRetries (mem w4) !! job_id job = None
     ∧ crash o w4 = w4).
Proof.
  intros Hco Hfresh. split.
  - intros k Hk.
    destruct (scenario_below_ceiling o job w k Hco Hfresh Hk)
      as (t & _ & _ & _ & Hc & Hb & Hf).
    done.
  - destruct (scenario_below_ceiling o job w 3 Hco Hfresh (le_n 3))
      as (t & Hlast & Ha & Hn & Hc & Hb & Hf).
    cbv zeta. unfold crash_scenario in *.
    change (Nat.iter 4 (crash o) ?x) with (crash o (Nat.iter 3 (crash o) x)).
    set (w3 := Nat.iter 3 (crash o) (exec o (processJob job) w).2) in *.
    assert (MAX_TAB_CLOSURE_RETRIES ≤ retryCount_of (mem w3) (job_id job)) as Hge.
    { rewrite Hn. unfold MAX_TAB_CLOSURE_RETRIES. lia. }
    destruct (onTabRemoved_ceiling o w3 t job Ha Hge)
      as (w4 & client & r & E & Ht & Ha4 & Hr4 & _).
    assert (crash o w3 = w4) as ->.
    { unfold crash. by rewrite Hlast, E. }
    split; [count_observed Ht; by rewrite Hf|].
    split; [count_observed Ht; by rewrite Hb|].
    split; [count_observed Ht; by rewrite Hc|].
    split; [rewrite Hr4; apply lookup_delete_eq|].
    unfold crash. rewrite Ht, last_created_skip_failJob, Hlast.
    rewrite onTabRemoved_absent; [done|].
    rewrite Ha4. apply lookup_delete_eq.
Qed.

Lemma friendly_cooperative : cooperative friendly.
Proof.
  split; [|by split].
  intros n url. exists (100 + Z.of_nat n). split; [lia|done].
Qed.

Lemma crash_at_ceiling_scenario_witness :
  cooperative friendly
  ∧ tabClosureRetries (mem fresh) !! job_id (sampleJob "j2") = None
  ∧ count is_failJob (trace (crash_scenario friendly (sampleJob "j2") 4 fresh))
    = S (count is_failJob (trace fresh)).
Proof.
  assert (tabClosureRetries (mem fresh) !! job_id (sampleJob "j2") = None)
    as Hfresh by reflexivity.
  split; [exact friendly_cooperative|]. split; [exact Hfresh|].
  exact (proj1 (proj2 (crash_at_ceiling_scenario friendly (sampleJob "j2") fresh
                         friendly_cooperative Hfresh))).
Defined.

(** C5 fails as stated: job j2 is dispatched and its executor tab is
    destroyed three times.  The third destruction is not at the ceiling:
    it is retried locally like the first two (four tabs have been opened)
    and no [failJob] call has been made.  The call comes with the fourth
    destruction. *)
Lemma third_crash_is_retried_locally :
  let w3 := crash_scenario friendly (sampleJob "j2") 3 fresh in
  let w4 := crash_scenario friendly (sampleJob "j2") 4 fresh in
  count is_failJob (trace w3) = 0%nat
  ∧ count is_tabsCreate (trace w3) = 4%nat
  ∧ tabClosureRetries (mem w3) !! "j2" = Some 3
  ∧ count is_failJob (trace w4) = 1%nat
  ∧ count is_tabsCreate (trace w4) = 4%nat.
Proof. by vm_compute. Qed.

(** ** One history record per dispatch *)

Lemma jobHistory_dispatched_store (job : Job) (now : Z) (s : Storage) :
  default [] (jobHistory (dispatched_store job now s))
  = historyItem_of job Processing now :: take 49 (default [] (jobHistory s)).
Proof. reflexivity. Qed.

Lemma index_of_head (item : JobHistoryItem) (h : list JobHistoryItem) :
  index_of (hi_id item) (item :: h) = Some O.
Proof. unfold index_of. cbn [findIndex]. by rewrite String.eqb_refl. Qed.

Lemma jobHistory_update_head (status : JobStatus) (now : Z) (item : JobHistoryItem)
    (h : list JobHistoryItem) (s : Storage) :
  default [] (jobHistory s) = item :: h →
  default [] (jobHistory (update_history (hi_id item) status now s))
  = with_status status now item :: h.
Proof.
  intros Hh. unfold update_history. by rewrite Hh, index_of_head.
Qed.

Lemma jobHistory_set_stats (st : Stats) (s : Storage) :
  jobHistory (set_stats st s) = jobHistory s.
Proof. reflexivity. Qed.











(** ** The stats invariant under every interleaving *)

Section preserves.
Context (Inv : Storage → Prop).

Lemma Preserves_bind {A B} (p : Prog A) (f : A → Prog B) :
  Preserves Inv p → (∀ a, Preserves Inv (f a)) → Preserves Inv (bind p f).
Proof.
  intros Hp Hf.
  induction p as [a|e|X c k IH|X c k IH|k IH|g k IH|k IH|g k IH];
    cbn [bind Preserves] in *; auto.
  destruct Hp. auto.
Qed.

Lemma Preserves_catch {A} (p : Prog A) (h : Thrown → Prog A) :
  Preserves Inv p → (∀ e, Preserves Inv (h e)) → Preserves Inv (catch p h).
Proof.
  intros Hp Hh.
  induction p as [a|e|X c k IH|X c k IH|k IH|g k IH|k IH|g k IH];
    cbn [catch Preserves] in *; auto.
  destruct Hp. auto.
Qed.

(** A program that keeps the invariant keeps it when run on its own. *)
Lemma Preserves_exec {A} (o : Oracle) (p : Prog A) :
  Preserves Inv p → ∀ w, Inv (store w) → Inv (store (exec o p w).2).
Proof.
  induction p as [a|e|X c k IH|X c k IH|k IH|g k IH|k IH|g k IH];
    cbn [exec Preserves]; intros Hp w Hw; auto.
  destruct Hp as [Hg Hk]. apply IH; [done|]. by apply Hg.
Qed.

(** One node of a task that keeps the invariant. *)
Lemma Preserves_task_step (m : Mem) (s : Storage) (p : Prog unit)
    (m' : Mem) (s' : Storage) (p' : option (Prog unit)) :
  task_step m s p m' s' p' →
  Preserves Inv p → Inv s →
  Inv s' ∧ Forall (Preserves Inv) (option_list p').
Proof.
  intros Hstep Hp Hs.
  destruct Hstep; cbn [Preserves option_list] in *;
    (split; [|repeat constructor]); auto; by apply Hp.
Qed.
End preserves.

Lemma stats_balanced_default (s : Storage) :
  stats_inv s → stats_balanced (default initialStats (stats s)).
Proof.
  intros Hs. destruct (stats s) as [st|] eqn:Hst; cbn [default from_option id].
  - by apply Hs.
  - reflexivity.
Qed.

Lemma stats_inv_set_stats (st : Stats) (s : Storage) :
  stats_balanced st → stats_inv (set_stats st s).
Proof. intros Hst st' [= <-]. done. Qed.

Lemma stats_inv_keep (s s' : Storage) :
  stats s' = stats s → stats_inv s → stats_inv s'.
Proof. unfold stats_inv. by intros ->. Qed.

Create HintDb preserves.

Ltac stats_side :=
  first
  [ eapply stats_inv_keep; [reflexivity|eassumption]
  | apply stats_inv_set_stats; unfold stats_balanced;
    cbn [processed succeeded failed initialStats];
    repeat match goal with
    | H : stats_inv ?a |- _ =>
        pose proof (stats_balanced_default a H); clear H
    end;
    unfold stats_balanced in *; lia ].

Ltac preserves_step :=
  first
  [ progress cbn [bind catch Preserves]
  | lazymatch goal with
    | |- True => exact I
    | |- stats_inv _ => stats_side
    | |- _ ∧ _ => split
    | |- ∀ _, _ => intros ?
    | |- Preserves _ ?p =>
        let h := head_of p in
        lazymatch h with
        | match ?x with _ => _ end => destruct x
        | _ =>
            first
            [ solve [auto with preserves]
            | apply Preserves_bind
            | apply Preserves_catch ]
        end
    end ].

Ltac preserves :=
  unfold mbind, mret, Prog_bind, Prog_ret, act, await, delay,
    mem_read, mem_write, storage_get, storage_set;
  repeat preserves_step.

Lemma addJobToHistory_stats job status : Preserves stats_inv (addJobToHistory job status).
Proof. unfold addJobToHistory. preserves. Qed.

Lemma updateJobInHistory_stats jobId status :
  Preserves stats_inv (updateJobInHistory jobId status).
Proof. unfold updateJobInHistory. preserves. Qed.

Lemma clearJobTimeout_stats tabId : Preserves stats_inv (clearJobTimeout tabId).
Proof. unfold clearJobTimeout. preserves. Qed.

Lemma fromStorage_stats : Preserves stats_inv fromStorage.
Proof. unfold fromStorage. preserves. Qed.

#[local] Hint Resolve addJobToHistory_stats updateJobInHistory_stats
  clearJobTimeout_stats fromStorage_stats : preserves.

Lemma handleJobSuccess_stats tabId jobId :
  Preserves stats_inv (handleJobSuccess tabId jobId).
Proof. unfold handleJobSuccess. preserves. Qed.

Lemma handleJobFailure_stats tabId jobId errorMessage :
  Preserves stats_inv (handleJobFailure tabId jobId errorMessage).
Proof. unfold handleJobFailure. preserves. Qed.

#[local] Hint Resolve handleJobSuccess_stats handleJobFailure_stats : preserves.

Lemma handleJobTimeout_stats tabId : Preserves stats_inv (handleJobTimeout tabId).
Proof. unfold handleJobTimeout. preserves. Qed.

Lemma waitForTabLoad_from_stats tabId remaining :
  ∀ attempt, Preserves stats_inv (waitForTabLoad_from tabId attempt remaining).
Proof.
  induction remaining as [|n IH]; intros attempt; cbn [waitForTabLoad_from];
    by preserves.
Qed.

Lemma waitForContentScript_from_stats tabId remaining :
  ∀ attempt, Preserves stats_inv (waitForContentScript_from tabId attempt remaining).
Proof.
  induction remaining as [|n IH]; intros attempt; cbn [waitForContentScript_from];
    by preserves.
Qed.

Lemma waitForTabLoad_stats tabId : Preserves stats_inv (waitForTabLoad tabId).
Proof. apply waitForTabLoad_from_stats. Qed.

Lemma waitForContentScript_stats tabId : Preserves stats_inv (waitForContentScript tabId).
Proof. apply waitForContentScript_from_stats. Qed.

#[local] Hint Resolve waitForTabLoad_stats waitForContentScript_stats : preserves.

Lemma processJob_stats job : Preserves stats_inv (processJob job).
Proof. unfold processJob, processJob_try, processJob_catch. preserves. Qed.

#[local] Hint Resolve processJob_stats : preserves.

Lemma pollForJob_stats : Preserves stats_inv pollForJob.
Proof. unfold pollForJob. preserves. Qed.

Lemma onMessage_stats message senderTabId :
  Preserves stats_inv (onMessage message senderTabId).
Proof. unfold onMessage. preserves. Qed.

Lemma onTabRemoved_stats tabId : Preserves stats_inv (onTabRemoved tabId).
Proof. unfold onTabRemoved. preserves. Qed.

Lemma onInstalled_stats : Preserves stats_inv onInstalled.
Proof. unfold onInstalled. preserves. Qed.

Lemma entry_stats (p : Prog unit) : entry p → Preserves stats_inv p.
Proof.
  destruct 1.
  - apply onInstalled_stats.
  - apply pollForJob_stats.
  - apply onMessage_stats.
  - apply handleJobTimeout_stats.
  - apply onTabRemoved_stats.
Qed.

Lemma step_config_ok (c c' : Config) : step c c' → config_ok c → config_ok c'.
Proof.
  unfold config_ok. destruct 1 as [m s ts p Hentry|m s ts1 p ts2 m' s' p' Hstep|m s ts];
    cbn [c_store pool]; intros [Hs Hpool].
  - split; [done|]. constructor; [by apply entry_stats|done].
  - apply Forall_app in Hpool as [H1 Hpool].
    apply Forall_cons in Hpool as [Hp H2].
    destruct (Preserves_task_step stats_inv m s p m' s' p' Hstep Hp Hs) as [Hs' Hp'].
    split; [done|]. apply Forall_app. split; [done|].
    apply Forall_app. by split.
  - split; [|done]. by eapply stats_inv_keep.
Qed.

Lemma reachable_config_ok (c0 c : Config) :
  rtc step c0 c → config_ok c0 → config_ok c.
Proof.
  induction 1 as [c|c1 c2 c3 Hstep _ IH]; [done|].
  intros Hok. apply IH. by eapply step_config_ok.
Qed.

(** C7.  Stats counter invariant.  From a configuration with nothing in
    flight whose stored stats are balanced (the initial record
    [processed = succeeded = failed = 0], or no record yet), every
    configuration the event loop can reach, under every interleaving of
    the handlers and every answer of the environment, stores stats with
    [processed = succeeded + failed].  A handler run on its own keeps the
    invariant too, and the finalize handlers either leave the three
    counters alone (the report was rejected) or add one to [processed]
    and one to [succeeded], resp. [failed]. *)
Theorem stats_counters_balanced :
  (∀ c0 c,
     pool c0 = [] →
     stats_inv (c_store c0) →
     rtc step c0 c →
     ∀ st, stats (c_store c) = Some st → processed st = succeeded st + failed st)
  ∧ (∀ o w p, entry p → stats_inv (store w) → stats_inv (store (exec o p w).2))
  ∧ (∀ o w tabId jobId,
       let w' := (exec o (handleJobSuccess tabId jobId) w).2 in
       counters (store w') = counters (store w)
       ∨ counters (store w')
         = ((counters (store w)).1.1 + 1, (counters (store w)).1.2 + 1,
            (counters (store w)).2))
  ∧ (∀ o w tabId jobId errorMessage,
       let w' := (exec o (handleJobFailure tabId jobId errorMessage) w).2 in
       counters (store w') = counters (store w)
       ∨ counters (store w')
         = ((counters (store w)).1.1 + 1, (counters (store w)).1.2,
            (counters (store w)).2 + 1)).
Proof.
  split; [|split; [|split]].
  - intros c0 c Hpool Hinv Hreach.
    assert (config_ok c0) as Hok0 by (split; [done|by rewrite Hpool]).
    destruct (reachable_config_ok c0 c Hreach Hok0) as [Hs _].
    exact Hs.
  - intros o w p Hentry. apply Preserves_exec. by apply entry_stats.
  - intros o w tabId jobId.
    destruct (handleJobSuccess_spec o w tabId jobId) as (w' & client & r & -> & _ & Hr).
    cbn [snd]. destruct r as [?|?].
    + destruct Hr as (_ & _ & now & now' & ->). right. apply counters_record_succeeded.
    + destruct Hr as (_ & _ & ->). by left.
  - intros o w tabId jobId errorMessage.
    destruct (handleJobFailure_spec o w tabId jobId errorMessage)
      as (w' & client & r & -> & _ & _ & _ & Hr).
    cbn [snd]. destruct r as [?|?].
    + destruct Hr as (now & now' & ->). right. apply counters_record_failed.
    + rewrite Hr. by left.
Qed.

Lemma stats_counters_balanced_witness :
  pool fresh_config = []
  ∧ stats_inv (c_store fresh_config)
  ∧ rtc step fresh_config
      {| c_mem := emptyMem; c_store := emptyStorage; pool := [onInstalled] |}
  ∧ (∀ st, stats emptyStorage = Some st → processed st = succeeded st + failed st)
  ∧ stats_inv (store (running (sampleJob "j1")))
  ∧ stats_inv
      (store (exec friendly (onMessage (JOB_SUCCESS "j1") (Some 7))
                (running (sampleJob "j1"))).2).
Proof.
  assert (stats_inv (c_store fresh_config)) as Hinv by (intros st; discriminate).
  assert (rtc step fresh_config
            {| c_mem := emptyMem; c_store := emptyStorage; pool := [onInstalled] |})
    as Hreach.
  { apply rtc_once. exact (step_start emptyMem emptyStorage [] onInstalled entry_installed). }
  assert (stats_inv (store (running (sampleJob "j1")))) as Hrun.
  { intros st [= <-]. reflexivity. }
  split; [reflexivity|]. split; [exact Hinv|]. split; [exact Hreach|].
  split; [exact (proj1 stats_counters_balanced fresh_config _ eq_refl Hinv Hreach)|].
  split; [exact Hrun|].
  exact (proj1 (proj2 stats_counters_balanced) friendly _ _
           (entry_message (JOB_SUCCESS "j1") (Some 7)) Hrun).
Defined.

(** ** Worked examples *)

(** The instance of C6 the specification names: once a success signal has
    been handled and its report fulfilled, the timeout of that tab does
    nothing. *)
Lemma timeout_after_success (o : Oracle) (w : World) (tabId : Z) (jobId : string) :
  let w' := (exec o (handleJobSuccess tabId jobId) w).2 in
  ∃ client r,
    observed (trace w') = EvAsync (CompleteJob client jobId) r :: observed (trace w)
    ∧ (∀ x, r = Fulfilled x → exec o (handleJobTimeout tabId) w' = (Returned tt, w')).
Proof.
  destruct (handleJobSuccess_spec o w tabId jobId) as (w' & client & r & -> & Ht & Hr).
  exists client, r. split; [done|]. intros x ->. cbn [snd].
  apply handleJobTimeout_absent. destruct Hr as (-> & _). apply lookup_delete_eq.
Qed.

(** The scenario of the specification: job j1 (price 500) is dispatched,
    acknowledged, and reports success. *)
Example success_scenario :
  let w1 := (exec friendly (processJob (sampleJob "j1")) fresh).2 in
  let t := default 0 (last_created (observed (trace w1))) in
  let w2 := (exec friendly (onMessage (JOB_SUCCESS "j1") (Some t)) w1).2 in
  counters (store w2) = (1, 1, 0)
  ∧ (hi_id <$> history w2) = ["j1"]
  ∧ (hi_status <$> history w2) = [Completed]
  ∧ activeJobs (mem w2) = ∅
  ∧ count is_completeJob (trace w2) = 1%nat.
Proof. by vm_compute. Qed.

(** Fifty-one insertions into an empty history keep the fifty newest. *)
Example history_evicts_oldest :
  let ops := (λ n : nat, AddJob (sampleJob (pretty n)) Processing) <$> seq 0 51 in
  let h := history (run_ops friendly ops fresh) in
  length h = 50%nat
  ∧ hi_id <$> head h = Some "50"
  ∧ hi_id <$> last h = Some "1".
Proof. by vm_compute. Qed.

(** A dispatch that is never acknowledged and the timeout that follows it:
    the [catch] block of [processJob] reports the failure without a tab id,
    so the entry of the tab stays registered; when the timer fires,
    [handleJobTimeout] finds the entry and the job is reported and counted
    a second time. *)
Example delivery_failure_then_timeout :
  let unanswered :=
    {| sync := @sync friendly;
       async := λ X n c,
         match c in Async X return Settled X with
         | TabsSendMessage _ (START_JOB _) => Fulfilled None
         | c' => async friendly n c'
         end |} in
  let w1 := (exec unanswered (processJob (sampleJob "j3")) fresh).2 in
  let t := default 0 (last_created (observed (trace w1))) in
  let w2 := (exec unanswered (handleJobTimeout t) w1).2 in
  count is_failJob (trace w1) = 1%nat
  ∧ activeJobs (mem w1) !! t = Some (sampleJob "j3")
  ∧ count is_failJob (trace w2) = 2%nat
  ∧ counters (store w2) = (2, 0, 2).
Proof. by vm_compute. Qed.

(** * Further properties of the worker *)

(** ** The poll tick when polling is enabled *)

Lemma poll_ready_clientId (s : Storage) :
  poll_ready s = true → ∃ cid, clientId s = Some cid ∧ cid ≠ EmptyString.
Proof.
  unfold poll_ready. intros H.
  apply andb_prop in H as [_ H].
  destruct (clientId s) as [cid|]; [|done]. exists cid. split; [done|].
  intros ->. done.
Qed.

Lemma pollForJob_ready (o : Oracle) (w : World) :
  poll_ready (store w) = true →
  ∃ w1 r,
    observed (trace w1)
    = EvAsync (GetNextJob (client_of (store w)) (default EmptyString (clientId (store w)))) r
      :: observed (trace w)
    ∧ mem w1 = mem w
    ∧ store w1 = store w
    ∧ exec o pollForJob w
      = match r with
        | Fulfilled (Some job) => exec o (processJob job) w1
        | Fulfilled None => (Returned tt, w1)
        | Rejected e => (if nullish e then Threw NOT_AN_OBJECT else Returned tt, w1)
        end.
Proof.
  unfold poll_ready, pollForJob. intros Hready.
  apply andb_prop in Hready as [Hready Hcid].
  apply andb_prop in Hready as [Hready Hurl].
  apply andb_prop in Hready as [Hrun Hkey].
  exec_simpl. rewrite Hrun. exec_simpl. rewrite Hkey, Hurl. exec_simpl.
  rewrite Hcid. exec_simpl. unit_answers.
  fold (client_of (store w)).
  exec_split; exec_simpl.
  - destruct x as [job|]; exec_simpl; unit_answers.
    + rewrite exec_catch.
      match goal with
      | |- context [exec o (processJob job) ?w0] =>
          destruct (processJob_spec o w0 job) as (w2 & now & rc & E2 & _);
          exists w0
      end.
      exists (Fulfilled (Some job)). rewrite E2. by exec_simpl.
    + eexists _, (Fulfilled None).
      split; [|split; [|split]]; [| | |reflexivity]; by exec_simpl.
  - destruct (nullish e) eqn:Hnull; exec_simpl; unit_answers;
      eexists _, (Rejected e); rewrite Hnull;
      (split; [|split; [|split]]; [| | |reflexivity]); by exec_simpl.
Qed.

(** X1.  A poll tick with polling enabled and the key, the URL and the
    client id stored: [pollForJob] asks the backend for the next job
    exactly once, with the client built from the stored URL and key and
    with the stored client id.  When the queue is empty or the request
    fails, nothing else happens: the maps and the storage are as before
    and no tab is opened.  When a job comes back, the tick is that request
    followed by one [processJob] of that job, which opens exactly one tab.
    The tick returns normally, with one exception: when the request is
    rejected with [null] or [undefined], building the details of the log
    line throws a [TypeError] and [pollForJob] rejects with it. *)
Theorem poll_tick_fetches_once (o : Oracle) (w : World) :
  poll_ready (store w) = true →
  let w' := (exec o pollForJob w).2 in
  count is_getNextJob (trace w') = S (count is_getNextJob (trace w))
  ∧ ∃ w1 r,
      observed (trace w1)
      = EvAsync (GetNextJob (client_of (store w))
                   (default EmptyString (clientId (store w)))) r
        :: observed (trace w)
      ∧ mem w1 = mem w
      ∧ store w1 = store w
      ∧ (exec o pollForJob w).1
        = match r with
          | Fulfilled _ => Returned tt
          | Rejected e => if nullish e then Threw NOT_AN_OBJECT else Returned tt
          end
      ∧ match r with
        | Fulfilled (Some job) =>
            w' = (exec o (processJob job) w1).2
            ∧ count is_tabsCreate (trace w') = S (count is_tabsCreate (trace w))
        | _ =>
            w' = w1
            ∧ count is_tabsCreate (trace w') = count is_tabsCreate (trace w)
        end.
Proof.
  intros Hready w'. subst w'.
  destruct (pollForJob_ready o w Hready) as (w1 & r & Ht & Hm & Hs & ->).
  assert (∀ job, r = Fulfilled (Some job) →
    (exec o (processJob job) w1).1 = Returned tt
    ∧ count is_getNextJob (trace (exec o (processJob job) w1).2)
      = S (count is_getNextJob (trace w))
    ∧ count is_tabsCreate (trace (exec o (processJob job) w1).2)
      = S (count is_tabsCreate (trace w))) as Hjob.
  { intros job ->.
    destruct (processJob_spec o w1 job) as (w2 & now & rc & E2 & Hcases).
    rewrite E2. cbn [fst snd]. split; [done|].
    destruct (exec o (processJob_try job) w1).1 as [[]|e].
    - destruct Hcases as (Ht2 & _). rewrite Ht in Ht2.
      split; by count_observed Ht2.
    - destruct Hcases as (client & r' & Ht2 & _). rewrite Ht in Ht2.
      split; by count_observed Ht2. }
  destruct r as [[job|]|e].
  - destruct (Hjob job eq_refl) as (Hr & Hg & Hc).
    split; [done|]. exists w1, (Fulfilled (Some job)). by repeat split.
  - cbn [fst snd]. split; [by count_observed Ht|].
    exists w1, (Fulfilled None). repeat split; try done. by count_observed Ht.
  - cbn [fst snd]. split; [by count_observed Ht|].
    exists w1, (Rejected e). repeat split; try done. by count_observed Ht.
Qed.

Lemma poll_tick_fetches_once_witness :
  poll_ready (store configured) = true
  ∧ count is_getNextJob (trace (exec friendly pollForJob configured).2) = 1%nat.
Proof.
  split; [reflexivity|].
  exact (proj1 (poll_tick_fetches_once friendly configured eq_refl)).
Defined.

(** ** Handlers swallow their errors *)

Lemma onInstalled_spec (o : Oracle) (w : World) :
  ∃ w' uuid,
    exec o onInstalled w = (Returned tt, w')
    ∧ mem w' = mem w
    ∧ store w' = installed_store uuid (store w)
    ∧ observed (trace w') = observed (trace w).
Proof.
  unfold onInstalled, installed_store. exec_simpl. unit_answers.
  destruct (truthy_str (clientId (store w))) eqn:Hc; exec_simpl; unit_answers;
    (destruct (bool_decide (is_Some (stats (store w)))) eqn:Hst; exec_simpl);
    (destruct (truthy_num (pollingInterval (store w))) eqn:Hp; exec_simpl);
    (destruct (truthy_num (retryAttempts (store w))) eqn:Hr; exec_simpl);
    (destruct (truthy_num (maxRetryDelay (store w))) eqn:Hd; exec_simpl);
    unit_answers;
    first [ eexists _, EmptyString; (split; [reflexivity|]); exec_simpl;
            rewrite ?Hst, ?Hp; exec_simpl; rewrite ?Hp, ?Hr, ?Hd; exec_simpl;
            rewrite ?Hr, ?Hd; by repeat split
          | eexists _, _; (split; [reflexivity|]); exec_simpl;
            rewrite ?Hst, ?Hp; exec_simpl; rewrite ?Hp, ?Hr, ?Hd; exec_simpl;
            rewrite ?Hr, ?Hd; by repeat split ].
Qed.

Lemma onTabRemoved_returns (o : Oracle) (w : World) (tabId : Z) :
  (exec o (onTabRemoved tabId) w).1 = Returned tt.
Proof.
  destruct (activeJobs (mem w) !! tabId) as [job|] eqn:Hjob.
  - destruct (Z.lt_ge_cases (retryCount_of (mem w) (job_id job)) MAX_TAB_CLOSURE_RETRIES)
      as [Hlt|Hge].
    + destruct (onTabRemoved_retry o w tabId job Hjob Hlt) as (w1 & x & tr & -> & _).
      by destruct (processJob_spec o w1 job) as (w2 & now & rc & -> & _).
    + by destruct (onTabRemoved_ceiling o w tabId job Hjob Hge)
        as (w2 & client & r & -> & _).
  - by rewrite onTabRemoved_absent.
Qed.

(** How a poll tick ends: it returns, or the request for a job was
    rejected with [null] or [undefined] and the tick rejects with the
    [TypeError] of its catch block, having changed nothing. *)
Lemma pollForJob_result (o : Oracle) (w : World) :
  ∃ w',
    exec o pollForJob w = (Returned tt, w')
    ∨ (exec o pollForJob w = (Threw NOT_AN_OBJECT, w')
       ∧ mem w' = mem w
       ∧ store w' = store w
       ∧ poll_rejected_nullish w w').
Proof.
  destruct (poll_ready (store w)) eqn:Hready.
  - destruct (pollForJob_ready o w Hready) as (w1 & r & Ht & Hm & Hs & ->).
    destruct r as [[job|]|e].
    + destruct (processJob_spec o w1 job) as (w2 & now & rc & -> & _).
      exists w2. by left.
    + exists w1. by left.
    + exists w1. destruct (nullish e) eqn:Hnull; [right|by left].
      repeat split; try done. by eexists _, _, e.
  - destruct (pollForJob_not_ready o w Hready) as (w' & -> & _).
    exists w'. by left.
Qed.

Lemma onMessage_returns (o : Oracle) (w : World) (message : WorkerMessage)
    (senderTabId : option Z) :
  (exec o (onMessage message senderTabId) w).1 = Returned tt.
Proof.
  destruct message as [jobId|jobId error]; cbn [onMessage].
  - destruct (truthy_num senderTabId); [|done].
    by destruct (handleJobSuccess_spec o w (default 0 senderTabId) jobId)
      as (w' & client & r & -> & _).
  - by edestruct (handleJobFailure_spec o w) as (w' & client & r & -> & _).
Qed.

Lemma handleJobTimeout_returns (o : Oracle) (w : World) (tabId : Z) :
  (exec o (handleJobTimeout tabId) w).1 = Returned tt.
Proof.
  unfold handleJobTimeout. exec_simpl.
  destruct (activeJobs (mem w) !! tabId) as [job|]; exec_simpl; [|done].
  unit_answers.
  by edestruct (handleJobFailure_spec o) as (w' & client & r & -> & _).
Qed.

(** X2.  Handlers swallow their errors, but for one case.  Whatever the
    environment answers (a backend that is down, a tab that cannot be
    opened or closed, a content script that never answers), the
    installation listener, the outcome-message listener, the timeout
    handler, the tab-removal listener, [processJob] and the two finalize
    handlers return normally: each error is caught and logged inside the
    handler, so the rejection handler the tab-removal listener attaches to
    [processJob] can never run.  The poll tick is the exception: it
    returns normally unless its request for a job is rejected with [null]
    or [undefined]; then it rejects with the [TypeError] raised while the
    log line is built, and has changed neither the maps nor the
    storage. *)
Theorem only_the_poll_tick_can_reject (o : Oracle) (w : World) :
  (∀ p, entry p →
     (exec o p w).1 = Returned tt
     ∨ (p = pollForJob
        ∧ (exec o p w).1 = Threw NOT_AN_OBJECT
        ∧ mem (exec o p w).2 = mem w
        ∧ store (exec o p w).2 = store w
        ∧ poll_rejected_nullish w (exec o p w).2))
  ∧ (exec o onInstalled w).1 = Returned tt
  ∧ (∀ message senderTabId, (exec o (onMessage message senderTabId) w).1 = Returned tt)
  ∧ (∀ tabId, (exec o (handleJobTimeout tabId) w).1 = Returned tt)
  ∧ (∀ tabId, (exec o (onTabRemoved tabId) w).1 = Returned tt)
  ∧ (∀ job, (exec o (processJob job) w).1 = Returned tt)
  ∧ (∀ tabId jobId, (exec o (handleJobSuccess tabId jobId) w).1 = Returned tt)
  ∧ (∀ tabId jobId errorMessage,
       (exec o (handleJobFailure tabId jobId errorMessage) w).1 = Returned tt)
  ∧ (∀ job h,
       exec o (catch (processJob job) h) w = exec o (processJob job) w).
Proof.
  assert ((exec o onInstalled w).1 = Returned tt) as Hinstalled.
  { by destruct (onInstalled_spec o w) as (w' & uuid & -> & _). }
  split; [|split; [|split; [|split; [|split; [|split; [|split; [|split]]]]]]].
  - intros p [ | |message senderTabId|tabId|tabId].
    + by left.
    + destruct (pollForJob_result o w) as (w' & [-> | (-> & Hm & Hs & Hp)]);
        [by left|by right].
    + left. apply onMessage_returns.
    + left. apply handleJobTimeout_returns.
    + left. apply onTabRemoved_returns.
  - done.
  - apply onMessage_returns.
  - apply handleJobTimeout_returns.
  - apply onTabRemoved_returns.
  - intros job. by destruct (processJob_spec o w job) as (w' & now & rc & -> & _).
  - intros tabId jobId.
    by destruct (handleJobSuccess_spec o w tabId jobId) as (w' & client & r & -> & _).
  - intros tabId jobId errorMessage.
    by destruct (handleJobFailure_spec o w tabId jobId errorMessage)
      as (w' & client & r & -> & _).
  - intros job h. rewrite exec_catch.
    by destruct (processJob_spec o w job) as (w' & now & rc & -> & _).
Qed.

(** ** Installation *)

Lemma installed_store_present (uuid : string) (s : Storage) :
  let s' := installed_store uuid s in
  is_Some (clientId s') ∧ is_Some (stats s')
  ∧ truthy_num (pollingInterval s') = true
  ∧ truthy_num (retryAttempts s') = true
  ∧ truthy_num (maxRetryDelay s') = true.
Proof.
  destruct s as [run key url cid int att del st hist].
  unfold installed_store; cbn.
  destruct (truthy_str cid) eqn:Hc; [destruct cid; [|done]|];
    destruct st; cbn;
    destruct (truthy_num int) eqn:Hp; cbn;
    destruct (truthy_num att) eqn:Hr; cbn;
    destruct (truthy_num del) eqn:Hd; cbn;
    rewrite ?Hp, ?Hr, ?Hd; repeat split; eauto.
Qed.

Lemma installed_store_fields (uuid : string) (s : Storage) :
  let s' := installed_store uuid s in
  clientId s' = (if truthy_str (clientId s) then clientId s else Some uuid)
  ∧ stats s' = Some (default initialStats (stats s))
  ∧ pollingInterval s'
    = (if truthy_num (pollingInterval s) then pollingInterval s
       else Some DEFAULT_POLLING_INTERVAL)
  ∧ retryAttempts s'
    = (if truthy_num (retryAttempts s) then retryAttempts s
       else Some DEFAULT_RETRY_ATTEMPTS)
  ∧ maxRetryDelay s'
    = (if truthy_num (maxRetryDelay s) then maxRetryDelay s
       else Some DEFAULT_MAX_RETRY_DELAY)
  ∧ isRunning s' = isRunning s ∧ apiKey s' = apiKey s ∧ apiUrl s' = apiUrl s
  ∧ jobHistory s' = jobHistory s.
Proof.
  destruct s as [run key url cid int att del st hist].
  unfold installed_store; cbn -[truthy_num truthy_str].
  destruct (truthy_str cid) eqn:Hc; destruct st; cbn -[truthy_num truthy_str];
    destruct (truthy_num int) eqn:Hp; cbn -[truthy_num truthy_str];
    destruct (truthy_num att) eqn:Hr; cbn -[truthy_num truthy_str];
    destruct (truthy_num del) eqn:Hd; cbn -[truthy_num truthy_str];
    rewrite ?Hp, ?Hr, ?Hd; repeat split; eauto.
Qed.

Lemma installed_store_fixed (uuid : string) (s : Storage) :
  truthy_str (clientId s) = true →
  is_Some (stats s) →
  truthy_num (pollingInterval s) = true →
  truthy_num (retryAttempts s) = true →
  truthy_num (maxRetryDelay s) = true →
  installed_store uuid s = s.
Proof.
  destruct s as [run key url cid int att del st hist].
  unfold installed_store; cbn -[truthy_num truthy_str].
  intros Hc [st' ->] Hp Hr Hd.
  by repeat (first [rewrite Hc|rewrite Hp|rewrite Hr|rewrite Hd];
             cbn -[truthy_num truthy_str]).
Qed.

(** X3.  Installation fills in what is missing and nothing else.  The
    install/update listener returns normally, touches neither the job
    registry nor the backend nor any tab, and leaves storage as follows: a
    stored non-empty client id is kept, otherwise the generated UUID is
    stored; stored stats are kept, otherwise the three zero counters are
    stored; each of the polling interval, the retry attempts and the
    maximal retry delay is kept when it is stored and non-zero and
    replaced by its default (1, 10, 30000) when it is absent or 0; the
    running flag, the API key, the API URL and the history are not
    written. *)
Theorem install_fills_missing_settings (o : Oracle) (w : World) :
  ∃ w' uuid,
    exec o onInstalled w = (Returned tt, w')
    ∧ mem w' = mem w
    ∧ observed (trace w') = observed (trace w)
    ∧ clientId (store w')
      = (if truthy_str (clientId (store w)) then clientId (store w) else Some uuid)
    ∧ stats (store w') = Some (default initialStats (stats (store w)))
    ∧ pollingInterval (store w')
      = (if truthy_num (pollingInterval (store w)) then pollingInterval (store w)
         else Some DEFAULT_POLLING_INTERVAL)
    ∧ retryAttempts (store w')
      = (if truthy_num (retryAttempts (store w)) then retryAttempts (store w)
         else Some DEFAULT_RETRY_ATTEMPTS)
    ∧ maxRetryDelay (store w')
      = (if truthy_num (maxRetryDelay (store w)) then maxRetryDelay (store w)
         else Some DEFAULT_MAX_RETRY_DELAY)
    ∧ isRunning (store w') = isRunning (store w)
    ∧ apiKey (store w') = apiKey (store w)
    ∧ apiUrl (store w') = apiUrl (store w)
    ∧ jobHistory (store w') = jobHistory (store w).
Proof.
  destruct (onInstalled_spec o w) as (w' & uuid & E & Hm & Hs & Ht).
  exists w', uuid. rewrite Hs.
  split; [done|]. split; [done|]. split; [done|].
  apply installed_store_fields.
Qed.

(** X4.  Installation is idempotent.  Once the listener has run and the
    stored client id is non-empty, a later run (an extension update) under
    any environment changes neither storage nor the job registry: no
    setting is reset and no new client id is generated. *)
Theorem reinstall_changes_nothing (o1 o2 : Oracle) (w : World) :
  let w1 := (exec o1 onInstalled w).2 in
  truthy_str (clientId (store w1)) = true →
  store (exec o2 onInstalled w1).2 = store w1
  ∧ mem (exec o2 onInstalled w1).2 = mem w1.
Proof.
  destruct (onInstalled_spec o1 w) as (w1 & uuid1 & -> & Hm1 & Hs1 & _).
  cbn [snd]. intros Hid.
  destruct (onInstalled_spec o2 w1) as (w2 & uuid2 & -> & Hm2 & Hs2 & _).
  cbn [snd]. split; [|done]. rewrite Hs2.
  pose proof (installed_store_present uuid1 (store w)) as (_ & Hst & Hp & Hr & Hd).
  rewrite <- Hs1 in Hst, Hp, Hr, Hd.
  by apply installed_store_fixed.
Qed.

Lemma reinstall_changes_nothing_witness :
  let w1 := (exec friendly onInstalled fresh).2 in
  truthy_str (clientId (store w1)) = true
  ∧ store (exec backend_down onInstalled w1).2 = store w1.
Proof.
  split; [reflexivity|].
  exact (proj1 (reinstall_changes_nothing friendly backend_down fresh eq_refl)).
Defined.

Ltac trace_simpl :=
  cbn [count waited is_tabsGet is_ping is_tabsRemove is_clearTimeout Nat.add].

Ltac trace_simpl_in H :=
  cbn [count waited is_tabsGet is_ping is_tabsRemove is_clearTimeout Nat.add] in H.

(** ** Outcome signals without a sender tab *)

Lemma updateJobInHistory_keeps_tabs (o : Oracle) (w : World) (jobId : string)
    (status : JobStatus) :
  count is_tabsRemove (trace (exec o (updateJobInHistory jobId status) w).2)
  = count is_tabsRemove (trace w).
Proof.
  unfold updateJobInHistory. exec_simpl. by destruct (findIndex _ _); exec_simpl.
Qed.

Lemma handleJobFailure_null_tab (o : Oracle) (w : World) (jobId errorMessage : string) :
  ∃ w' client r,
    exec o (handleJobFailure None jobId errorMessage) w = (Returned tt, w')
    ∧ observed (trace w') = EvAsync (FailJob client jobId errorMessage) r :: observed (trace w)
    ∧ activeJobs (mem w') = activeJobs (mem w)
    ∧ jobTimeouts (mem w') = jobTimeouts (mem w)
    ∧ tabClosureRetries (mem w') = delete jobId (tabClosureRetries (mem w))
    ∧ count is_tabsRemove (trace w') = count is_tabsRemove (trace w)
    ∧ match r with
      | Fulfilled _ =>
          ∃ now now', store w' = record_outcome bump_failed jobId Failed now now' (store w)
      | Rejected _ => store w' = store w
      end.
Proof.
  unfold handleJobFailure. exec_simpl. unit_answers.
  exec_split; exec_simpl.
  - exec_split; exec_simpl; unit_answers;
      (exec_block updateJobInHistory_outcome as (w2 & now' & E2 & Hm2 & Hs2 & Ht2));
      (lazymatch type of E2 with
       | @eq _ (@exec _ _ _ ?w0) _ =>
           pose proof (updateJobInHistory_keeps_tabs o w0 jobId Failed) as Hk2;
           rewrite E2 in Hk2; cbn [snd] in Hk2
       end);
      rewrite E2; exec_facts; exec_cbn_in Hk2; trace_simpl_in Hk2; exec_simpl;
      (eexists _, _, _; split; [reflexivity|]); exec_simpl;
      rewrite ?Ht2, ?Hm2, ?Hs2, ?Hk2; exec_simpl;
      repeat split; try done; by eexists _, _.
  - unit_answers. eexists _, _, _. split; [reflexivity|]. by exec_simpl.
Qed.

(** X5.  An outcome signal whose sender has no tab id (absent, or 0) is
    treated asymmetrically.  [JOB_SUCCESS] is dropped: the listener changes
    nothing at all, makes no report, and the job stays registered.
    [JOB_FAILED] is still reported: exactly one [failJob] call carries the
    job id and the error text of the message, and the retry counter of the
    job is deleted, but no registry entry and no timer is removed, since
    the handler is called with a null tab id. *)
Theorem signal_without_sender_tab (o : Oracle) (w : World) (senderTabId : option Z)
    (jobId error : string) :
  truthy_num senderTabId = false →
  exec o (onMessage (JOB_SUCCESS jobId) senderTabId) w = (Returned tt, w)
  ∧ ∃ w' client r,
      exec o (onMessage (JOB_FAILED jobId error) senderTabId) w = (Returned tt, w')
      ∧ observed (trace w') = EvAsync (FailJob client jobId error) r :: observed (trace w)
      ∧ activeJobs (mem w') = activeJobs (mem w)
      ∧ jobTimeouts (mem w') = jobTimeouts (mem w)
      ∧ tabClosureRetries (mem w') = delete jobId (tabClosureRetries (mem w)).
Proof.
  intros Hnone. cbn [onMessage]. rewrite Hnone. split; [done|].
  destruct (handleJobFailure_null_tab o w jobId error)
    as (w' & client & r & E & Ht & Ha & Hj & Hr & _).
  by exists w', client, r.
Qed.

Lemma signal_without_sender_tab_witness :
  exec friendly (onMessage (JOB_SUCCESS "j1") (Some 0)) (running (sampleJob "j1"))
  = (Returned tt, running (sampleJob "j1")).
Proof.
  exact (proj1 (signal_without_sender_tab friendly (running (sampleJob "j1")) (Some 0)
                  "j1" "boom" eq_refl)).
Defined.

(** ** The two waiting loops of a dispatch *)

Lemma waitForTabLoad_from_bounded (o : Oracle) (tabId : Z) (remaining : nat) :
  ∀ (attempt : Z) (w : World),
    ∃ r w' (n : nat),
      exec o (waitForTabLoad_from tabId attempt remaining) w = (r, w')
      ∧ (n ≤ remaining)%nat
      ∧ count is_tabsGet (trace w') = (count is_tabsGet (trace w) + n)%nat
      ∧ waited (trace w') = waited (trace w) + 500 * Z.of_nat n
      ∧ match r with
        | Returned _ => (1 ≤ n)%nat
        | Threw e =>
            n = remaining ∧ e = Error "Tab loading timed out after 15 seconds"
            ∨ (1 ≤ n)%nat
              ∧ ∃ k c, trace w' = EvAsync (TabsGet c) (Rejected e) :: k
        end.
Proof.
  induction remaining as [|m IH]; intros attempt w; cbn [waitForTabLoad_from].
  - exec_simpl. exists (Threw (Error "Tab loading timed out after 15 seconds")), w, O.
    split; [done|]. split; [done|]. split; [lia|]. split; [lia|]. by left.
  - exec_simpl. exec_split; exec_simpl.
    + exec_split; exec_simpl.
      * unit_answers. eexists _, _, 1%nat. split; [reflexivity|].
        exec_simpl. trace_simpl. repeat split; lia.
      * edestruct IH as (r & w' & n & -> & Hn & Hc & Hw & Hr).
        exec_cbn_in Hc. exec_cbn_in Hw. exec_cbn_in Hr. cbn [count waited is_tabsGet] in Hc, Hw.
        exists r, w', (S n). split; [done|]. split; [lia|].
        split; [lia|]. split; [lia|].
        destruct r as [[]|e]; [lia|].
        destruct Hr as [[-> ->]|[Hn1 Hk]]; [by left|right]. split; [lia|done].
    + eexists _, _, 1%nat. split; [reflexivity|]. exec_simpl. trace_simpl.
      split; [lia|]. split; [lia|]. split; [lia|]. right. split; [lia|]. by eexists _, _.
Qed.

Lemma waitForTabLoad_from_never (o : Oracle) (tabId : Z) (remaining : nat) :
  (∀ n, async o n (TabsGet tabId) = Fulfilled false) →
  ∀ (attempt : Z) (w : World),
    ∃ w',
      exec o (waitForTabLoad_from tabId attempt remaining) w
      = (Threw (Error "Tab loading timed out after 15 seconds"), w')
      ∧ count is_tabsGet (trace w') = (count is_tabsGet (trace w) + remaining)%nat
      ∧ waited (trace w') = waited (trace w) + 500 * Z.of_nat remaining.
Proof.
  intros Hnever.
  induction remaining as [|m IH]; intros attempt w; cbn [waitForTabLoad_from].
  - exec_simpl. exists w. split; [done|]. split; lia.
  - exec_simpl. rewrite Hnever. exec_simpl.
    edestruct IH as (w' & -> & Hc & Hw).
    exec_cbn_in Hc. exec_cbn_in Hw. cbn [count waited is_tabsGet] in Hc, Hw.
    exists w'. split; [done|]. split; lia.
Qed.

(** X6.  Waiting for the tab to load is bounded.  Whatever the browser
    answers, [waitForTabLoad] asks for the tab at most 30 times, sleeps
    500 ms before each question (so at most 15 seconds in all), and
    touches neither the job registry nor storage nor the backend.  It
    returns only after at least one question; it throws either the
    time-out error, after exactly 30 questions, or the rejection of the
    question it asked last. *)
Theorem tab_load_wait_is_bounded (o : Oracle) (w : World) (tabId : Z) :
  ∃ r w' (n : nat),
    exec o (waitForTabLoad tabId) w = (r, w')
    ∧ (n ≤ 30)%nat
    ∧ count is_tabsGet (trace w') = (count is_tabsGet (trace w) + n)%nat
    ∧ waited (trace w') = waited (trace w) + 500 * Z.of_nat n
    ∧ quiet w w'
    ∧ match r with
      | Returned _ => (1 ≤ n)%nat
      | Threw e =>
          n = 30%nat ∧ e = Error "Tab loading timed out after 15 seconds"
          ∨ (1 ≤ n)%nat ∧ ∃ k c, trace w' = EvAsync (TabsGet c) (Rejected e) :: k
      end.
Proof.
  destruct (waitForTabLoad_from_bounded o tabId 30 1 w) as (r & w' & n & E & Hn & Hc & Hw & Hr).
  destruct (waitForTabLoad_quiet o w tabId) as (r' & w'' & E' & Hq).
  unfold waitForTabLoad in *. rewrite E in E'. injection E' as <- <-.
  by exists r, w', n.
Qed.

(** X7.  A tab that never reaches the [complete] status makes
    [waitForTabLoad] throw "Tab loading timed out after 15 seconds", and
    the message is accurate: exactly 30 questions were asked and exactly
    15000 ms were spent sleeping. *)
Theorem tab_load_times_out_after_15_seconds (o : Oracle) (w : World) (tabId : Z) :
  (∀ n, async o n (TabsGet tabId) = Fulfilled false) →
  ∃ w',
    exec o (waitForTabLoad tabId) w
    = (Threw (Error "Tab loading timed out after 15 seconds"), w')
    ∧ count is_tabsGet (trace w') = (count is_tabsGet (trace w) + 30)%nat
    ∧ waited (trace w') = waited (trace w) + 15000.
Proof.
  intros Hnever.
  destruct (waitForTabLoad_from_never o tabId 30 Hnever 1 w) as (w' & E & Hc & Hw).
  exists w'. split; [done|]. split; [done|]. rewrite Hw. lia.
Qed.

Lemma tab_load_times_out_after_15_seconds_witness :
  ∃ w',
    exec never_loads (waitForTabLoad 7) fresh
    = (Threw (Error "Tab loading timed out after 15 seconds"), w')
    ∧ count is_tabsGet (trace w') = (count is_tabsGet (trace fresh) + 30)%nat
    ∧ waited (trace w') = waited (trace fresh) + 15000.
Proof.
  apply (tab_load_times_out_after_15_seconds never_loads fresh 7).
  intros n. reflexivity.
Defined.

Lemma waitForContentScript_from_bounded (o : Oracle) (tabId : Z) (remaining : nat) :
  ∀ (attempt : Z) (w : World),
    ∃ r w' (n : nat),
      exec o (waitForContentScript_from tabId attempt remaining) w = (r, w')
      ∧ (n ≤ remaining)%nat
      ∧ count is_ping (trace w') = (count is_ping (trace w) + n)%nat
      ∧ waited (trace w') = waited (trace w) + 500 * Z.of_nat n
      ∧ match r with
        | Returned _ => (1 ≤ n)%nat
        | Threw e =>
            n = remaining
            ∧ e = Error "Content script did not become ready after 10 seconds"
        end.
Proof.
  induction remaining as [|m IH]; intros attempt w; cbn [waitForContentScript_from].
  - exec_simpl. eexists _, w, O.
    split; [done|]. split; [done|]. split; [lia|]. split; [lia|]. done.
  - exec_simpl. exec_split; exec_simpl.
    + exec_split; exec_simpl.
      * unit_answers. eexists _, _, 1%nat. split; [reflexivity|].
        exec_simpl. trace_simpl. repeat split; lia.
      * edestruct IH as (r & w' & n & -> & Hn & Hc & Hw & Hr).
        exec_cbn_in Hc. exec_cbn_in Hw. cbn [count waited is_ping] in Hc, Hw.
        exists r, w', (S n). split; [done|]. split; [lia|].
        split; [lia|]. split; [lia|].
        destruct r as [[]|e]; [lia|]. destruct Hr as [-> ->]. done.
    + unit_answers.
      edestruct IH as (r & w' & n & -> & Hn & Hc & Hw & Hr).
      exec_cbn_in Hc. exec_cbn_in Hw. cbn [count waited is_ping] in Hc, Hw.
      exists r, w', (S n). split; [done|]. split; [lia|].
      split; [lia|]. split; [lia|].
      destruct r as [[]|err]; [lia|]. destruct Hr as [-> ->]. done.
Qed.

Lemma waitForContentScript_from_never (o : Oracle) (tabId : Z) (remaining : nat) :
  (∀ n, ∃ r, async o n (TabsSendMessage tabId PING) = r
             ∧ match r with
               | Fulfilled response => truthy_bool response = false
               | Rejected _ => True
               end) →
  ∀ (attempt : Z) (w : World),
    ∃ w',
      exec o (waitForContentScript_from tabId attempt remaining) w
      = (Threw (Error "Content script did not become ready after 10 seconds"), w')
      ∧ count is_ping (trace w') = (count is_ping (trace w) + remaining)%nat
      ∧ waited (trace w') = waited (trace w) + 500 * Z.of_nat remaining.
Proof.
  intros Hnever.
  induction remaining as [|m IH]; intros attempt w; cbn [waitForContentScript_from].
  - exec_simpl. exists w. split; [done|]. split; lia.
  - exec_simpl.
    match goal with
    | |- context [async o ?n (TabsSendMessage tabId PING)] =>
        destruct (Hnever n) as (r & -> & Hr)
    end.
    destruct r as [response|err]; exec_simpl.
    + rewrite Hr. exec_simpl.
      edestruct IH as (w' & -> & Hc & Hw).
      exec_cbn_in Hc. exec_cbn_in Hw. cbn [count waited is_ping] in Hc, Hw.
      exists w'. split; [done|]. split; lia.
    + unit_answers.
      edestruct IH as (w' & -> & Hc & Hw).
      exec_cbn_in Hc. exec_cbn_in Hw. cbn [count waited is_ping] in Hc, Hw.
      exists w'. split; [done|]. split; lia.
Qed.

(** X8.  Waiting for the content script swallows every ping failure.
    Whatever the tab answers, [waitForContentScript] pings at most 20
    times, sleeps 500 ms before each ping, and touches neither the job
    registry nor storage nor the backend.  It returns only after at least
    one ping.  A rejected ping is caught and retried like a not-ready
    answer, so the only error the loop can throw is "Content script did
    not become ready after 10 seconds", and it throws it after exactly 20
    pings. *)
Theorem content_script_wait_swallows_ping_failures (o : Oracle) (w : World) (tabId : Z) :
  ∃ r w' (n : nat),
    exec o (waitForContentScript tabId) w = (r, w')
    ∧ (n ≤ 20)%nat
    ∧ count is_ping (trace w') = (count is_ping (trace w) + n)%nat
    ∧ waited (trace w') = waited (trace w) + 500 * Z.of_nat n
    ∧ quiet w w'
    ∧ match r with
      | Returned _ => (1 ≤ n)%nat
      | Threw e =>
          n = 20%nat
          ∧ e = Error "Content script did not become ready after 10 seconds"
      end.
Proof.
  destruct (waitForContentScript_from_bounded o tabId 20 1 w)
    as (r & w' & n & E & Hn & Hc & Hw & Hr).
  destruct (waitForContentScript_quiet o w tabId) as (r' & w'' & E' & Hq).
  unfold waitForContentScript in *. rewrite E in E'. injection E' as <- <-.
  by exists r, w', n.
Qed.

(** X9.  A content script that never becomes ready (every ping is
    rejected, or answered with a falsy or not-ready reply) makes
    [waitForContentScript] throw "Content script did not become ready
    after 10 seconds", and the message is accurate: exactly 20 pings were
    sent and exactly 10000 ms were spent sleeping. *)
Theorem content_script_times_out_after_10_seconds (o : Oracle) (w : World) (tabId : Z) :
  (∀ n, ∃ r, async o n (TabsSendMessage tabId PING) = r
             ∧ match r with
               | Fulfilled response => truthy_bool response = false
               | Rejected _ => True
               end) →
  ∃ w',
    exec o (waitForContentScript tabId) w
    = (Threw (Error "Content script did not become ready after 10 seconds"), w')
    ∧ count is_ping (trace w') = (count is_ping (trace w) + 20)%nat
    ∧ waited (trace w') = waited (trace w) + 10000.
Proof.
  intros Hnever.
  destruct (waitForContentScript_from_never o tabId 20 Hnever 1 w) as (w' & E & Hc & Hw).
  exists w'. split; [done|]. split; [done|]. rewrite Hw. lia.
Qed.

Lemma content_script_times_out_after_10_seconds_witness :
  ∃ w',
    exec never_ready (waitForContentScript 7) fresh
    = (Threw (Error "Content script did not become ready after 10 seconds"), w')
    ∧ count is_ping (trace w') = (count is_ping (trace fresh) + 20)%nat
    ∧ waited (trace w') = waited (trace fresh) + 10000.
Proof.
  apply (content_script_times_out_after_10_seconds never_ready fresh 7).
  intros n. eexists. split; [reflexivity|]. exact I.
Defined.

(** ** A dispatch that fails after its tab was opened *)

Lemma waitForTabLoad_from_keeps_tabs (o : Oracle) (tabId : Z) (remaining : nat) :
  ∀ (attempt : Z) (w : World),
    count is_tabsRemove (trace (exec o (waitForTabLoad_from tabId attempt remaining) w).2)
    = count is_tabsRemove (trace w).
Proof.
  induction remaining as [|m IH]; intros attempt w; cbn [waitForTabLoad_from].
  - by exec_simpl.
  - exec_simpl. exec_split; exec_simpl; [|done].
    exec_split; exec_simpl; [done|]. by rewrite IH.
Qed.

Lemma waitForContentScript_from_keeps_tabs (o : Oracle) (tabId : Z) (remaining : nat) :
  ∀ (attempt : Z) (w : World),
    count is_tabsRemove
      (trace (exec o (waitForContentScript_from tabId attempt remaining) w).2)
    = count is_tabsRemove (trace w).
Proof.
  induction remaining as [|m IH]; intros attempt w; cbn [waitForContentScript_from].
  - by exec_simpl.
  - exec_simpl. exec_split; exec_simpl; [|by rewrite IH].
    exec_split; exec_simpl; [done|]. by rewrite IH.
Qed.

Lemma addJobToHistory_keeps_tabs (o : Oracle) (w : World) (job : Job) (status : JobStatus) :
  count is_tabsRemove (trace (exec o (addJobToHistory job status) w).2)
  = count is_tabsRemove (trace w).
Proof. unfold addJobToHistory. by exec_simpl. Qed.

Ltac registered_done :=
  eexists _, _, _; split; [reflexivity|]; exec_simpl; trace_simpl;
  repeat match goal with
  | H : count is_tabsRemove _ = _ |- _ => rewrite H; clear H
  | H : mem _ = _ |- _ => rewrite H; clear H
  | H : observed _ = _ |- _ => rewrite H; clear H
  end;
  exec_simpl;
  split; [reflexivity|]; split; [reflexivity|];
  cbv beta iota;
  repeat match goal with
  | H : truthy_num _ = _ |- _ => rewrite H; clear H
  end;
  first [done | by eexists].

(** What the [try] block of [processJob] leaves in the module-level Maps:
    once the tab exists, the job and its timer are registered under the tab
    id, whether or not the block goes on to throw; and the block closes no
    tab. *)
Lemma processJob_try_registered (o : Oracle) (w : World) (job : Job) :
  ∃ r w' rc,
    exec o (processJob_try job) w = (r, w')
    ∧ observed (trace w')
      = EvAsync (TabsCreate (deviationUrl (deviation job))) rc :: observed (trace w)
    ∧ count is_tabsRemove (trace w') = count is_tabsRemove (trace w)
    ∧ match rc with
      | Fulfilled tab =>
          if truthy_num (tab_id tab) then
            ∃ timeoutId,
              mem w' = set_jobTimeouts <[default 0 (tab_id tab) := timeoutId]>
                         (set_activeJobs <[default 0 (tab_id tab) := job]> (mem w))
          else mem w' = mem w ∧ r = Threw (Error "Failed to create tab")
      | Rejected e => mem w' = mem w ∧ r = Threw e
      end.
Proof.
  unfold processJob_try. exec_simpl.
  exec_block addJobToHistory_dispatched as (w1 & now & E1 & Hm1 & Hs1 & Ht1).
  lazymatch type of E1 with
  | @eq _ (@exec _ _ _ ?w0) _ =>
      pose proof (addJobToHistory_keeps_tabs o w0 job Processing) as Hk1;
      rewrite E1 in Hk1; cbn [snd] in Hk1
  | ?T => idtac T; fail
  end.
  rewrite E1. exec_facts. exec_cbn_in Hk1. exec_simpl. unit_answers.
  exec_split; exec_simpl.
  - destruct (truthy_num (tab_id x)) eqn:Hid; exec_simpl.
    + unit_answers. exec_focus.
      match goal with
      | |- context [exec o (waitForTabLoad ?t) ?w0] =>
          pose proof (waitForTabLoad_from_keeps_tabs o t 30 1 w0) as Hk2;
          fold (waitForTabLoad t) in Hk2
      end.
      exec_block waitForTabLoad_quiet as (r2 & w2 & E2 & Hm2 & Hs2 & Ht2).
      rewrite E2 in *. cbn [snd] in Hk2. exec_facts. exec_cbn_in Hk2. trace_simpl_in Hk2.
      destruct r2 as [[]|e2]; exec_simpl.
      * exec_focus.
        match goal with
        | |- context [exec o (waitForContentScript ?t) ?w0] =>
            pose proof (waitForContentScript_from_keeps_tabs o t 20 1 w0) as Hk3;
            fold (waitForContentScript t) in Hk3
        end.
        exec_block waitForContentScript_quiet as (r3 & w3 & E3 & Hm3 & Hs3 & Ht3).
        rewrite E3 in *. cbn [snd] in Hk3. exec_facts. exec_cbn_in Hk3. trace_simpl_in Hk3.
        destruct r3 as [[]|e3]; exec_simpl.
        -- unit_answers. exec_split; exec_simpl.
           ++ exec_split; exec_simpl; unit_answers; registered_done.
           ++ registered_done.
        -- registered_done.
      * registered_done.
    + registered_done.
  - registered_done.
Qed.

Lemma handleJobTimeout_present (o : Oracle) (w : World) (tabId : Z) (job : Job) :
  activeJobs (mem w) !! tabId = Some job →
  ∃ w1,
    exec o (handleJobTimeout tabId) w
    = exec o (handleJobFailure (Some tabId) (job_id job)
                "Job processing timed out after 2 minutes") w1
    ∧ mem w1 = mem w ∧ store w1 = store w
    ∧ observed (trace w1) = observed (trace w).
Proof.
  intros Hjob. unfold handleJobTimeout. exec_simpl. rewrite Hjob. exec_simpl.
  unit_answers. by eexists.
Qed.

(** X10.  A dispatch that fails is reported without a tab id.  When the
    [try] block of [processJob] throws, the [catch] block makes exactly one
    [failJob] report carrying the message of the error, and closes no tab.
    If the tab had been opened by then, the job stays registered under the
    tab id with its two-minute timer armed, because the report is made
    with a null tab id; so when that timer fires, [handleJobTimeout] finds
    the entry and reports the same job failed a second time, and if both
    reports are fulfilled the job is counted twice in [processed] and
    [failed].  If no tab was opened, nothing is registered. *)
Theorem failed_dispatch_is_reported_again_on_timeout (o o' : Oracle) (w : World)
    (job : Job) (e : Thrown) :
  (exec o (processJob_try job) w).1 = Threw e →
  ∃ w' client r rc,
    exec o (processJob job) w = (Returned tt, w')
    ∧ observed (trace w')
      = EvAsync (FailJob client (job_id job) (error_message e)) r
        :: EvAsync (TabsCreate (deviationUrl (deviation job))) rc
        :: observed (trace w)
    ∧ count is_tabsRemove (trace w') = count is_tabsRemove (trace w)
    ∧ if match rc with Fulfilled tab => truthy_num (tab_id tab) | Rejected _ => false end
      then
        ∃ t w'' client' r',
          rc = Fulfilled {| tab_id := Some t |}
          ∧ activeJobs (mem w') !! t = Some job
          ∧ is_Some (jobTimeouts (mem w') !! t)
          ∧ exec o' (handleJobTimeout t) w' = (Returned tt, w'')
          ∧ observed (trace w'')
            = EvAsync (FailJob client' (job_id job)
                         "Job processing timed out after 2 minutes") r'
              :: observed (trace w')
          ∧ match r, r' with
            | Fulfilled _, Fulfilled _ =>
                counters (store w'')
                = ((counters (store w)).1.1 + 2, (counters (store w)).1.2,
                   (counters (store w)).2 + 2)
            | _, _ => True
            end
      else
        activeJobs (mem w') = activeJobs (mem w)
        ∧ jobTimeouts (mem w') = jobTimeouts (mem w).
Proof.
  intros Hthrew. unfold processJob. rewrite exec_catch.
  destruct (processJob_try_registered o w job) as (r1 & w1 & rc & E & Hobs & Hk & Hmem).
  destruct (processJob_try_spec o w job) as (r1' & w1' & now & rc' & E' & _ & Hs & _).
  rewrite E in E'. injection E' as <- <-.
  rewrite E in Hthrew. cbn [fst] in Hthrew. subst r1. rewrite E.
  unfold processJob_catch. exec_simpl. unit_answers.
  exec_block handleJobFailure_null_tab as (w2 & client & r & E2 & Ht2 & Ha2 & Hj2 & Hr2 & Hk2 & Hs2).
  rewrite E2. exec_facts. trace_simpl_in Hk2.
  exists w2, client, r, rc. split; [done|]. rewrite Ht2, Hobs, Hk2, Hk.
  split; [done|]. split; [done|].
  destruct rc as [[tid]|err]; cbn [tab_id] in *.
  - destruct (truthy_num tid) eqn:Hid.
    + destruct (truthy_num_Some _ Hid) as (t & Hnz & ->). cbn [default] in Hmem.
      destruct Hmem as (timeoutId & Hmem).
      assert (activeJobs (mem w2) !! t = Some job) as Hjob.
      { rewrite Ha2, Hmem. cbn [set_jobTimeouts set_activeJobs activeJobs].
        apply lookup_insert_eq. }
      destruct (handleJobTimeout_present o' w2 t job Hjob) as (w3 & E3 & Hm3 & Hs3 & Ht3).
      destruct (handleJobFailure_spec o' w3 (Some t) (job_id job)
                  "Job processing timed out after 2 minutes")
        as (w4 & client' & r' & E4 & Ht4 & _ & _ & Hs4).
      exists t, w4, client', r'. split; [done|]. split; [done|].
      split.
      { rewrite Hj2, Hmem. cbn [set_jobTimeouts set_activeJobs jobTimeouts].
        rewrite lookup_insert_eq. by eexists. }
      split; [by rewrite E3|]. split; [by rewrite Ht4, Ht3, Ht2, Hobs|].
      destruct r as [?|?]; [|done]. destruct r' as [?|?]; [|done].
      destruct Hs2 as (n1 & n2 & Hs2). destruct Hs4 as (n3 & n4 & Hs4).
      rewrite Hs4, Hs3, Hs2, Hs.
      rewrite !counters_record_failed, counters_dispatched_store. cbn [fst snd].
      f_equal; [f_equal|]; lia.
    + destruct Hmem as [Hmem _]. by rewrite Ha2, Hj2, Hmem.
  - destruct Hmem as [Hmem _]. by rewrite Ha2, Hj2, Hmem.
Qed.

Lemma failed_dispatch_is_reported_again_on_timeout_witness :
  (exec never_loads (processJob_try (sampleJob "j1")) fresh).1
  = Threw (Error "Tab loading timed out after 15 seconds")
  ∧ ∃ w' client r rc,
      exec never_loads (processJob (sampleJob "j1")) fresh = (Returned tt, w')
      ∧ observed (trace w')
        = EvAsync (FailJob client "j1" "Tab loading timed out after 15 seconds") r
          :: EvAsync (TabsCreate (deviationUrl (deviation (sampleJob "j1")))) rc
          :: observed (trace fresh).
Proof.
  assert ((exec never_loads (processJob_try (sampleJob "j1")) fresh).1
          = Threw (Error "Tab loading timed out after 15 seconds")) as Hthrew
    by (vm_compute; reflexivity).
  split; [exact Hthrew|].
  destruct (failed_dispatch_is_reported_again_on_timeout never_loads friendly fresh
              (sampleJob "j1") _ Hthrew) as (w' & client & r & rc & E & Hobs & _).
  exists w', client, r, rc. split; [exact E|exact Hobs].
Defined.

(** ** What the finalize handlers clean up *)

Lemma clearJobTimeout_exact (o : Oracle) (w : World) (tabId : Z) :
  exec o (clearJobTimeout tabId) w
  = (Returned tt,
     if truthy_num (jobTimeouts (mem w) !! tabId) then
       {| mem := set_jobTimeouts (delete tabId) (mem w);
          store := store w;
          trace := EvSync (ClearTimeout (default 0 (jobTimeouts (mem w) !! tabId))) tt
                   :: trace w |}
     else w).
Proof.
  unfold clearJobTimeout. exec_simpl.
  destruct (jobTimeouts (mem w) !! tabId) as [timeoutId|]; cbn [truthy_num default]; [|done].
  destruct (truthy timeoutId); exec_simpl; [|done]. by unit_answers.
Qed.

Lemma updateJobInHistory_count (f : Event → bool) (o : Oracle) (w : World)
    (jobId : string) (status : JobStatus) :
  (∀ x, f (EvSync DateNow x) = false) →
  count f (trace (exec o (updateJobInHistory jobId status) w).2) = count f (trace w).
Proof.
  intros Hf. unfold updateJobInHistory. exec_simpl.
  destruct (findIndex _ _); exec_simpl; [|done]. cbn [count]. by rewrite Hf.
Qed.

Ltac history_counts E :=
  lazymatch type of E with
  | @eq _ (@exec _ ?o (updateJobInHistory ?jobId ?status) ?w0) _ =>
      let Hk := fresh "Hk" in
      let Hc := fresh "Hc" in
      pose proof (updateJobInHistory_count is_tabsRemove o w0 jobId status
                    (λ _, eq_refl)) as Hk;
      pose proof (updateJobInHistory_count is_clearTimeout o w0 jobId status
                    (λ _, eq_refl)) as Hc;
      rewrite E in Hk, Hc; cbn [snd] in Hk, Hc;
      exec_cbn_in Hk; exec_cbn_in Hc; trace_simpl_in Hk; trace_simpl_in Hc
  end.

Lemma handleJobFailure_cleanup (o : Oracle) (w : World) (tabId : Z)
    (jobId errorMessage : string) :
  ∃ w' client r,
    exec o (handleJobFailure (Some tabId) jobId errorMessage) w = (Returned tt, w')
    ∧ observed (trace w') = EvAsync (FailJob client jobId errorMessage) r :: observed (trace w)
    ∧ activeJobs (mem w') = delete tabId (activeJobs (mem w))
    ∧ tabClosureRetries (mem w') = delete jobId (tabClosureRetries (mem w))
    ∧ jobTimeouts (mem w') = timers_after (mem w) tabId
    ∧ count is_clearTimeout (trace w')
      = (count is_clearTimeout (trace w) + timer_cleared (mem w) tabId)%nat
    ∧ count is_tabsRemove (trace w')
      = (count is_tabsRemove (trace w)
         + match r with Fulfilled _ => 1 | Rejected _ => 0 end)%nat.
Proof.
  unfold handleJobFailure, timers_after, timer_cleared. exec_simpl. unit_answers.
  exec_focus. rewrite clearJobTimeout_exact. exec_simpl.
  destruct (truthy_num (jobTimeouts (mem w) !! tabId)); exec_simpl; unit_answers.
  all: exec_split; exec_simpl;
    [ exec_split; exec_simpl; unit_answers;
      (exec_block updateJobInHistory_outcome as (w2 & now' & E2 & Hm2 & Hs2 & Ht2));
      history_counts E2; rewrite E2; exec_facts; exec_simpl;
      exec_split; exec_simpl; unit_answers;
      (eexists _, _, _; split; [reflexivity|]); exec_simpl; trace_simpl;
      rewrite ?Ht2, ?Hm2, ?Hk, ?Hc; exec_simpl; trace_simpl;
      rewrite ?delete_delete_eq; repeat split; try done; try lia
    | unit_answers; eexists _, _, _; (split; [reflexivity|]); exec_simpl; trace_simpl;
      repeat split; try done; try lia ].
Qed.

Lemma handleJobSuccess_cleanup (o : Oracle) (w : World) (tabId : Z) (jobId : string) :
  ∃ w' client r,
    exec o (handleJobSuccess tabId jobId) w = (Returned tt, w')
    ∧ observed (trace w') = EvAsync (CompleteJob client jobId) r :: observed (trace w)
    ∧ jobTimeouts (mem w') = timers_after (mem w) tabId
    ∧ count is_clearTimeout (trace w')
      = (count is_clearTimeout (trace w) + timer_cleared (mem w) tabId)%nat
    ∧ match r with
      | Fulfilled _ =>
          activeJobs (mem w') = delete tabId (activeJobs (mem w))
          ∧ tabClosureRetries (mem w') = delete jobId (tabClosureRetries (mem w))
          ∧ count is_tabsRemove (trace w') = (count is_tabsRemove (trace w) + 1)%nat
      | Rejected _ =>
          activeJobs (mem w') = activeJobs (mem w)
          ∧ tabClosureRetries (mem w') = tabClosureRetries (mem w)
          ∧ count is_tabsRemove (trace w') = count is_tabsRemove (trace w)
          ∧ store w' = store w
      end.
Proof.
  unfold handleJobSuccess, timers_after, timer_cleared. exec_simpl.
  exec_focus. rewrite clearJobTimeout_exact. exec_simpl.
  destruct (truthy_num (jobTimeouts (mem w) !! tabId)); exec_simpl; unit_answers.
  all: exec_split; exec_simpl; unit_answers;
    [ (exec_block updateJobInHistory_outcome as (w2 & now' & E2 & Hm2 & Hs2 & Ht2));
      history_counts E2; rewrite E2; exec_facts; exec_simpl;
      exec_split; exec_simpl; unit_answers;
      (eexists _, _, _; split; [reflexivity|]); exec_simpl; trace_simpl;
      rewrite ?Ht2, ?Hm2, ?Hk, ?Hc; exec_simpl; trace_simpl;
      repeat split; try done; try lia
    | eexists _, _, _; (split; [reflexivity|]); exec_simpl; trace_simpl;
      repeat split; try done; try lia ].
Qed.

(** X11.  A failure is cleaned up whatever the backend answers.
    [handleJobFailure] with a tab id removes the registry entry of the tab
    and the retry counter of the job before it reports, so both are gone
    whether the [failJob] call is fulfilled or rejected; the timer of the
    tab is cleared with one [clearTimeout] call and forgotten exactly when
    a non-zero timer id is stored for it; and the tab is closed (one
    [tabs.remove] call) exactly when the report was fulfilled, so a
    rejected report leaves the tab open with nothing registered for
    it. *)
Theorem failure_cleanup_is_unconditional (o : Oracle) (w : World) (tabId : Z)
    (jobId errorMessage : string) :
  ∃ w' client r,
    exec o (handleJobFailure (Some tabId) jobId errorMessage) w = (Returned tt, w')
    ∧ observed (trace w') = EvAsync (FailJob client jobId errorMessage) r :: observed (trace w)
    ∧ activeJobs (mem w') = delete tabId (activeJobs (mem w))
    ∧ tabClosureRetries (mem w') = delete jobId (tabClosureRetries (mem w))
    ∧ jobTimeouts (mem w') = timers_after (mem w) tabId
    ∧ count is_clearTimeout (trace w')
      = (count is_clearTimeout (trace w) + timer_cleared (mem w) tabId)%nat
    ∧ count is_tabsRemove (trace w')
      = (count is_tabsRemove (trace w)
         + match r with Fulfilled _ => 1 | Rejected _ => 0 end)%nat.
Proof. apply handleJobFailure_cleanup. Qed.

(** X12.  A success is cleaned up only after the backend acknowledged it.
    [handleJobSuccess] clears the timer of the tab first (one
    [clearTimeout] call exactly when a non-zero timer id is stored), so the
    timer is gone in either case.  When the [completeJob] call is fulfilled
    the registry entry and the retry counter are removed and the tab is
    closed with one [tabs.remove] call.  When it is rejected the entry and
    the retry counter stay, storage is not written and the tab is not
    closed: the job stays registered in an open tab with no timer left to
    time it out. *)
Theorem success_cleanup_waits_for_the_report (o : Oracle) (w : World) (tabId : Z)
    (jobId : string) :
  ∃ w' client r,
    exec o (handleJobSuccess tabId jobId) w = (Returned tt, w')
    ∧ observed (trace w') = EvAsync (CompleteJob client jobId) r :: observed (trace w)
    ∧ jobTimeouts (mem w') = timers_after (mem w) tabId
    ∧ count is_clearTimeout (trace w')
      = (count is_clearTimeout (trace w) + timer_cleared (mem w) tabId)%nat
    ∧ match r with
      | Fulfilled _ =>
          activeJobs (mem w') = delete tabId (activeJobs (mem w))
          ∧ tabClosureRetries (mem w') = delete jobId (tabClosureRetries (mem w))
          ∧ count is_tabsRemove (trace w') = (count is_tabsRemove (trace w) + 1)%nat
      | Rejected _ =>
          activeJobs (mem w') = activeJobs (mem w)
          ∧ tabClosureRetries (mem w') = tabClosureRetries (mem w)
          ∧ count is_tabsRemove (trace w') = count is_tabsRemove (trace w)
          ∧ store w' = store w
      end.
Proof. apply handleJobSuccess_cleanup. Qed.

(** ** The history bound under every interleaving *)

Ltac cap_side :=
  unfold history_cap in *;
  cbn [jobHistory set_jobHistory set_stats set_clientId set_pollingInterval
       set_retryAttempts set_maxRetryDelay default from_option id];
  rewrite ?length_take, ?length_alter;
  first [assumption | lia].

Ltac cap_step :=
  first
  [ progress cbn [bind catch Preserves]
  | lazymatch goal with
    | |- True => exact I
    | |- history_cap _ => cap_side
    | |- _ ∧ _ => split
    | |- ∀ _, _ => intros ?
    | |- Preserves _ ?p =>
        let h := head_of p in
        lazymatch h with
        | match ?x with _ => _ end => destruct x
        | _ =>
            first
            [ solve [auto with history_cap]
            | apply Preserves_bind
            | apply Preserves_catch ]
        end
    end ].

Ltac cap_preserves :=
  unfold mbind, mret, Prog_bind, Prog_ret, act, await, delay,
    mem_read, mem_write, storage_get, storage_set;
  repeat cap_step.

Create HintDb history_cap.

Lemma addJobToHistory_cap job status : Preserves history_cap (addJobToHistory job status).
Proof. unfold addJobToHistory. cap_preserves. Qed.

Lemma updateJobInHistory_cap jobId status :
  Preserves history_cap (updateJobInHistory jobId status).
Proof. unfold updateJobInHistory. cap_preserves. Qed.

Lemma clearJobTimeout_cap tabId : Preserves history_cap (clearJobTimeout tabId).
Proof. unfold clearJobTimeout. cap_preserves. Qed.

Lemma fromStorage_cap : Preserves history_cap fromStorage.
Proof. unfold fromStorage. cap_preserves. Qed.

#[local] Hint Resolve addJobToHistory_cap updateJobInHistory_cap
  clearJobTimeout_cap fromStorage_cap : history_cap.

Lemma handleJobSuccess_cap tabId jobId :
  Preserves history_cap (handleJobSuccess tabId jobId).
Proof. unfold handleJobSuccess. cap_preserves. Qed.

Lemma handleJobFailure_cap tabId jobId errorMessage :
  Preserves history_cap (handleJobFailure tabId jobId errorMessage).
Proof. unfold handleJobFailure. cap_preserves. Qed.

#[local] Hint Resolve handleJobSuccess_cap handleJobFailure_cap : history_cap.

Lemma handleJobTimeout_cap tabId : Preserves history_cap (handleJobTimeout tabId).
Proof. unfold handleJobTimeout. cap_preserves. Qed.

Lemma waitForTabLoad_from_cap tabId remaining :
  ∀ attempt, Preserves history_cap (waitForTabLoad_from tabId attempt remaining).
Proof.
  induction remaining as [|n IH]; intros attempt; cbn [waitForTabLoad_from];
    by cap_preserves.
Qed.

Lemma waitForContentScript_from_cap tabId remaining :
  ∀ attempt, Preserves history_cap (waitForContentScript_from tabId attempt remaining).
Proof.
  induction remaining as [|n IH]; intros attempt; cbn [waitForContentScript_from];
    by cap_preserves.
Qed.

Lemma waitForTabLoad_cap tabId : Preserves history_cap (waitForTabLoad tabId).
Proof. apply waitForTabLoad_from_cap. Qed.

Lemma waitForContentScript_cap tabId : Preserves history_cap (waitForContentScript tabId).
Proof. apply waitForContentScript_from_cap. Qed.

#[local] Hint Resolve waitForTabLoad_cap waitForContentScript_cap : history_cap.

Lemma processJob_cap job : Preserves history_cap (processJob job).
Proof. unfold processJob, processJob_try, processJob_catch. cap_preserves. Qed.

#[local] Hint Resolve processJob_cap : history_cap.

Lemma entry_cap (p : Prog unit) : entry p → Preserves history_cap p.
Proof.
  destruct 1.
  - unfold onInstalled. cap_preserves.
  - unfold pollForJob. cap_preserves.
  - unfold onMessage. cap_preserves.
  - apply handleJobTimeout_cap.
  - unfold onTabRemoved. cap_preserves.
Qed.

Lemma step_config_cap (c c' : Config) : step c c' → config_cap c → config_cap c'.
Proof.
  unfold config_cap. destruct 1 as [m s ts p Hentry|m s ts1 p ts2 m' s' p' Hstep|m s ts];
    cbn [c_store pool]; intros [Hs Hpool].
  - split; [done|]. constructor; [by apply entry_cap|done].
  - apply Forall_app in Hpool as [H1 Hpool].
    apply Forall_cons in Hpool as [Hp H2].
    destruct (Preserves_task_step history_cap m s p m' s' p' Hstep Hp Hs) as [Hs' Hp'].
    split; [done|]. apply Forall_app. split; [done|].
    apply Forall_app. by split.
  - split; [|done]. unfold history_cap. cbn. lia.
Qed.

Lemma reachable_config_cap (c0 c : Config) :
  rtc step c0 c → config_cap c0 → config_cap c.
Proof.
  induction 1 as [c|c1 c2 c3 Hstep _ IH]; [done|].
  intros Hok. apply IH. by eapply step_config_cap.
Qed.

(** X13.  The history bound holds under every interleaving.  From a
    configuration with nothing in flight whose stored history has at most
    50 records, every configuration the event loop can reach (handlers
    started at any time and interleaved at every suspension point, any
    answers of the environment, the console page clearing the history at
    any moment) stores at most 50 history records, and every value a
    pending handler will still write has at most 50 as well. *)
Theorem history_capacity_under_interleaving (c0 c : Config) :
  pool c0 = [] →
  (length (default [] (jobHistory (c_store c0))) ≤ 50)%nat →
  rtc step c0 c →
  (length (default [] (jobHistory (c_store c))) ≤ 50)%nat
  ∧ Forall (Preserves history_cap) (pool c).
Proof.
  intros Hpool Hcap Hreach.
  assert (config_cap c0) as Hok0 by (split; [done|by rewrite Hpool]).
  exact (reachable_config_cap c0 c Hreach Hok0).
Qed.

Lemma history_capacity_under_interleaving_witness :
  (length (default [] (jobHistory
     (c_store {| c_mem := emptyMem; c_store := emptyStorage;
                 pool := [pollForJob] |}))) ≤ 50)%nat.
Proof.
  refine (proj1 (history_capacity_under_interleaving fresh_config _ eq_refl _ _)).
  - cbn. lia.
  - apply rtc_once.
    exact (step_start emptyMem emptyStorage [] pollForJob entry_alarm).
Defined.

(** ** The current-job indicator *)

Lemma current_of_dispatched_store (job : Job) (now : Z) (s : Storage) :
  current_of (dispatched_store job now s)
  = Some {| cj_id := job_id job; cj_title := title (deviation job) |}
  ∧ lastProcessedAt_of (dispatched_store job now s)
    = lastProcessedAt (default initialStats (stats s)).
Proof. done. Qed.

Lemma current_of_record_outcome (bump : Z → Stats → Stats) (jobId : string)
    (status : JobStatus) (now now' : Z) (s : Storage) :
  (∀ st, currentJob (bump now st) = None ∧ lastProcessedAt (bump now st) = Some now) →
  current_of (record_outcome bump jobId status now now' s) = None
  ∧ lastProcessedAt_of (record_outcome bump jobId status now now' s) = Some now.
Proof.
  intros Hbump. unfold current_of, lastProcessedAt_of, record_outcome.
  rewrite stats_update_history. cbn [set_stats stats mbind option_bind].
  apply Hbump.
Qed.

(** X14.  The current-job indicator follows dispatch and report.  A
    dispatch stores the id and title of the job as [stats.currentJob] and
    leaves [lastProcessedAt] alone.  Every fulfilled report, of a success
    or of a failure and for whatever job id, deletes [currentJob] and
    stamps [lastProcessedAt]; a rejected report writes nothing, so the
    indicator keeps showing the job.  In particular a dispatch whose [try]
    block throws clears the indicator again only if its [failJob] report
    is fulfilled. *)
Theorem current_job_indicator (o : Oracle) (w : World) :
  (∀ job, ∃ w' rc,
     exec o (processJob job) w = (Returned tt, w')
     ∧ match (exec o (processJob_try job) w).1 with
       | Returned _ =>
           current_of (store w')
           = Some {| cj_id := job_id job; cj_title := title (deviation job) |}
           ∧ lastProcessedAt_of (store w')
             = lastProcessedAt (default initialStats (stats (store w)))
       | Threw e =>
           ∃ client r,
             observed (trace w')
             = EvAsync (FailJob client (job_id job) (error_message e)) r
               :: EvAsync (TabsCreate (deviationUrl (deviation job))) rc
               :: observed (trace w)
             ∧ current_of (store w')
               = match r with
                 | Fulfilled _ => None
                 | Rejected _ =>
                     Some {| cj_id := job_id job; cj_title := title (deviation job) |}
                 end
       end)
  ∧ (∀ tabId jobId, ∃ w' client r,
       exec o (handleJobSuccess tabId jobId) w = (Returned tt, w')
       ∧ observed (trace w') = EvAsync (CompleteJob client jobId) r :: observed (trace w)
       ∧ match r with
         | Fulfilled _ =>
             current_of (store w') = None ∧ is_Some (lastProcessedAt_of (store w'))
         | Rejected _ => store w' = store w
         end)
  ∧ (∀ tabId jobId errorMessage, ∃ w' client r,
       exec o (handleJobFailure tabId jobId errorMessage) w = (Returned tt, w')
       ∧ observed (trace w')
         = EvAsync (FailJob client jobId errorMessage) r :: observed (trace w)
       ∧ match r with
         | Fulfilled _ =>
             current_of (store w') = None ∧ is_Some (lastProcessedAt_of (store w'))
         | Rejected _ => store w' = store w
         end).
Proof.
  split; [|split].
  - intros job.
    destruct (processJob_spec o w job) as (w' & now & rc & E & Hcases).
    exists w', rc. split; [done|].
    destruct (exec o (processJob_try job) w).1 as [[]|e].
    + destruct Hcases as (_ & -> & _). apply current_of_dispatched_store.
    + destruct Hcases as (client & r & Ht & _ & Hs). exists client, r.
      split; [done|]. destruct r as [?|?].
      * destruct Hs as (now1 & now2 & ->). by apply current_of_record_outcome.
      * rewrite Hs. apply current_of_dispatched_store.
  - intros tabId jobId.
    destruct (handleJobSuccess_spec o w tabId jobId) as (w' & client & r & E & Ht & Hr).
    exists w', client, r. split; [done|]. split; [done|]. destruct r as [?|?].
    + destruct Hr as (_ & _ & now & now' & ->).
      destruct (current_of_record_outcome bump_succeeded jobId Completed now now' (store w))
        as [-> ->]; by eauto.
    + apply Hr.
  - intros tabId jobId errorMessage.
    destruct (handleJobFailure_spec o w tabId jobId errorMessage)
      as (w' & client & r & E & Ht & _ & _ & Hr).
    exists w', client, r. split; [done|]. split; [done|]. destruct r as [?|?].
    + destruct Hr as (now & now' & ->).
      destruct (current_of_record_outcome bump_failed jobId Failed now now' (store w))
        as [-> ->]; by eauto.
    + apply Hr.
Qed.

(** ** The job handlers write no setting *)

Ltac settings_side :=
  unfold keeps_settings, settings_of in *;
  cbn [isRunning apiKey apiUrl clientId pollingInterval retryAttempts maxRetryDelay
       set_stats set_jobHistory];
  assumption.

Ltac settings_step :=
  first
  [ progress cbn [bind catch Preserves]
  | lazymatch goal with
    | |- True => exact I
    | |- keeps_settings _ _ => settings_side
    | |- _ ∧ _ => split
    | |- ∀ _, _ => intros ?
    | |- Preserves _ ?p =>
        let h := head_of p in
        lazymatch h with
        | match ?x with _ => _ end => destruct x
        | _ =>
            first
            [ solve [auto with settings]
            | apply Preserves_bind
            | apply Preserves_catch ]
        end
    end ].

Ltac settings_preserves :=
  unfold mbind, mret, Prog_bind, Prog_ret, act, await, delay,
    mem_read, mem_write, storage_get, storage_set;
  repeat settings_step.

Create HintDb settings.

Section settings.
Context (x : Settings).

Lemma addJobToHistory_settings job status : Preserves (keeps_settings x) (addJobToHistory job status).
Proof. unfold addJobToHistory. settings_preserves. Qed.

Lemma updateJobInHistory_settings jobId status :
  Preserves (keeps_settings x) (updateJobInHistory jobId status).
Proof. unfold updateJobInHistory. settings_preserves. Qed.

Lemma clearJobTimeout_settings tabId : Preserves (keeps_settings x) (clearJobTimeout tabId).
Proof. unfold clearJobTimeout. settings_preserves. Qed.

Lemma fromStorage_settings : Preserves (keeps_settings x) fromStorage.
Proof. unfold fromStorage. settings_preserves. Qed.

Hint Resolve addJobToHistory_settings updateJobInHistory_settings
  clearJobTimeout_settings fromStorage_settings : settings.

Lemma handleJobSuccess_settings tabId jobId :
  Preserves (keeps_settings x) (handleJobSuccess tabId jobId).
Proof. unfold handleJobSuccess. settings_preserves. Qed.

Lemma handleJobFailure_settings tabId jobId errorMessage :
  Preserves (keeps_settings x) (handleJobFailure tabId jobId errorMessage).
Proof. unfold handleJobFailure. settings_preserves. Qed.

Hint Resolve handleJobSuccess_settings handleJobFailure_settings : settings.

Lemma handleJobTimeout_settings tabId : Preserves (keeps_settings x) (handleJobTimeout tabId).
Proof. unfold handleJobTimeout. settings_preserves. Qed.

Lemma waitForTabLoad_from_settings tabId remaining :
  ∀ attempt, Preserves (keeps_settings x) (waitForTabLoad_from tabId attempt remaining).
Proof.
  induction remaining as [|n IH]; intros attempt; cbn [waitForTabLoad_from];
    by settings_preserves.
Qed.

Lemma waitForContentScript_from_settings tabId remaining :
  ∀ attempt, Preserves (keeps_settings x) (waitForContentScript_from tabId attempt remaining).
Proof.
  induction remaining as [|n IH]; intros attempt; cbn [waitForContentScript_from];
    by settings_preserves.
Qed.

Lemma waitForTabLoad_settings tabId : Preserves (keeps_settings x) (waitForTabLoad tabId).
Proof. apply waitForTabLoad_from_settings. Qed.

Lemma waitForContentScript_settings tabId : Preserves (keeps_settings x) (waitForContentScript tabId).
Proof. apply waitForContentScript_from_settings. Qed.

Hint Resolve waitForTabLoad_settings waitForContentScript_settings : settings.

Lemma processJob_settings job : Preserves (keeps_settings x) (processJob job).
Proof. unfold processJob, processJob_try, processJob_catch. settings_preserves. Qed.

Hint Resolve processJob_settings : settings.

Lemma pollForJob_settings : Preserves (keeps_settings x) pollForJob.
Proof. unfold pollForJob. settings_preserves. Qed.

Lemma onMessage_settings message senderTabId :
  Preserves (keeps_settings x) (onMessage message senderTabId).
Proof. unfold onMessage. settings_preserves. Qed.

Lemma onTabRemoved_settings tabId : Preserves (keeps_settings x) (onTabRemoved tabId).
Proof. unfold onTabRemoved. settings_preserves. Qed.
End settings.

Lemma keeps_settings_exec {A} (o : Oracle) (p : Prog A) (w : World) :
  (∀ x, Preserves (keeps_settings x) p) →
  settings_of (store (exec o p w).2) = settings_of (store w).
Proof.
  intros Hp.
  exact (Preserves_exec (keeps_settings (settings_of (store w))) o p (Hp _) w eq_refl).
Qed.

(** X15.  The job handlers write no setting.  The poll tick, the two
    outcome signals, the timeout handler and the tab-removal listener,
    run under any environment from any state, leave the running flag, the
    API key and URL, the client id, the polling interval and the two retry
    settings exactly as stored: the only storage keys they write are the
    stats and the history.  In particular no handler ever turns polling
    off, whatever fails. *)
Theorem job_handlers_write_no_setting (o : Oracle) (w : World) :
  settings_of (store (exec o pollForJob w).2) = settings_of (store w)
  ∧ (∀ message senderTabId,
       settings_of (store (exec o (onMessage message senderTabId) w).2)
       = settings_of (store w))
  ∧ (∀ tabId,
       settings_of (store (exec o (handleJobTimeout tabId) w).2) = settings_of (store w))
  ∧ (∀ tabId,
       settings_of (store (exec o (onTabRemoved tabId) w).2) = settings_of (store w))
  ∧ (∀ job,
       settings_of (store (exec o (processJob job) w).2) = settings_of (store w)).
Proof.
  split; [|split; [|split; [|split]]]; intros; apply keeps_settings_exec; intros x.
  - apply pollForJob_settings.
  - apply onMessage_settings.
  - apply handleJobTimeout_settings.
  - apply onTabRemoved_settings.
  - apply processJob_settings.
Qed.


(** ** A dispatch followed by its success signal *)

(** X16.  Dispatch and success compose to a clean round trip.  After a
    dispatch whose [try] block completed, the job is registered under the
    id [t] of the tab that was opened.  When the content script of that
    tab then signals success and the [completeJob] report is fulfilled,
    the registry is what it was before the dispatch without an entry for
    [t], the crash retry counter of the job is gone, [processed] and
    [succeeded] are one higher than before the dispatch and [failed] is
    unchanged, the current-job indicator is cleared, the newest history
    record is the record of this dispatch with status [Completed] in front
    of the 49 newest older records, and the tab was closed by exactly one
    [tabs.remove] call.  When the report is rejected the job is still
    registered under [t] and storage is as the dispatch left it. *)
Theorem dispatch_then_success_round_trip (o o' : Oracle) (w : World) (job : Job) :
  (exec o (processJob_try job) w).1 = Returned tt →
  ∃ w1 t w2 client r,
    exec o (processJob job) w = (Returned tt, w1)
    ∧ t ≠ 0
    ∧ activeJobs (mem w1) !! t = Some job
    ∧ exec o' (onMessage (JOB_SUCCESS (job_id job)) (Some t)) w1 = (Returned tt, w2)
    ∧ observed (trace w2)
      = EvAsync (CompleteJob client (job_id job)) r
        :: EvAsync (TabsCreate (deviationUrl (deviation job)))
             (Fulfilled {| tab_id := Some t |})
        :: observed (trace w)
    ∧ match r with
      | Fulfilled _ =>
          activeJobs (mem w2) = delete t (activeJobs (mem w))
          ∧ tabClosureRetries (mem w2) = delete (job_id job) (tabClosureRetries (mem w))
          ∧ counters (store w2)
            = ((counters (store w)).1.1 + 1, (counters (store w)).1.2 + 1,
               (counters (store w)).2)
          ∧ current_of (store w2) = None
          ∧ (∃ now now',
               history w2
               = with_status Completed now' (historyItem_of job Processing now)
                 :: take 49 (history w))
          ∧ count is_tabsRemove (trace w2) = (count is_tabsRemove (trace w) + 1)%nat
      | Rejected _ =>
          activeJobs (mem w2) !! t = Some job ∧ store w2 = store w1
      end.
Proof.
  intros Hok.
  destruct (processJob_try_registered o w job) as (r1 & w1 & rc & E & Hobs & Hk & Hmem).
  destruct (processJob_try_spec o w job)
    as (r1' & w1' & now & rc' & E' & _ & Hs & Hr & _).
  rewrite E in E'. injection E' as <- <-.
  rewrite E in Hok. cbn [fst] in Hok. subst r1.
  destruct rc as [[tid]|err]; cbn [tab_id] in Hmem; [|by destruct Hmem].
  destruct (truthy_num tid) eqn:Hid; [|by destruct Hmem].
  destruct (truthy_num_Some _ Hid) as (t & Hnz & ->). cbn [default] in Hmem.
  destruct Hmem as (timeoutId & Hmem).
  assert (activeJobs (mem w1) = <[t := job]> (activeJobs (mem w))) as Ha by (by rewrite Hmem).
  assert (exec o (processJob job) w = (Returned tt, w1)) as Hrun.
  { unfold processJob. by rewrite exec_catch, E. }
  assert (activeJobs (mem w1) !! t = Some job) as Hjob.
  { rewrite Ha. apply lookup_insert_eq. }
  destruct (handleJobSuccess_spec o' w1 t (job_id job)) as (w2 & client & r & E2 & Ht2 & Hr2).
  destruct (handleJobSuccess_cleanup o' w1 t (job_id job))
    as (w2' & client' & r' & E2' & Ht2' & _ & _ & Hr2').
  rewrite E2 in E2'. injection E2' as <-.
  assert (report_fulfilled (EvAsync (CompleteJob client (job_id job)) r)
          = report_fulfilled (EvAsync (CompleteJob client' (job_id job)) r')) as Hsame.
  { rewrite Ht2 in Ht2'.
    apply (f_equal (λ l, report_fulfilled <$> head l)) in Ht2'.
    cbn [head fmap option_fmap option_map] in Ht2'. by injection Ht2'. }
  cbn in Hsame.
  exists w1, t, w2, client, r.
  split; [done|]. split; [done|]. split; [done|].
  split; [cbn [onMessage]; by rewrite Hid|].
  split; [by rewrite Ht2, Hobs|].
  destruct r as [[]|err]; destruct r' as [[]|err']; try discriminate Hsame.
  - destruct Hr2 as (Ha2 & Hc2 & n1 & n2 & Hs2). destruct Hr2' as (_ & _ & Hk2).
    split; [by rewrite Ha2, Ha, delete_insert_eq|].
    split; [by rewrite Hc2, Hr|].
    split; [by rewrite Hs2, counters_record_succeeded, Hs, counters_dispatched_store|].
    split; [rewrite Hs2; by apply current_of_record_outcome|].
    split; [|by rewrite Hk2, Hk].
    exists now, n2. unfold history. rewrite Hs2, Hs. unfold record_outcome.
    apply (jobHistory_update_head Completed n2 (historyItem_of job Processing now)).
    by rewrite jobHistory_set_stats, jobHistory_dispatched_store.
  - destruct Hr2 as (Ha2 & _ & Hs2). by rewrite Ha2.
Qed.

Lemma dispatch_then_success_round_trip_witness :
  (exec friendly (processJob_try (sampleJob "j1")) fresh).1 = Returned tt
  ∧ ∃ w1 t,
      exec friendly (processJob (sampleJob "j1")) fresh = (Returned tt, w1)
      ∧ activeJobs (mem w1) !! t = Some (sampleJob "j1").
Proof.
  assert ((exec friendly (processJob_try (sampleJob "j1")) fresh).1 = Returned tt)
    as Hok by (vm_compute; reflexivity).
  split; [exact Hok|].
  destruct (dispatch_then_success_round_trip friendly friendly fresh (sampleJob "j1") Hok)
    as (w1 & t & w2 & client & r & E & _ & Hjob & _).
  exists w1, t. split; [exact E|exact Hjob].
Defined.


(** ** One outcome per handler run *)

Lemma at_most_one_outcome_quiet (w w' : World) :
  observed (trace w') = observed (trace w) →
  counters (store w') = counters (store w) →
  at_most_one_outcome w w'.
Proof.
  intros Ht Hs. split; [|by left].
  rewrite (count_by_observed is_report (trace w') _ ltac:(auto with observed) Ht).
  rewrite count_observed by auto with observed. lia.
Qed.

Lemma at_most_one_outcome_from (w w1 w' : World) :
  observed (trace w1) = observed (trace w) →
  store w1 = store w →
  at_most_one_outcome w1 w' → at_most_one_outcome w w'.
Proof.
  intros Ht Hs [Hc Hk]. unfold at_most_one_outcome. rewrite <-Hs. split; [|done].
  rewrite <-(count_observed is_report (trace w)) by auto with observed.
  rewrite <-Ht, count_observed by auto with observed. done.
Qed.

Lemma handleJobSuccess_outcome (o : Oracle) (w : World) (tabId : Z) (jobId : string) :
  at_most_one_outcome w (exec o (handleJobSuccess tabId jobId) w).2.
Proof.
  destruct (handleJobSuccess_spec o w tabId jobId) as (w' & client & r & -> & Ht & Hr).
  cbn [snd]. split.
  - count_observed Ht. lia.
  - destruct r as [?|?].
    + destruct Hr as (_ & _ & now & now' & ->). right. left.
      apply counters_record_succeeded.
    + destruct Hr as (_ & _ & ->). by left.
Qed.

Lemma handleJobFailure_outcome (o : Oracle) (w : World) (tabId : option Z)
    (jobId errorMessage : string) :
  at_most_one_outcome w (exec o (handleJobFailure tabId jobId errorMessage) w).2.
Proof.
  destruct (handleJobFailure_spec o w tabId jobId errorMessage)
    as (w' & client & r & -> & Ht & _ & _ & Hr).
  cbn [snd]. split.
  - count_observed Ht. lia.
  - destruct r as [?|?].
    + destruct Hr as (now & now' & ->). right. right. apply counters_record_failed.
    + rewrite Hr. by left.
Qed.

Lemma processJob_outcome (o : Oracle) (w : World) (job : Job) :
  at_most_one_outcome w (exec o (processJob job) w).2.
Proof.
  destruct (processJob_spec o w job) as (w' & now & rc & -> & Hcases).
  cbn [snd]. destruct (exec o (processJob_try job) w).1 as [[]|e].
  - destruct Hcases as (Ht & Hs & _). split.
    + count_observed Ht. lia.
    + left. by rewrite Hs, counters_dispatched_store.
  - destruct Hcases as (client & r & Ht & _ & Hs). split.
    + count_observed Ht. lia.
    + destruct r as [?|?].
      * destruct Hs as (now1 & now2 & ->). right. right.
        by rewrite counters_record_failed, counters_dispatched_store.
      * left. by rewrite Hs, counters_dispatched_store.
Qed.

Lemma counters_installed_store (uuid : string) (s : Storage) :
  counters (installed_store uuid s) = counters s.
Proof.
  unfold counters.
  destruct (installed_store_fields uuid s) as (_ & -> & _). by destruct (stats s).
Qed.

(** X17.  One outcome per handler run.  Whichever listener the browser
    starts (installation, the poll alarm, an outcome message, a job
    timeout, a tab removal), from whatever state and under whatever
    environment, one run of it makes at most one backend report
    ([completeJob] or [failJob]) and either leaves the three stats counters
    as they are or advances them by exactly one outcome: [processed] and
    [succeeded] by one, or [processed] and [failed] by one.  No single
    event counts a job twice. *)
Theorem one_outcome_per_handler_run (o : Oracle) (w : World) (p : Prog unit) :
  entry p →
  (count is_report (trace (exec o p w).2) ≤ count is_report (trace w) + 1)%nat
  ∧ (counters (store (exec o p w).2) = counters (store w)
     ∨ counters (store (exec o p w).2)
       = ((counters (store w)).1.1 + 1, (counters (store w)).1.2 + 1,
          (counters (store w)).2)
     ∨ counters (store (exec o p w).2)
       = ((counters (store w)).1.1 + 1, (counters (store w)).1.2,
          (counters (store w)).2 + 1)).
Proof.
  intros Hentry. change (at_most_one_outcome w (exec o p w).2).
  destruct Hentry as [ | |message senderTabId|tabId|tabId].
  - destruct (onInstalled_spec o w) as (w' & uuid & -> & _ & Hs & Ht). cbn [snd].
    apply at_most_one_outcome_quiet; [done|]. by rewrite Hs, counters_installed_store.
  - destruct (poll_ready (store w)) eqn:Hready.
    + destruct (pollForJob_ready o w Hready) as (w1 & r & Ht & _ & Hs & ->).
      assert (at_most_one_outcome w w1) as Hfetch.
      { split; [|left; by rewrite Hs]. count_observed Ht. lia. }
      destruct r as [[job|]|e]; [|done|by destruct (nullish e)].
      pose proof (processJob_outcome o w1 job) as [Hc Hk].
      split; [|by rewrite <-Hs].
      rewrite <-(count_observed is_report (trace w)) by auto with observed.
      assert (count is_report (observed (trace w1)) = count is_report (observed (trace w)))
        as <- by (by rewrite Ht).
      by rewrite count_observed by auto with observed.
    + destruct (pollForJob_not_ready o w Hready) as (w' & -> & _ & Hs & Ht). cbn [snd].
      apply at_most_one_outcome_quiet; [done|by rewrite Hs].
  - destruct message as [jobId|jobId error]; cbn [onMessage].
    + destruct (truthy_num senderTabId).
      * apply handleJobSuccess_outcome.
      * by apply at_most_one_outcome_quiet.
    + apply handleJobFailure_outcome.
  - destruct (activeJobs (mem w) !! tabId) as [job|] eqn:Hjob.
    + destruct (handleJobTimeout_present o w tabId job Hjob) as (w1 & -> & _ & Hs & Ht).
      eapply at_most_one_outcome_from; [done..|]. apply handleJobFailure_outcome.
    + rewrite handleJobTimeout_absent by done. by apply at_most_one_outcome_quiet.
  - destruct (activeJobs (mem w) !! tabId) as [job|] eqn:Hjob.
    + destruct (Z.lt_ge_cases (retryCount_of (mem w) (job_id job)) MAX_TAB_CLOSURE_RETRIES)
        as [Hlt|Hge].
      * destruct (onTabRemoved_retry o w tabId job Hjob Hlt)
          as (w1 & x & tr & -> & _ & _ & _ & Hs & Ht).
        eapply at_most_one_outcome_from; [done..|]. apply processJob_outcome.
      * destruct (onTabRemoved_ceiling o w tabId job Hjob Hge)
          as (w' & client & r & -> & Ht & _ & _ & Hr).
        cbn [snd]. split; [count_observed Ht; lia|].
        destruct r as [?|?].
        -- destruct Hr as (now & now' & ->). right. right. apply counters_record_failed.
        -- rewrite Hr. by left.
    + rewrite onTabRemoved_absent by done. by apply at_most_one_outcome_quiet.
Qed.

Lemma one_outcome_per_handler_run_witness :
  (count is_report
     (trace (exec friendly (onMessage (JOB_SUCCESS "j1") (Some 7%Z))
               (running (sampleJob "j1"))).2)
   ≤ count is_report (trace (running (sampleJob "j1"))) + 1)%nat.
Proof.
  exact (proj1 (one_outcome_per_handler_run friendly (running (sampleJob "j1")) _
                  (entry_message (JOB_SUCCESS "j1") (Some 7)))).
Defined.

(** ** Polling control *)

Lemma ctl_bind_worker {A B} (p : Prog A) (f : A → Ctl B) (o : Oracle) (so : ShellOracle)
    (b : Browser) :
  ctl_bind (worker p) f o so b
  = match exec o p (world b) with
    | (Returned a, w') => f a o so {| world := w'; shell := shell b |}
    | (Threw e, w') => (Threw e, {| world := w'; shell := shell b |})
    end.
Proof. unfold ctl_bind, worker. by destruct (exec o p (world b)) as [[a|e] w']. Qed.

Lemma ctl_bind_call {X B} (c : Shell X) (f : X → Ctl B) (o : Oracle) (so : ShellOracle)
    (b : Browser) :
  ctl_bind (call c) f o so b
  = match so X (length (shell b)) c with
    | Fulfilled x =>
        f x o so {| world := world b; shell := EvShell c (Fulfilled x) :: shell b |}
    | Rejected e =>
        (Threw e, {| world := world b; shell := EvShell c (Rejected e) :: shell b |})
    end.
Proof. unfold ctl_bind, call. by destruct (so X (length (shell b)) c). Qed.

Lemma ctl_call {X} (c : Shell X) (o : Oracle) (so : ShellOracle) (b : Browser) :
  call c o so b
  = match so X (length (shell b)) c with
    | Fulfilled x =>
        (Returned x, {| world := world b; shell := EvShell c (Fulfilled x) :: shell b |})
    | Rejected e =>
        (Threw e, {| world := world b; shell := EvShell c (Rejected e) :: shell b |})
    end.
Proof. unfold call. by destruct (so X (length (shell b)) c). Qed.

Lemma ctl_bind_eq {A B} (p : Ctl A) (f : A → Ctl B) (o : Oracle) (so : ShellOracle)
    (b : Browser) :
  ctl_bind p f o so b
  = match p o so b with
    | (Returned a, b') => f a o so b'
    | (Threw e, b') => (Threw e, b')
    end.
Proof. reflexivity. Qed.

Lemma ctl_worker {A} (p : Prog A) (o : Oracle) (so : ShellOracle) (b : Browser) :
  worker p o so b
  = ((exec o p (world b)).1, {| world := (exec o p (world b)).2; shell := shell b |}).
Proof. unfold worker. by destruct (exec o p (world b)). Qed.

Ltac ctl_norm :=
  unfold mbind, mret, Ctl_bind, Ctl_ret;
  unfold ctl_catch, ctl_ret, ctl_throw;
  exec_simpl; cbn [world shell length]; unit_answers.

(** One statement of control code. *)
Ltac ctl_step :=
  first
  [ rewrite ctl_bind_worker
  | rewrite ctl_bind_call
  | rewrite ctl_call ];
  exec_simpl; cbn [world shell length]; unit_answers.

Ltac ctl_split :=
  lazymatch goal with
  | |- context [match ?so ?X ?n ?c with Fulfilled _ => _ | Rejected _ => _ end] =>
      destruct (so X n c) eqn:?
  end;
  exec_simpl; cbn [world shell length]; unit_answers.

(** The poll tick at the end of [startPolling]. *)
Ltac ctl_poll :=
  rewrite (ctl_worker pollForJob);
  lazymatch goal with
  | |- context [exec ?o pollForJob ?w] =>
      let wp := fresh "wp" in
      let Ep := fresh "Ep" in
      let Hm := fresh "Hpm" in
      let Hs := fresh "Hps" in
      let Ho := fresh "Hpo" in
      destruct (pollForJob_result o w) as (wp & [Ep | (Ep & Hm & Hs & Ho)]);
      rewrite Ep;
      cbn [world shell] in Ep;
      try (cbn [world shell] in Hm, Hs, Ho; exec_cbn_in Hm; exec_cbn_in Hs)
  end;
  cbn [fst snd]; exec_simpl; cbn [world shell length]; unit_answers.

Ltac ctl_run := ctl_norm; repeat first [ctl_step | ctl_split | ctl_poll].

Ltac shell_simpl :=
  cbn [last_badge alarms_created health_checks List.filter is_alarmsCreate
       is_healthCheck length].

Lemma startPolling_spec (o : Oracle) (so : ShellOracle) (b : Browser) :
  ∃ r b',
    startPolling o so b = (r, b')
    ∧ match r with
      | Returned _ =>
          ∃ w1 client status,
            exec o pollForJob w1 = (Returned tt, world b')
            ∧ quiet (world b) w1
            ∧ shell b'
              = EvShell (SetBadgeText " ") (Fulfilled tt)
                :: EvShell (SetBadgeBackgroundColor BADGE_GREEN) (Fulfilled tt)
                :: EvShell (AlarmsCreate ALARM_JOB_POLL (polling_period (store (world b))))
                     (Fulfilled tt)
                :: EvShell (HealthCheck client) (Fulfilled status)
                :: shell b
      | Threw e =>
          start_failed b b'
          ∧ (alarms_created (shell b') ≤ alarms_created (shell b) + 1)%nat
      end.
Proof.
  unfold startPolling, start_failed, polling_period. ctl_run.
  all: eexists _, _; (split; [reflexivity|]); cbv beta iota;
    cbn [world shell]; exec_simpl; shell_simpl.
  all: try (eexists _, _, _; (split; [eassumption|]); split; [|reflexivity];
            unfold quiet; by exec_simpl).
  all: unfold alarms_created; shell_simpl;
    (split; [|lia]); (split; [|split; [|split]]); try done.
  all: try (by left).
  all: try (by rewrite Hps).
  all: right; destruct Hpo as (client & cid & error & Hnull & Hobs);
    exists client, cid, error; split; [done|]; exec_cbn_in Hobs; by exec_simpl.
Qed.

Lemma isRunning_of_settings (s s' : Storage) :
  settings_of s' = settings_of s → isRunning s' = isRunning s.
Proof. unfold settings_of. by intros [= -> _ _ _ _ _ _]. Qed.

Lemma pollForJob_keeps_isRunning (o : Oracle) (w : World) :
  isRunning (store (exec o pollForJob w).2) = isRunning (store w).
Proof.
  apply isRunning_of_settings, keeps_settings_exec. intros x. apply pollForJob_settings.
Qed.

(** X18.  The answer to START_POLLING agrees with what is stored and
    shown.  The listener answers [{success: true}] exactly when
    [startPolling] returned: then the running flag is stored as true, the
    badge was last asked to turn green, one health check and one alarm
    creation were made, and the worker state is that of exactly one poll
    tick, which returned, run after the flag was set.  When
    [startPolling] rejects, whichever step failed (the health check, the
    alarm creation, a badge call or the immediate poll), the running flag
    is stored as false, the badge was last asked to turn grey and no job
    was fetched: the job registry, the stats and the history are
    untouched, and the backend was not asked for a job or rejected that
    one request with [null] or [undefined].  The listener then answers
    [{success: false}], unless the value [startPolling] rejected with is
    [null] or [undefined]: reading its [message] throws, and no answer is
    sent at all. *)
Theorem start_polling_answer_matches_state (o : Oracle) (so : ShellOracle) (b : Browser) :
  ∃ r b',
    onControlMessage START_POLLING o so b = (r, b')
    ∧ match r with
      | Returned response =>
          ∃ success error,
            response = Some (Ack success error)
            ∧ isRunning (store (world b')) = Some success
            ∧ last_badge (shell b') = Some (if success then BADGE_GREEN else BADGE_GREY)
            ∧ if success then
                error = None
                ∧ alarms_created (shell b') = S (alarms_created (shell b))
                ∧ health_checks (shell b') = S (health_checks (shell b))
                ∧ ∃ w1,
                    exec o pollForJob w1 = (Returned tt, world b')
                    ∧ mem w1 = mem (world b)
                    ∧ store w1 = set_isRunning true (store (world b))
                    ∧ observed (trace w1) = observed (trace (world b))
              else
                mem (world b') = mem (world b)
                ∧ store (world b') = set_isRunning false (store (world b))
                ∧ (observed (trace (world b')) = observed (trace (world b))
                   ∨ poll_rejected_nullish (world b) (world b'))
      | Threw e =>
          no_properties e
          ∧ last_badge (shell b') = Some BADGE_GREY
          ∧ mem (world b') = mem (world b)
          ∧ store (world b') = set_isRunning false (store (world b))
          ∧ (observed (trace (world b')) = observed (trace (world b))
             ∨ poll_rejected_nullish (world b) (world b'))
      end.
Proof.
  cbn [onControlMessage]. ctl_norm. ctl_step. rewrite ctl_bind_eq.
  match goal with
  | |- context [startPolling o so ?b1] =>
      destruct (startPolling_spec o so b1) as (r & b' & -> & Hr)
  end.
  destruct r as [[]|e]; cbv beta iota.
  - destruct Hr as (w1 & client & status & Hw & (Hm & Hs & Ht) & Hsh).
    exec_cbn_in Hm. exec_cbn_in Hs. exec_cbn_in Ht. cbn [world shell] in *.
    eexists _, b'. split; [reflexivity|]. exists true, None. split; [done|].
    assert (isRunning (store (world b')) = isRunning (store w1)) as ->.
    { pose proof (pollForJob_keeps_isRunning o w1) as Hk. by rewrite Hw in Hk. }
    rewrite Hsh, Hs. shell_simpl. unfold alarms_created, health_checks.
    repeat split; try done. by exists w1.
  - destruct Hr as ((Hm & Hs & Hb & Ht) & _).
    exec_cbn_in Hm. exec_cbn_in Hs. cbn [world shell] in *.
    assert (observed (trace (world b')) = observed (trace (world b))
            ∨ poll_rejected_nullish (world b) (world b')) as Hpoll.
    { destruct Ht as [Ht|(client & cid & error & Hnull & Ht)]; exec_cbn_in Ht;
        [by left|right]. by exists client, cid, error. }
    destruct e as [m|m| |]; ctl_norm; cbn [message_property];
      eexists _, b'; (split; [reflexivity|]); cbv beta iota.
    + exists false, (Some m). rewrite Hs, Hb. by repeat split.
    + exists false, m. rewrite Hs, Hb. by repeat split.
    + split; [by exists Null|]. by repeat split.
    + split; [by exists Undefined|]. by repeat split.
Qed.

(** X19.  Starting while the backend is down.  If the health check is
    rejected and the badge calls succeed, the control calls made are
    exactly the health check and the two badge calls (grey), so no alarm
    is created; the running flag, which the listener had just set, is
    stored as false again; and no job is fetched.  START_POLLING is then
    answered with [{success: false, error}], where [error] is the
    [message] property of the value the health check was rejected with;
    when that value is [null] or [undefined] the property cannot be read
    and no answer is sent. *)
Theorem start_polling_with_backend_down (o : Oracle) (so : ShellOracle) (b : Browser)
    (e : Thrown) :
  (∀ n client, so string n (HealthCheck client) = Rejected e) →
  (∀ n color, so unit n (SetBadgeBackgroundColor color) = Fulfilled tt) →
  (∀ n text, so unit n (SetBadgeText text) = Fulfilled tt) →
  ∃ b',
    onControlMessage START_POLLING o so b
    = (match message_property e with
       | Returned message => Returned (Some (Ack false message))
       | Threw error => Threw error
       end, b')
    ∧ shell b'
      = EvShell (SetBadgeText " ") (Fulfilled tt)
        :: EvShell (SetBadgeBackgroundColor BADGE_GREY) (Fulfilled tt)
        :: EvShell (HealthCheck (client_of (store (world b)))) (Rejected e)
        :: shell b
    ∧ mem (world b') = mem (world b)
    ∧ store (world b') = set_isRunning false (store (world b))
    ∧ observed (trace (world b')) = observed (trace (world b)).
Proof.
  intros Hhealth Hcolor Htext.
  cbn [onControlMessage]. unfold startPolling, client_of. ctl_norm.
  ctl_step. rewrite ctl_bind_eq. ctl_norm.
  do 3 ctl_step. rewrite Hhealth. do 3 ctl_step. rewrite Hcolor. ctl_step.
  rewrite Htext.
  destruct e as [m|m| |]; cbn [message_property]; ctl_norm;
    (eexists; split; [reflexivity|]); by exec_simpl.
Qed.

Lemma start_polling_with_backend_down_witness :
  ∃ b',
    onControlMessage START_POLLING friendly unhealthy (browser_of configured)
    = (Returned (Some (Ack false (Some "Network error"))), b')
    ∧ store (world b') = set_isRunning false (store configured).
Proof.
  destruct (start_polling_with_backend_down friendly unhealthy (browser_of configured)
              (Error "Network error"))
    as (b' & E & _ & _ & Hs & _); try (intros; reflexivity).
  exists b'. split; [exact E|exact Hs].
Defined.

Ltac stop_done :=
  (split; [reflexivity|]); exec_simpl; cbn [world shell]; trace_simpl; shell_simpl;
  cbn [app head]; unfold alarms_created; shell_simpl;
  repeat split; first [done | by eexists _, _].

Lemma stopPolling_spec (o : Oracle) (so : ShellOracle) (b : Browser) :
  ∃ r b' evs answer,
    stopPolling o so b = (r, b')
    ∧ shell b' = evs ++ [EvShell (AlarmsClear ALARM_JOB_POLL) answer] ++ shell b
    ∧ alarms_created (shell b') = alarms_created (shell b)
    ∧ mem (world b') = mem (world b)
    ∧ store (world b') = store (world b)
    ∧ count is_clearTimeout (trace (world b')) = count is_clearTimeout (trace (world b))
    ∧ count is_tabsRemove (trace (world b')) = count is_tabsRemove (trace (world b))
    ∧ observed (trace (world b')) = observed (trace (world b))
    ∧ match r with
      | Returned _ => last_badge (shell b') = Some BADGE_GREY
      | Threw e => ∃ X (c : Shell X), head (shell b') = Some (EvShell c (Rejected e))
      end.
Proof.
  unfold stopPolling. ctl_run.
  all: eexists _, _;
    first
    [ solve [eexists [_; _], _; stop_done]
    | solve [eexists [_], _; stop_done]
    | solve [eexists [], _; stop_done] ].
Qed.

(** X20.  Stopping leaves the running jobs alone.  STOP_POLLING stores the
    running flag as false and asks the browser to clear the poll alarm
    first.  It does not touch the job registry, the timers, the retry
    counters, the stats or the history, clears no timer, closes no tab and
    calls no backend operation: a job in flight goes on and is finalized
    by its own signals.  If the alarm fires all the same afterwards, the
    poll tick does nothing.  The answer is [{success: true}] when the
    alarm and the badge calls succeeded, and then the badge was asked to
    turn grey; when one of them was rejected, the answer is
    [{success: false, error}] with the [message] property of the rejected
    value, and when that value is [null] or [undefined] the property
    cannot be read and no answer is sent. *)
Theorem stop_polling_leaves_running_jobs (o o' : Oracle) (so so' : ShellOracle)
    (b : Browser) :
  ∃ r b' evs answer,
    onControlMessage STOP_POLLING o so b = (r, b')
    ∧ shell b' = evs ++ [EvShell (AlarmsClear ALARM_JOB_POLL) answer] ++ shell b
    ∧ alarms_created (shell b') = alarms_created (shell b)
    ∧ mem (world b') = mem (world b)
    ∧ store (world b') = set_isRunning false (store (world b))
    ∧ count is_clearTimeout (trace (world b')) = count is_clearTimeout (trace (world b))
    ∧ count is_tabsRemove (trace (world b')) = count is_tabsRemove (trace (world b))
    ∧ observed (trace (world b')) = observed (trace (world b))
    ∧ match r with
      | Returned response =>
          (response = Some (Ack true None) ∧ last_badge (shell b') = Some BADGE_GREY)
          ∨ ∃ X (c : Shell X) error message,
              head (shell b') = Some (EvShell c (Rejected error))
              ∧ message_property error = Returned message
              ∧ response = Some (Ack false message)
      | Threw e =>
          ∃ X (c : Shell X) error,
            head (shell b') = Some (EvShell c (Rejected error))
            ∧ nullish error = true
            ∧ message_property error = Threw e
      end
    ∧ ∃ b'',
        onAlarm ALARM_JOB_POLL o' so' b' = (Returned tt, b'')
        ∧ shell b'' = shell b'
        ∧ quiet (world b') (world b'').
Proof.
  cbn [onControlMessage]. ctl_norm. ctl_step. rewrite ctl_bind_eq.
  match goal with
  | |- context [stopPolling o so ?b1] =>
      destruct (stopPolling_spec o so b1)
        as (r & b' & evs & answer & -> & Hsh & Ha & Hm & Hs & Hc & Hk & Ht & Hb)
  end.
  exec_cbn_in Hm. exec_cbn_in Hs. exec_cbn_in Ht. exec_cbn_in Hc. exec_cbn_in Hk.
  cbn [world shell] in *.
  assert (∃ b'',
            onAlarm ALARM_JOB_POLL o' so' b' = (Returned tt, b'')
            ∧ shell b'' = shell b'
            ∧ quiet (world b') (world b'')) as Htick.
  { unfold onAlarm. rewrite String.eqb_refl, (ctl_worker pollForJob).
    destruct (pollForJob_not_ready o' (world b')) as (w' & -> & Hq).
    - unfold poll_ready. by rewrite Hs.
    - by eexists. }
  destruct r as [[]|e]; cbv beta iota.
  - eexists _, b', evs, answer. split; [reflexivity|].
    repeat split; try done. by left.
  - destruct Hb as (X & c & Hhead).
    destruct e as [m|m| |]; ctl_norm; cbn [message_property];
      eexists _, b', evs, answer; (split; [reflexivity|]);
      repeat split; try done.
    + right. by exists X, c, (Error m), (Some m).
    + right. by exists X, c, (NonError m), m.
    + by exists X, c, Null.
    + by exists X, c, Undefined.
Qed.

(** X22.  Auto-start at browser start-up.  When the running flag is not
    stored as true the start-up listener makes no control call at all and
    leaves the worker state alone.  When it is, the listener runs
    [startPolling]; if that rejects (the backend is down at start-up, the
    alarm or a badge call fails, or the immediate poll rejects) the
    listener rejects too and the running flag is stored as false, so
    auto-start stays off at the next start-up until the user starts
    polling again, and no job was fetched; if it returns the flag is still
    stored as true and the badge was asked to turn green. *)
Theorem startup_autostart (o : Oracle) (so : ShellOracle) (b : Browser) :
  ∃ r b',
    onStartup o so b = (r, b')
    ∧ if truthy_bool (isRunning (store (world b))) then
        match r with
        | Returned _ =>
            truthy_bool (isRunning (store (world b'))) = true
            ∧ last_badge (shell b') = Some BADGE_GREEN
            ∧ alarms_created (shell b') = S (alarms_created (shell b))
        | Threw _ =>
            isRunning (store (world b')) = Some false
            ∧ last_badge (shell b') = Some BADGE_GREY
            ∧ mem (world b') = mem (world b)
            ∧ (observed (trace (world b')) = observed (trace (world b))
               ∨ poll_rejected_nullish (world b) (world b'))
        end
      else
        r = Returned tt ∧ shell b' = shell b ∧ quiet (world b) (world b').
Proof.
  unfold onStartup. ctl_norm. do 2 ctl_step. exec_simpl.
  destruct (truthy_bool (isRunning (store (world b)))) eqn:Hrun; cbv beta iota.
  - match goal with
    | |- context [startPolling o so ?b1] =>
        destruct (startPolling_spec o so b1) as (r & b' & -> & Hr)
    end.
    exists r, b'. split; [done|]. destruct r as [[]|e].
    + destruct Hr as (w1 & client & status & Hw & (Hm & Hs & Ht) & Hsh).
      exec_cbn_in Hm. exec_cbn_in Hs. exec_cbn_in Ht. cbn [world shell] in *.
      assert (isRunning (store (world b')) = isRunning (store w1)) as ->.
      { pose proof (pollForJob_keeps_isRunning o w1) as Hk. by rewrite Hw in Hk. }
      rewrite Hsh, Hs. shell_simpl.
      unfold alarms_created. by repeat split.
    + destruct Hr as ((Hm & Hs & Hb & Ht) & _).
      exec_cbn_in Hm. exec_cbn_in Hs. cbn [world shell] in *.
      rewrite Hs, Hb. by repeat split.
  - eexists _, _. split; [reflexivity|]. unfold quiet. by exec_simpl.
Qed.


(** ** The logger *)

Lemma slice_last_length {A} (n : nat) (l : list A) :
  length (slice_last n l) = (length l `min` n)%nat.
Proof. unfold slice_last. rewrite length_drop. lia. Qed.

Lemma slice_last_app {A} (n : nat) (l k : list A) :
  slice_last n (slice_last n l ++ k) = slice_last n (l ++ k).
Proof.
  unfold slice_last. rewrite !length_app, length_drop.
  destruct (decide (length l ≤ n)%nat) as [Hle|Hgt].
  - replace (length l - n)%nat with O by lia. cbn [drop].
    by replace (length l - 0)%nat with (length l) by lia.
  - remember (length l - n)%nat as a eqn:Ha.
    replace (l ++ k) with (take a l ++ (drop a l ++ k))
      by (by rewrite (assoc_L (++)), take_drop).
    replace (length l + length k - n)%nat with (length (take a l) + length k)%nat
      by (rewrite length_take; lia).
    rewrite drop_app_add. f_equal. lia.
Qed.

Lemma slice_last_suffix {A} (n : nat) (l : list A) :
  ∃ dropped, l = dropped ++ slice_last n l ∧ length dropped = (length l - n)%nat.
Proof.
  exists (take (length l - n) l). unfold slice_last.
  rewrite take_drop, length_take. split; [done|lia].
Qed.

Lemma Logger_log_all_spec {C} (entries : list (LogEntry C)) :
  ∀ logs : option (list (LogEntry C)),
    entries ≠ [] →
    Logger_log_all entries logs
    = Some (slice_last MAX_LOGS (default [] logs ++ entries)).
Proof.
  induction entries as [|e es IH] using rev_ind; intros logs Hne; [done|].
  unfold Logger_log_all in *. rewrite foldl_snoc.
  destruct es as [|e' es'].
  - cbn [foldl app]. unfold Logger_log. by destruct e.
  - rewrite IH by done. unfold Logger_log. cbn [default from_option id].
    rewrite slice_last_app, <-(assoc_L (++)). by destruct e.
Qed.

(** X23.  The log keeps the newest thousand entries.  After any non-empty
    sequence of [Logger.log] calls, each run to its end before the next one
    starts, the stored log is the last 1000 entries
    of the previously stored log followed by the new entries, in order: at
    most 1000 entries are stored, the entry logged last is the last one
    stored, nothing is reordered, and what is dropped is dropped from the
    old end.  While fewer than 1000 entries exist nothing is dropped.
    [Logger.clearLogs] leaves exactly one entry, the notice of the
    clearing. *)
Theorem log_keeps_newest_thousand {C} (logs : option (list (LogEntry C)))
    (e : LogEntry C) (es : list (LogEntry C)) :
  let all := default [] logs ++ e :: es in
  ∃ stored dropped,
    Logger_log_all (e :: es) logs = Some stored
    ∧ all = dropped ++ stored
    ∧ length stored = (length all `min` 1000)%nat
    ∧ last stored = last (e :: es)
    ∧ (∀ now, ∃ notice : LogEntry C,
         Logger_clearLogs now (Some stored) = Some [notice]
         ∧ le_message notice = "Logs cleared" ∧ le_timestamp notice = now).
Proof.
  intros all. rewrite Logger_log_all_spec by done. fold all.
  destruct (slice_last_suffix MAX_LOGS all) as (dropped & Hall & Hlen).
  exists (slice_last MAX_LOGS all), dropped.
  split; [done|]. split; [done|]. split; [apply slice_last_length|].
  split.
  - assert (length (slice_last MAX_LOGS all) ≠ 0)%nat as Hne.
    { rewrite slice_last_length. unfold all, MAX_LOGS. rewrite length_app. cbn. lia. }
    assert (last all = last (e :: es)) as <-.
    { unfold all. rewrite last_app.
      destruct (proj2 (last_is_Some (e :: es)) ltac:(done)) as [y ->]. done. }
    rewrite Hall at 2. rewrite last_app.
    destruct (last (slice_last MAX_LOGS all)) eqn:Hlast; [done|].
    apply last_None in Hlast. by rewrite Hlast in Hne.
  - intros now. eexists. by split; [reflexivity|].
Qed.
